(** * The variant-selection form widget: validate, serialize, encrypt, redirect

    A shallow embedding of the three revisions of the [App] component:

    - [AppMui]      src/src/App.tsx, first revision (MUI inputs, the variant
                    is a plain string, entry uid and content type are typed
                    by the user);
    - [AppVenus]    src/src/App.tsx, second revision (Venus inputs, the
                    variant is an option object);
    - [AppSidebar]  the revision wired to the CMS sidebar (entry uid,
                    content type and stack key come from the host).

    JavaScript strings are modelled as [string]: a sequence of 8-bit code
    units.  That is the domain on which [btoa] is defined, and on it
    [JSON.stringify] escapes exactly the quote, the backslash and the
    control characters. *)

From Stdlib Require Import String Ascii List Bool Arith ZArith NArith Lia.
From Stdlib Require Import DecimalString.
From Stdlib Require Import DecimalPos DecimalZ.
Import ListNotations.

Local Open Scope list_scope.
Local Open Scope string_scope.

(** ** JSON values and [JSON.stringify] *)

(** The values the handlers serialize: strings, numbers, arrays and objects
    with their keys in insertion order. *)
#[warnings="-register-all"]
Inductive JSON : Type :=
| JString (s : string)
| JNumber (z : Z)
| JArray (items : list JSON)
| JObject (members : list (string * JSON)).

Definition hex_digit (n : N) : ascii :=
  match String.get (N.to_nat n) "0123456789abcdef" with
  | Some c => c
  | None => "0"%char
  end.

(** One code unit inside a JSON string literal (ECMAScript QuoteJSONString). *)
Definition quote_char (c : ascii) : string :=
  let n := N_of_ascii c in
  if (n =? 8)%N then "\b"
  else if (n =? 9)%N then "\t"
  else if (n =? 10)%N then "\n"
  else if (n =? 12)%N then "\f"
  else if (n =? 13)%N then "\r"
  else if (n =? 34)%N then String "\"%char (String (ascii_of_N 34) "")
  else if (n =? 92)%N then "\\"
  else if (n <? 32)%N then
    "\u00" ++ String (hex_digit (n / 16)) (String (hex_digit (n mod 16)) "")
  else String c "".

Fixpoint quote_chars (s : string) : string :=
  match s with
  | EmptyString => ""
  | String c rest => quote_char c ++ quote_chars rest
  end.

Definition dquote : string := String (ascii_of_N 34) "".

Definition QuoteJSONString (s : string) : string :=
  dquote ++ quote_chars s ++ dquote.

(** Integers print in decimal, as JavaScript prints every integer of
    magnitude below 10^21; the numbers serialized here are the ids of the
    variant options. *)
Definition Number_toString (z : Z) : string :=
  NilZero.string_of_int (Z.to_int z).

Definition join_comma (parts : list string) : string :=
  String.concat "," parts.

Fixpoint JSON_stringify (v : JSON) : string :=
  match v with
  | JString s => QuoteJSONString s
  | JNumber z => Number_toString z
  | JArray items => "[" ++ join_comma (map JSON_stringify items) ++ "]"
  | JObject members =>
      "{" ++ join_comma
               (map (fun kv => QuoteJSONString (fst kv) ++ ":" ++ JSON_stringify (snd kv))
                    members)
          ++ "}"
  end.

(** Property read [obj[key]]. *)
Definition JSON_get (key : string) (v : JSON) : option JSON :=
  match v with
  | JObject members =>
      option_map snd (find (fun kv => String.eqb (fst kv) key) members)
  | _ => None
  end.

(** ** [btoa] *)

Definition b64_alphabet : string :=
  "ABCDEFGHIJKLMNOPQRSTUVWXYZabcdefghijklmnopqrstuvwxyz0123456789+/".

Definition b64_char (n : N) : ascii :=
  match String.get (N.to_nat n) b64_alphabet with
  | Some c => c
  | None => "="%char
  end.

(** Three code units give four characters; a tail of one or two code units
    is padded with [=]. *)
Fixpoint btoa (s : string) : string :=
  match s with
  | EmptyString => ""
  | String a EmptyString =>
      let x := N_of_ascii a in
      String (b64_char (x / 4))
        (String (b64_char ((x mod 4) * 16)) "==")
  | String a (String b EmptyString) =>
      let x := N_of_ascii a in
      let y := N_of_ascii b in
      String (b64_char (x / 4))
        (String (b64_char ((x mod 4) * 16 + y / 16))
           (String (b64_char ((y mod 16) * 4)) "="))
  | String a (String b (String c rest)) =>
      let x := N_of_ascii a in
      let y := N_of_ascii b in
      let z := N_of_ascii c in
      String (b64_char (x / 4))
        (String (b64_char ((x mod 4) * 16 + y / 16))
           (String (b64_char ((y mod 16) * 4 + z / 64))
              (String (b64_char (z mod 64)) (btoa rest))))
  end.

Fixpoint index_of (c : ascii) (s : string) (i : N) : option N :=
  match s with
  | EmptyString => None
  | String d rest => if Ascii.eqb c d then Some i else index_of c rest (i + 1)%N
  end.

Definition b64_index (c : ascii) : option N := index_of c b64_alphabet 0%N.

Definition is_pad (c : ascii) : bool := Ascii.eqb c "="%char.

(** Reading Base64 back, as the receiver of the URL does: groups of four
    characters, padding only in the last group. *)
Fixpoint base64_decode (s : string) : option string :=
  match s with
  | EmptyString => Some ""
  | String a (String b (String c (String d rest))) =>
      match b64_index a, b64_index b with
      | Some p, Some q =>
          let x := ascii_of_N (p * 4 + q / 16) in
          if is_pad c
          then (if is_pad d then match rest with EmptyString => Some (String x "") | _ => None end
                else None)
          else
            match b64_index c with
            | Some r =>
                let y := ascii_of_N ((q mod 16) * 16 + r / 4) in
                if is_pad d
                then match rest with EmptyString => Some (String x (String y "")) | _ => None end
                else
                  match b64_index d, base64_decode rest with
                  | Some t, Some tail =>
                      Some (String x (String y (String (ascii_of_N ((r mod 4) * 64 + t)) tail)))
                  | _, _ => None
                  end
            | None => None
            end
      | _, _ => None
      end
  | _ => None
  end.

(** ** Zod schemas

    The forms hand well-typed values to the schema, so no schema reports a
    type mismatch and no parse aborts: a schema is the function from a value
    (and the path that leads to it) to the issues it raises, in the order
    Zod raises them. *)
Module z.

Record ZodIssue : Type := { path : list string; message : string }.

Definition ZodType (A : Type) : Type := list string -> A -> list ZodIssue.

Definition boolean : ZodType bool := fun _ _ => [].
Definition number : ZodType Z := fun _ _ => [].
Definition string : ZodType String.string := fun _ _ => [].

(** [.min(n, message)] on a string schema: the check on [length]. *)
Definition min (n : nat) (msg : String.string) (t : ZodType String.string)
  : ZodType String.string :=
  fun p s =>
    (t p s ++ (if Nat.ltb (String.length s) n then [{| path := p; message := msg |}] else []))%list.

(** One key of an object shape: the schema of the value, read through the
    getter of the key. *)
Definition key {R A : Type} (name : String.string) (get : R -> A) (t : ZodType A)
  : ZodType R :=
  fun p r => t (p ++ [name])%list (get r).

(** [z.object(shape)]: the keys are parsed in the order of the shape. *)
Definition object {R : Type} (shape : list (ZodType R)) : ZodType R :=
  fun p r => flat_map (fun k => k p r) shape.

(** [.refine(check, { message })]: the check runs on the parsed value and
    its issue comes after those of the inner schema. *)
Definition refine {A : Type} (check : A -> bool) (msg : String.string) (t : ZodType A)
  : ZodType A :=
  fun p a =>
    (t p a ++ (if check a then [] else [{| path := p; message := msg |}]))%list.

Inductive SafeParseReturnType (A : Type) : Type :=
| success (data : A)
| failure (errors : list ZodIssue).
Arguments success {A} data.
Arguments failure {A} errors.

Definition safeParse {A : Type} (t : ZodType A) (data : A) : SafeParseReturnType A :=
  match t [] data with
  | [] => success data
  | errors => failure errors
  end.

End z.

(** ** The two checkbox groups *)

Record Environments : Type :=
  { production : bool; staging : bool; development : bool }.

Record Locales : Type :=
  { en_us : bool; fr_fr : bool; es : bool }.

(** [Object.entries] and [Object.values]: the keys in the order in which
    [defaultValues] creates them. *)
Class ObjectOfBooleans (R : Type) : Type :=
  { Object_entries : R -> list (string * bool) }.

#[export] Instance Environments_object : ObjectOfBooleans Environments :=
  {| Object_entries := fun o =>
       [("production", production o); ("staging", staging o);
        ("development", development o)] |}.

#[export] Instance Locales_object : ObjectOfBooleans Locales :=
  {| Object_entries := fun o =>
       [("en-us", en_us o); ("fr-fr", fr_fr o); ("es", es o)] |}.

Definition Object_values {R : Type} `{ObjectOfBooleans R} (o : R) : list bool :=
  map snd (Object_entries o).

Definition Boolean (b : bool) : bool := b.

(** [Object.values(data).some(Boolean)] *)
Definition some_selected {R : Type} `{ObjectOfBooleans R} (data : R) : bool :=
  existsb Boolean (Object_values data).

(** [Object.entries(o).filter(([_, selected]) => selected).map(([name]) => name)] *)
Definition selected_names {R : Type} `{ObjectOfBooleans R} (o : R) : list string :=
  map fst (filter (fun entry => snd entry) (Object_entries o)).

Definition environments_schema : z.ZodType Environments :=
  z.refine some_selected "Please select at least one environment"
    (z.object [z.key "production" production z.boolean;
               z.key "staging" staging z.boolean;
               z.key "development" development z.boolean]).

Definition locales_schema : z.ZodType Locales :=
  z.refine some_selected "Please select at least one locale"
    (z.object [z.key "en-us" en_us z.boolean;
               z.key "fr-fr" fr_fr z.boolean;
               z.key "es" es z.boolean]).

(** ** The inline error list *)

(** An entry of the [formErrors] state.  Its path is [error.path[0]], which
    is [undefined] ([None]) for an issue raised at the root. *)
Record FormError : Type := { path : option string; message : string }.

Definition strict_eqb (a b : option string) : bool :=
  match a, b with
  | Some x, Some y => String.eqb x y
  | None, None => true
  | _, _ => false
  end.

Definition errorMessage (error : z.ZodIssue) : FormError :=
  {| path := nth_error (z.path error) 0; message := z.message error |}.

(** What a [FormHelperText] of the form shows for a field:
    [formErrors.length > 0 && <FormHelperText>{formErrors.find(...)?.message}]. *)
Inductive Rendered : Type :=
| NotRendered
| HelperText (text : option string).

Definition FormHelperText (formErrors : list FormError) (field : string) : Rendered :=
  if Nat.ltb 0 (List.length formErrors)
  then HelperText
         (option_map message
            (find (fun error => strict_eqb (path error) (Some field)) formErrors))
  else NotRendered.

(** ** The browser and the libraries the handlers call *)

(** CryptoJS draws a fresh salt for every passphrase encryption, so the
    cipher text depends on the state of the random source. *)
Class Platform : Type :=
  { Rng : Type;
    (** [CryptoJS.AES.encrypt(message, passphrase).toString()] *)
    AES_encrypt : string -> string -> Rng -> string * Rng;
    (** [import.meta.env.VITE_APP_ENCRYPT_SECRET] *)
    VITE_APP_ENCRYPT_SECRET : string }.

Inductive Logged (V : Type) : Type :=
| LogData (data : V)
| LogErrors (errors : list z.ZodIssue).
Arguments LogData {V} data.
Arguments LogErrors {V} errors.

(** The calls a handler makes, in the order it makes them. *)
Inductive Call (V : Type) : Type :=
| GetValues
| ConsoleLog (what : Logged V)
| SafeParse (data : V)
| SetFormErrors (errors : list FormError)
| JsonStringify (value : JSON)
| AesEncrypt (message passphrase : string)
| Btoa (text : string)
| WindowOpen (url target : string)
| Alert (text : string).
Arguments GetValues {V}.
Arguments ConsoleLog {V} what.
Arguments SafeParse {V} data.
Arguments SetFormErrors {V} errors.
Arguments JsonStringify {V} value.
Arguments AesEncrypt {V} message passphrase.
Arguments Btoa {V} text.
Arguments WindowOpen {V} url target.
Arguments Alert {V} text.

Section Runtime.
Context `{Platform} {V X : Type}.

(** The component between two events: the values held by the form, the
    [formErrors] state, the other [useState] cells, the random source, and
    the calls made so far. *)
Record World : Type :=
  { formValues : V;
    formErrors : list FormError;
    hooks : X;
    rng : Rng;
    calls : list (Call V) }.

Definition M (A : Type) : Type := World -> A * World.

Definition ret {A : Type} (a : A) : M A := fun w => (a, w).

Definition bind {A B : Type} (m : M A) (k : A -> M B) : M B :=
  fun w => let (a, w') := m w in k a w'.

Definition record (c : Call V) (w : World) : World :=
  {| formValues := formValues w; formErrors := formErrors w; hooks := hooks w;
     rng := rng w; calls := (calls w ++ [c])%list |}.

Definition getValues : M V :=
  fun w => (formValues w, record GetValues w).

Definition useState : M X :=
  fun w => (hooks w, w).

Definition console_log (what : Logged V) : M unit :=
  fun w => (tt, record (ConsoleLog what) w).

Definition safeParse (schema : z.ZodType V) (data : V) : M (z.SafeParseReturnType V) :=
  fun w => (z.safeParse schema data, record (SafeParse data) w).

Definition setFormErrors (errors : list FormError) : M unit :=
  fun w =>
    (tt, {| formValues := formValues w; formErrors := errors; hooks := hooks w;
            rng := rng w; calls := (calls w ++ [SetFormErrors errors])%list |}).

(** [setFormErrors(prevErrors => ...)] *)
Definition setFormErrors_from (update : list FormError -> list FormError) : M unit :=
  fun w =>
    (tt, {| formValues := formValues w; formErrors := update (formErrors w);
            hooks := hooks w; rng := rng w; calls := calls w |}).

Definition setHooks (update : X -> X) : M unit :=
  fun w =>
    (tt, {| formValues := formValues w; formErrors := formErrors w;
            hooks := update (hooks w); rng := rng w; calls := calls w |}).

Definition stringify (value : JSON) : M string :=
  fun w => (JSON_stringify value, record (JsonStringify value) w).

Definition encrypt (message passphrase : string) : M string :=
  fun w =>
    let (cipher, rng') := AES_encrypt message passphrase (rng w) in
    (cipher, {| formValues := formValues w; formErrors := formErrors w;
                hooks := hooks w; rng := rng';
                calls := (calls w ++ [AesEncrypt message passphrase])%list |}).

Definition base64 (text : string) : M string :=
  fun w => (btoa text, record (Btoa text) w).

Definition window_open (url target : string) : M unit :=
  fun w => (tt, record (WindowOpen url target) w).

Definition alert (text : string) : M unit :=
  fun w => (tt, record (Alert text) w).

(** [handleFieldChange], the same in every revision. *)
Definition handleFieldChange (fieldName : string) : M unit :=
  setFormErrors_from
    (fun prevErrors =>
       filter (fun error => negb (strict_eqb (path error) (Some fieldName))) prevErrors).

End Runtime.

Arguments World {_} V X.
Arguments M {_} V X A.

Declare Scope js_scope.
Delimit Scope js_scope with js.
Notation "x <- m ;; k" := (bind m (fun x => k))
  (at level 61, m at next level, right associativity) : js_scope.
Notation "m ;; k" := (bind m (fun _ => k))
  (at level 61, right associativity) : js_scope.

Local Open Scope js_scope.

(** ** src/src/App.tsx, first revision *)
Module AppMui.

Record FormValues : Type :=
  { environments : Environments;
    locales : Locales;
    variant : string;
    entryUid : string;
    contentType : string }.

Definition formSchema : z.ZodType FormValues :=
  z.object
    [z.key "environments" environments environments_schema;
     z.key "locales" locales locales_schema;
     z.key "variant" variant (z.min 1 "Please select a variant" z.string);
     z.key "entryUid" entryUid (z.min 1 "Entry UID is required" z.string);
     z.key "contentType" contentType (z.min 1 "Content Type is required" z.string)].

Definition defaultValues : FormValues :=
  {| environments := {| production := false; staging := false; development := false |};
     locales := {| en_us := false; fr_fr := false; es := false |};
     variant := "";
     entryUid := "";
     contentType := "" |}.

(** The object literal [result] of [handleButtonClick]. *)
Definition result (data : FormValues) : JSON :=
  JObject
    [("environments", JArray (map JString (selected_names (environments data))));
     ("locales", JArray (map JString (selected_names (locales data))));
     ("variant", JString (variant data));
     ("entryUid", JString (entryUid data));
     ("contentType", JString (contentType data))].

Definition target_url : string := "https://demo-graph.contentstackapps.com?data=".

(** The fields under which the form renders a [FormHelperText]. *)
Definition helper_fields : list string :=
  ["environments"; "locales"; "variant"; "entryUid"; "contentType"].

Section Handlers.
Context `{Platform}.

Definition handleButtonClick : M FormValues unit unit :=
  data <- getValues ;;
  validationResult <- safeParse formSchema data ;;
  match validationResult with
  | z.failure errors =>
      console_log (LogErrors errors) ;;
      setFormErrors (map errorMessage errors)
  | z.success _ =>
      setFormErrors [] ;;
      payload <- stringify (result data) ;;
      encryptedResult <- encrypt payload VITE_APP_ENCRYPT_SECRET ;;
      encoded <- base64 encryptedResult ;;
      window_open (target_url ++ encoded) "_blank"
  end.

End Handlers.

End AppMui.

(** ** The variant object of the Venus select *)

Record Variant : Type := { id : Z; label : string; value : string }.

Definition variant_schema : z.ZodType Variant :=
  z.object
    [z.key "id" id z.number;
     z.key "label" label (z.min 1 "Variant is required" z.string);
     z.key "value" value (z.min 1 "Variant is required" z.string)].

Definition variant_options : list Variant :=
  [{| id := 0; label := "Select Variant"; value := "" |};
   {| id := 1; label := "Business Audience"; value := "business" |};
   {| id := 2; label := "Tech Enthusiasts"; value := "tech" |}].

Definition Variant_json (v : Variant) : JSON :=
  JObject [("id", JNumber (id v)); ("label", JString (label v));
           ("value", JString (value v))].

(** ** src/src/App.tsx, second revision *)
Module AppVenus.

Record FormValues : Type :=
  { environments : Environments;
    locales : Locales;
    variant : Variant;
    entryUid : string;
    contentType : string }.

Definition formSchema : z.ZodType FormValues :=
  z.object
    [z.key "environments" environments environments_schema;
     z.key "locales" locales locales_schema;
     z.key "variant" variant variant_schema;
     z.key "entryUid" entryUid (z.min 1 "Entry UID is required" z.string);
     z.key "contentType" contentType (z.min 1 "Content Type is required" z.string)].

Definition defaultValues : FormValues :=
  {| environments := {| production := false; staging := false; development := false |};
     locales := {| en_us := false; fr_fr := false; es := false |};
     variant := {| id := 0; label := "Select Variant"; value := "" |};
     entryUid := "";
     contentType := "" |}.

Definition result (data : FormValues) : JSON :=
  JObject
    [("environments", JArray (map JString (selected_names (environments data))));
     ("locales", JArray (map JString (selected_names (locales data))));
     ("variant", Variant_json (variant data));
     ("entryUid", JString (entryUid data));
     ("contentType", JString (contentType data))].

Definition target_url : string := "https://demo-graph.contentstackapps.com?data=".

(** The fields under which the form renders a [FormHelperText]. *)
Definition helper_fields : list string :=
  ["environments"; "locales"; "variant"; "entryUid"; "contentType"].

Section Handlers.
Context `{Platform}.

Definition handleButtonClick : M FormValues unit unit :=
  data <- getValues ;;
  console_log (LogData data) ;;
  validationResult <- safeParse formSchema data ;;
  match validationResult with
  | z.failure errors =>
      console_log (LogErrors errors) ;;
      setFormErrors (map errorMessage errors)
  | z.success _ =>
      setFormErrors [] ;;
      payload <- stringify (result data) ;;
      encryptedResult <- encrypt payload VITE_APP_ENCRYPT_SECRET ;;
      encoded <- base64 encryptedResult ;;
      window_open (target_url ++ encoded) "_blank"
  end.

End Handlers.

End AppVenus.

(** ** The revision wired to the CMS sidebar *)
Module AppSidebar.

Record FormValues : Type :=
  { environments : Environments;
    locales : Locales;
    variant : Variant }.

Definition formSchema : z.ZodType FormValues :=
  z.object
    [z.key "environments" environments environments_schema;
     z.key "locales" locales locales_schema;
     z.key "variant" variant variant_schema].

Definition defaultValues : FormValues :=
  {| environments := {| production := false; staging := false; development := false |};
     locales := {| en_us := false; fr_fr := false; es := false |};
     variant := {| id := 0; label := "Select Variant"; value := "" |} |}.

(** The three [useState] cells filled from the host. *)
Record HostState : Type :=
  { entryUid : string; contentType : string; stackAPI : string }.

Definition initialHostState : HostState :=
  {| entryUid := ""; contentType := ""; stackAPI := "" |}.

Definition setEntryUid (v : string) (h : HostState) : HostState :=
  {| entryUid := v; contentType := contentType h; stackAPI := stackAPI h |}.

Definition setContentType (v : string) (h : HostState) : HostState :=
  {| entryUid := entryUid h; contentType := v; stackAPI := stackAPI h |}.

Definition setStackAPI (v : string) (h : HostState) : HostState :=
  {| entryUid := entryUid h; contentType := contentType h; stackAPI := v |}.

(** What the effect reads of [appSdk.location.SidebarWidget]. *)
Record SidebarWidget : Type :=
  { entry_content_type_uid : string;
    entry_data_uid : string;
    stack_data_api_key : string }.

(** [parentWindow?.field || ""] *)
Definition or_empty (parentWindow : option SidebarWidget) (field : SidebarWidget -> string)
  : string :=
  match parentWindow with
  | Some w => field w
  | None => ""
  end.

(** [!s] on a string. *)
Definition missing (s : string) : bool :=
  match s with
  | EmptyString => true
  | String _ _ => false
  end.

Definition result (data : FormValues) (host : HostState) : JSON :=
  JObject
    [("environments", JArray (map JString (selected_names (environments data))));
     ("locales", JArray (map JString (selected_names (locales data))));
     ("variant", Variant_json (variant data));
     ("entryUid", JString (entryUid host));
     ("contentType", JString (contentType host));
     ("stackAPI", JString (stackAPI host))].

Definition target_url : string :=
  "https://demo-graph-refactored.contentstackapps.com/?data=".

Definition alert_text : string :=
  "Entry Uid or Content type or Stack API could not be retrieved".

(** The fields under which the form renders a [FormHelperText]. *)
Definition helper_fields : list string := ["environments"; "locales"; "variant"].

Section Handlers.
Context `{Platform}.

Definition handleButtonClick : M FormValues HostState unit :=
  host <- useState ;;
  if missing (entryUid host) || missing (contentType host) || missing (stackAPI host)
  then alert alert_text
  else
    data <- getValues ;;
    console_log (LogData data) ;;
    validationResult <- safeParse formSchema data ;;
    match validationResult with
    | z.failure errors =>
        console_log (LogErrors errors) ;;
        setFormErrors (map errorMessage errors)
    | z.success _ =>
        setFormErrors [] ;;
        payload <- stringify (result data host) ;;
        encryptedResult <- encrypt payload VITE_APP_ENCRYPT_SECRET ;;
        encoded <- base64 encryptedResult ;;
        window_open (target_url ++ encoded) "_blank"
    end.

(** The callback of [ContentStackAppSDK.init().then(...)] in [useEffect]. *)
Definition init_then (parentWindow : option SidebarWidget) : M FormValues HostState unit :=
  setHooks (setContentType (or_empty parentWindow entry_content_type_uid)) ;;
  setHooks (setEntryUid (or_empty parentWindow entry_data_uid)) ;;
  setHooks (setStackAPI (or_empty parentWindow stack_data_api_key)).

End Handlers.

End AppSidebar.

(** ** Observing a click *)

Definition run {P : Platform} {V X A : Type} (h : M V X A) (w : World V X) : World V X :=
  snd (h w).

(** The calls made by one run of a handler. *)
Definition click_trace {P : Platform} {V X A : Type} (h : M V X A) (w : World V X)
  : list (Call V) :=
  skipn (List.length (calls w)) (calls (run h w)).

(** The tabs opened: url and target of every [window.open]. *)
Definition window_opens {V : Type} (cs : list (Call V)) : list (string * string) :=
  flat_map (fun c => match c with WindowOpen url target => [(url, target)] | _ => [] end) cs.

Definition alerts {V : Type} (cs : list (Call V)) : list string :=
  flat_map (fun c => match c with Alert text => [text] | _ => [] end) cs.

(** The calls that reach outside the component. *)
Definition is_external {V : Type} (c : Call V) : bool :=
  match c with
  | ConsoleLog _ | WindowOpen _ _ | Alert _ => true
  | _ => false
  end.

Definition is_window_open {V : Type} (c : Call V) : bool :=
  match c with
  | WindowOpen _ _ => true
  | _ => false
  end.

Definition is_console_log {V : Type} (c : Call V) : bool :=
  match c with
  | ConsoleLog _ => true
  | _ => false
  end.

Definition is_alert {V : Type} (c : Call V) : bool :=
  match c with
  | Alert _ => true
  | _ => false
  end.

(** The four steps of a submission. *)
Inductive Step : Type := Validate | Serialize | Encrypt | Redirect.

Definition step_of {V : Type} (c : Call V) : option Step :=
  match c with
  | SafeParse _ => Some Validate
  | JsonStringify _ => Some Serialize
  | AesEncrypt _ _ => Some Encrypt
  | WindowOpen _ _ => Some Redirect
  | _ => None
  end.

Definition steps {V : Type} (cs : list (Call V)) : list Step :=
  flat_map (fun c => match step_of c with Some s => [s] | None => [] end) cs.

Definition is_success {A : Type} (r : z.SafeParseReturnType A) : bool :=
  match r with
  | z.success _ => true
  | z.failure _ => false
  end.

(** [validationResult.success] for the values a form holds. *)
Definition passes {A : Type} (schema : z.ZodType A) (data : A) : bool :=
  is_success (z.safeParse schema data).

Definition none_selected_env (e : Environments) : Prop :=
  production e = false /\ staging e = false /\ development e = false.

Definition none_selected_locale (l : Locales) : Prop :=
  en_us l = false /\ fr_fr l = false /\ es l = false.

(** The names of the ticked boxes, group by group, in the order of the form. *)
Definition ticked_environments (e : Environments) : list string :=
  ((if production e then ["production"] else [])
   ++ (if staging e then ["staging"] else [])
   ++ (if development e then ["development"] else []))%list.

Definition ticked_locales (l : Locales) : list string :=
  ((if en_us l then ["en-us"] else [])
   ++ (if fr_fr l then ["fr-fr"] else [])
   ++ (if es l then ["es"] else []))%list.

(** [sub] is [l] with some entries dropped: the entries kept are in their
    original relative order. *)
Inductive Subsequence {A : Type} : list A -> list A -> Prop :=
| Subsequence_nil : Subsequence [] []
| Subsequence_keep (x : A) (sub l : list A) :
    Subsequence sub l -> Subsequence (x :: sub) (x :: l)
| Subsequence_drop (x : A) (sub l : list A) :
    Subsequence sub l -> Subsequence sub (x :: l).

(** [kept] is [errors] without the entries of [field]: every entry whose
    path is [field] is dropped, every other entry is kept where it was. *)
Inductive RemovesField (field : string) : list FormError -> list FormError -> Prop :=
| RemovesField_nil : RemovesField field [] []
| RemovesField_drop (e : FormError) (errors kept : list FormError) :
    path e = Some field ->
    RemovesField field errors kept -> RemovesField field (e :: errors) kept
| RemovesField_keep (e : FormError) (errors kept : list FormError) :
    path e <> Some field ->
    RemovesField field errors kept -> RemovesField field (e :: errors) (e :: kept).

(** ** A stand-in platform for running the handlers on concrete inputs

    It is not a cipher: it prefixes the message with the header of
    CryptoJS's output and the passphrase, and counts the salts drawn. *)
Definition stub_platform : Platform :=
  {| Rng := nat;
     AES_encrypt := fun message passphrase n =>
                      ("U2FsdGVkX1" ++ passphrase ++ message, S n);
     VITE_APP_ENCRYPT_SECRET := "s3cret" |}.

Definition sample_errors : list FormError :=
  [{| path := Some "environments"; message := "Please select at least one environment" |};
   {| path := Some "variant"; message := "Please select a variant" |};
   {| path := Some "environments"; message := "again" |};
   {| path := None; message := "root" |}].

Definition mui_filled : AppMui.FormValues :=
  {| AppMui.environments := {| production := true; staging := false; development := true |};
     AppMui.locales := {| en_us := false; fr_fr := true; es := false |};
     AppMui.variant := "tech";
     AppMui.entryUid := "blt01";
     AppMui.contentType := "page" |}.

Definition venus_filled : AppVenus.FormValues :=
  {| AppVenus.environments := {| production := false; staging := true; development := false |};
     AppVenus.locales := {| en_us := true; fr_fr := false; es := true |};
     AppVenus.variant := {| id := 1; label := "Business Audience"; value := "business" |};
     AppVenus.entryUid := "blt01";
     AppVenus.contentType := "page" |}.

Definition sidebar_filled : AppSidebar.FormValues :=
  {| AppSidebar.environments := {| production := true; staging := true; development := false |};
     AppSidebar.locales := {| en_us := true; fr_fr := false; es := false |};
     AppSidebar.variant := {| id := 2; label := "Tech Enthusiasts"; value := "tech" |} |}.

Definition sample_widget : AppSidebar.SidebarWidget :=
  {| AppSidebar.entry_content_type_uid := "page";
     AppSidebar.entry_data_uid := "blt01";
     AppSidebar.stack_data_api_key := "blt-stack" |}.

Definition world_of {V X : Type} (values : V) (errors : list FormError) (cells : X)
  : @World stub_platform V X :=
  @Build_World stub_platform V X values errors cells 0%nat [].

(** The sidebar form filled in, before the host has answered. *)
Definition sidebar_before_init : @World stub_platform AppSidebar.FormValues AppSidebar.HostState :=
  world_of sidebar_filled [] AppSidebar.initialHostState.

(** The same form once the host has answered. *)
Definition sidebar_ready : @World stub_platform AppSidebar.FormValues AppSidebar.HostState :=
  run (AppSidebar.init_then (Some sample_widget)) sidebar_before_init.

Definition mui_ready : @World stub_platform AppMui.FormValues unit :=
  world_of mui_filled sample_errors tt.

Definition mui_empty : @World stub_platform AppMui.FormValues unit :=
  world_of AppMui.defaultValues [] tt.

Definition venus_ready : @World stub_platform AppVenus.FormValues unit :=
  world_of venus_filled sample_errors tt.

(** The issue a missing field raises, and the issues of the variant object. *)
Definition issue_if (absent : bool) (field message : string) : list z.ZodIssue :=
  if absent then [{| z.path := [field]; z.message := message |}] else [].

Definition variant_issues (v : Variant) : list z.ZodIssue :=
  ((if Nat.ltb (String.length (label v)) 1
    then [{| z.path := ["variant"; "label"]; z.message := "Variant is required" |}] else [])
   ++ (if Nat.ltb (String.length (value v)) 1
       then [{| z.path := ["variant"; "value"]; z.message := "Variant is required" |}] else []))%list.

(** ** The controls of the form

    Every [Controller] renders its input with
    [onChange={(e) => { field.onChange(e); handleFieldChange(group); }}]:
    the value of the event becomes the value of the field, then the inline
    errors of the group are dropped. *)

Section Controls.
Context `{Platform} {V X : Type}.

(** [field.onChange(e)]: the form holds the value of the event. *)
Definition field_onChange (update : V -> V) : M V X unit :=
  fun w =>
    (tt, {| formValues := update (formValues w); formErrors := formErrors w;
            hooks := hooks w; rng := rng w; calls := calls w |}).

(** The component after a sequence of events, oldest first. *)
Definition play {Ev : Type} (handle : Ev -> M V X unit) (events : list Ev) (w : World V X)
  : World V X :=
  fold_left (fun w' ev => run (handle ev) w') events w.

End Controls.

(** The three boxes of each group, named as in [environments.production]. *)
Inductive EnvironmentBox : Type := production_box | staging_box | development_box.

Inductive LocaleBox : Type := en_us_box | fr_fr_box | es_box.

Definition tick_environment (box : EnvironmentBox) (checked : bool) (e : Environments)
  : Environments :=
  match box with
  | production_box =>
      {| production := checked; staging := staging e; development := development e |}
  | staging_box =>
      {| production := production e; staging := checked; development := development e |}
  | development_box =>
      {| production := production e; staging := staging e; development := checked |}
  end.

Definition tick_locale (box : LocaleBox) (checked : bool) (l : Locales) : Locales :=
  match box with
  | en_us_box => {| en_us := checked; fr_fr := fr_fr l; es := es l |}
  | fr_fr_box => {| en_us := en_us l; fr_fr := checked; es := es l |}
  | es_box => {| en_us := en_us l; fr_fr := fr_fr l; es := checked |}
  end.

(** The [name] of the [Controller] of a box. *)
Definition environment_box_name (box : EnvironmentBox) : string :=
  match box with
  | production_box => "environments.production"
  | staging_box => "environments.staging"
  | development_box => "environments.development"
  end.

Definition locale_box_name (box : LocaleBox) : string :=
  match box with
  | en_us_box => "locales.en-us"
  | fr_fr_box => "locales.fr-fr"
  | es_box => "locales.es"
  end.

(** The test of the filter in [handleFieldChange]. *)
Definition keeps_other_fields (fieldName : string) (error : FormError) : bool :=
  negb (strict_eqb (path error) (Some fieldName)).

(** The text a helper shows, if it shows one. *)
Definition shown_message (r : Rendered) : option string :=
  match r with
  | HelperText (Some text) => Some text
  | _ => None
  end.

(** The characters [btoa] writes. *)
Definition is_base64_char (c : ascii) : bool :=
  existsb (Ascii.eqb c) (list_ascii_of_string (b64_alphabet ++ "=")).

Fixpoint all_chars (p : ascii -> bool) (s : string) : bool :=
  match s with
  | EmptyString => true
  | String c rest => p c && all_chars p rest
  end.

(** Reading a JSON string literal back: the inverse of the escapes of
    [QuoteJSONString], up to the closing quote. *)
Definition hex_value (c : ascii) : option N :=
  index_of c "0123456789abcdef" 0%N.

Fixpoint unquote_chars (s : string) : option (string * string) :=
  match s with
  | EmptyString => None
  | String c rest =>
      if Ascii.eqb c (ascii_of_N 34) then Some ("", rest)
      else if Ascii.eqb c "\"%char then
        match rest with
        | String e rest' =>
            let escaped (x : N) :=
              option_map (fun r => (String (ascii_of_N x) (fst r), snd r))
                         (unquote_chars rest') in
            if Ascii.eqb e "b"%char then escaped 8%N
            else if Ascii.eqb e "t"%char then escaped 9%N
            else if Ascii.eqb e "n"%char then escaped 10%N
            else if Ascii.eqb e "f"%char then escaped 12%N
            else if Ascii.eqb e "r"%char then escaped 13%N
            else if Ascii.eqb e (ascii_of_N 34) then escaped 34%N
            else if Ascii.eqb e "\"%char then escaped 92%N
            else if Ascii.eqb e "u"%char then
              match rest' with
              | String z1 (String z2 (String h1 (String h2 rest''))) =>
                  match hex_value z1, hex_value z2, hex_value h1, hex_value h2 with
                  | Some 0%N, Some 0%N, Some a, Some b =>
                      option_map
                        (fun r => (String (ascii_of_N (a * 16 + b)) (fst r), snd r))
                        (unquote_chars rest'')
                  | _, _, _, _ => None
                  end
              | _ => None
              end
            else None
        | EmptyString => None
        end
      else if (N_of_ascii c <? 32)%N then None
      else option_map (fun r => (String c (fst r), snd r)) (unquote_chars rest)
  end.

(** A string literal at the head of a text: its value and what follows. *)
Definition JSON_unquote (s : string) : option (string * string) :=
  match s with
  | String c rest => if Ascii.eqb c (ascii_of_N 34) then unquote_chars rest else None
  | EmptyString => None
  end.

(** ** Reading a payload back

    The reader of the text written by [JSON_stringify]: string literals,
    integers, arrays and objects, without white space.  Its fuel bounds the
    nesting and the number of items of the value read. *)

Definition digit_of (c : ascii) : option (Decimal.uint -> Decimal.uint) :=
  match c with
  | "0" => Some Decimal.D0
  | "1" => Some Decimal.D1
  | "2" => Some Decimal.D2
  | "3" => Some Decimal.D3
  | "4" => Some Decimal.D4
  | "5" => Some Decimal.D5
  | "6" => Some Decimal.D6
  | "7" => Some Decimal.D7
  | "8" => Some Decimal.D8
  | "9" => Some Decimal.D9
  | _ => None
  end%char.

(** The digits at the head of a text, and what follows them. *)
Fixpoint read_digits (s : string) : Decimal.uint * string :=
  match s with
  | EmptyString => (Decimal.Nil, "")
  | String c rest =>
      match digit_of c with
      | Some d => let (u, r) := read_digits rest in (d u, r)
      | None => (Decimal.Nil, s)
      end
  end.

Definition no_digit_head (s : string) : bool :=
  match s with
  | EmptyString => true
  | String c _ => match digit_of c with Some _ => false | None => true end
  end.

Definition parse_number (s : string) : option (JSON * string) :=
  match s with
  | EmptyString => None
  | String c rest =>
      if Ascii.eqb c "-"%char then
        match read_digits rest with
        | (Decimal.Nil, _) => None
        | (u, r) => Some (JNumber (Z.of_int (Decimal.Neg u)), r)
        end
      else
        match read_digits s with
        | (Decimal.Nil, _) => None
        | (u, r) => Some (JNumber (Z.of_int (Decimal.Pos u)), r)
        end
  end.

Fixpoint parse_value (fuel : nat) (s : string) : option (JSON * string) :=
  match fuel with
  | O => None
  | S fuel' =>
      match s with
      | EmptyString => None
      | String c rest =>
          if Ascii.eqb c (ascii_of_N 34) then
            option_map (fun r => (JString (fst r), snd r)) (unquote_chars rest)
          else if Ascii.eqb c "["%char then
            match rest with
            | EmptyString => None
            | String c' rest' =>
                if Ascii.eqb c' "]"%char then Some (JArray [], rest')
                else option_map (fun r => (JArray (fst r), snd r)) (parse_items fuel' rest)
            end
          else if Ascii.eqb c "{"%char then
            match rest with
            | EmptyString => None
            | String c' rest' =>
                if Ascii.eqb c' "}"%char then Some (JObject [], rest')
                else option_map (fun r => (JObject (fst r), snd r))
                                (parse_members fuel' rest)
            end
          else parse_number s
      end
  end
with parse_items (fuel : nat) (s : string) : option (list JSON * string) :=
  match fuel with
  | O => None
  | S fuel' =>
      match parse_value fuel' s with
      | Some (v, String c rest) =>
          if Ascii.eqb c ","%char then
            option_map (fun r => (v :: fst r, snd r)) (parse_items fuel' rest)
          else if Ascii.eqb c "]"%char then Some ([v], rest)
          else None
      | _ => None
      end
  end
with parse_members (fuel : nat) (s : string) : option (list (string * JSON) * string) :=
  match fuel with
  | O => None
  | S fuel' =>
      match JSON_unquote s with
      | Some (k, String c rest) =>
          if Ascii.eqb c ":"%char then
            match parse_value fuel' rest with
            | Some (v, String c' rest') =>
                if Ascii.eqb c' ","%char then
                  option_map (fun r => ((k, v) :: fst r, snd r)) (parse_members fuel' rest')
                else if Ascii.eqb c' "}"%char then Some ([(k, v)], rest')
                else None
            | _ => None
            end
          else None
      | _ => None
      end
  end.

(** The whole of a text as one value. *)
Definition JSON_parse (fuel : nat) (s : string) : option JSON :=
  match parse_value fuel s with
  | Some (v, EmptyString) => Some v
  | _ => None
  end.

(** The fuel a value needs: one for the value, one more for each item of an
    array or member of an object on the way to its deepest part. *)
Fixpoint JSON_size (v : JSON) : nat :=
  match v with
  | JString _ => 1
  | JNumber _ => 1
  | JArray items =>
      S ((fix items_size (l : list JSON) : nat :=
            match l with
            | [] => 0
            | x :: l' => S (Nat.max (JSON_size x) (items_size l'))
            end) items)
  | JObject members =>
      S ((fix members_size (l : list (string * JSON)) : nat :=
            match l with
            | [] => 0
            | kv :: l' => S (Nat.max (JSON_size (snd kv)) (members_size l'))
            end) members)
  end.

Fixpoint items_size (l : list JSON) : nat :=
  match l with
  | [] => 0
  | x :: l' => S (Nat.max (JSON_size x) (items_size l'))
  end.

Fixpoint members_size (l : list (string * JSON)) : nat :=
  match l with
  | [] => 0
  | kv :: l' => S (Nat.max (JSON_size (snd kv)) (members_size l'))
  end.

(** The text of one member of an object. *)
Definition member_text (kv : string * JSON) : string :=
  QuoteJSONString (fst kv) ++ ":" ++ JSON_stringify (snd kv).

(** ** The forms as event handlers *)

Module MuiForm.

Inductive Input : Type :=
| environments_input (box : EnvironmentBox) (checked : bool)
| locales_input (box : LocaleBox) (checked : bool)
| variant_input (value : string)
| entryUid_input (value : string)
| contentType_input (value : string).

(** The values of the form once [field.onChange] has taken the event. *)
Definition field_value (e : Input) (data : AppMui.FormValues) : AppMui.FormValues :=
  match e with
  | environments_input box checked =>
      {| AppMui.environments := tick_environment box checked (AppMui.environments data);
         AppMui.locales := AppMui.locales data;
         AppMui.variant := AppMui.variant data;
         AppMui.entryUid := AppMui.entryUid data;
         AppMui.contentType := AppMui.contentType data |}
  | locales_input box checked =>
      {| AppMui.environments := AppMui.environments data;
         AppMui.locales := tick_locale box checked (AppMui.locales data);
         AppMui.variant := AppMui.variant data;
         AppMui.entryUid := AppMui.entryUid data;
         AppMui.contentType := AppMui.contentType data |}
  | variant_input value =>
      {| AppMui.environments := AppMui.environments data;
         AppMui.locales := AppMui.locales data;
         AppMui.variant := value;
         AppMui.entryUid := AppMui.entryUid data;
         AppMui.contentType := AppMui.contentType data |}
  | entryUid_input value =>
      {| AppMui.environments := AppMui.environments data;
         AppMui.locales := AppMui.locales data;
         AppMui.variant := AppMui.variant data;
         AppMui.entryUid := value;
         AppMui.contentType := AppMui.contentType data |}
  | contentType_input value =>
      {| AppMui.environments := AppMui.environments data;
         AppMui.locales := AppMui.locales data;
         AppMui.variant := AppMui.variant data;
         AppMui.entryUid := AppMui.entryUid data;
         AppMui.contentType := value |}
  end.

(** The argument of [handleFieldChange] in the [onChange] of the input. *)
Definition fieldName (e : Input) : string :=
  match e with
  | environments_input _ _ => "environments"
  | locales_input _ _ => "locales"
  | variant_input _ => "variant"
  | entryUid_input _ => "entryUid"
  | contentType_input _ => "contentType"
  end.

(** The [name] of the [Controller] of the input. *)
Definition name (e : Input) : string :=
  match e with
  | environments_input box _ => environment_box_name box
  | locales_input box _ => locale_box_name box
  | variant_input _ => "variant"
  | entryUid_input _ => "entryUid"
  | contentType_input _ => "contentType"
  end.

Inductive Event : Type :=
| Submit
| Change (e : Input).

Definition is_submit (ev : Event) : bool :=
  match ev with
  | Submit => true
  | Change _ => false
  end.

Section Handlers.
Context `{Platform}.

Definition onChange (e : Input) : M AppMui.FormValues unit unit :=
  field_onChange (field_value e) ;;
  handleFieldChange (fieldName e).

Definition handle (ev : Event) : M AppMui.FormValues unit unit :=
  match ev with
  | Submit => AppMui.handleButtonClick
  | Change e => onChange e
  end.

(** The component as [useForm] and [useState] create it. *)
Definition mounted (seed : Rng) : World AppMui.FormValues unit :=
  {| formValues := AppMui.defaultValues; formErrors := []; hooks := tt;
     rng := seed; calls := [] |}.

End Handlers.

End MuiForm.

Module VenusForm.

Inductive Input : Type :=
| environments_input (box : EnvironmentBox) (checked : bool)
| locales_input (box : LocaleBox) (checked : bool)
| variant_input (value : Variant)
| entryUid_input (value : string)
| contentType_input (value : string).

Definition field_value (e : Input) (data : AppVenus.FormValues) : AppVenus.FormValues :=
  match e with
  | environments_input box checked =>
      {| AppVenus.environments := tick_environment box checked (AppVenus.environments data);
         AppVenus.locales := AppVenus.locales data;
         AppVenus.variant := AppVenus.variant data;
         AppVenus.entryUid := AppVenus.entryUid data;
         AppVenus.contentType := AppVenus.contentType data |}
  | locales_input box checked =>
      {| AppVenus.environments := AppVenus.environments data;
         AppVenus.locales := tick_locale box checked (AppVenus.locales data);
         AppVenus.variant := AppVenus.variant data;
         AppVenus.entryUid := AppVenus.entryUid data;
         AppVenus.contentType := AppVenus.contentType data |}
  | variant_input value =>
      {| AppVenus.environments := AppVenus.environments data;
         AppVenus.locales := AppVenus.locales data;
         AppVenus.variant := value;
         AppVenus.entryUid := AppVenus.entryUid data;
         AppVenus.contentType := AppVenus.contentType data |}
  | entryUid_input value =>
      {| AppVenus.environments := AppVenus.environments data;
         AppVenus.locales := AppVenus.locales data;
         AppVenus.variant := AppVenus.variant data;
         AppVenus.entryUid := value;
         AppVenus.contentType := AppVenus.contentType data |}
  | contentType_input value =>
      {| AppVenus.environments := AppVenus.environments data;
         AppVenus.locales := AppVenus.locales data;
         AppVenus.variant := AppVenus.variant data;
         AppVenus.entryUid := AppVenus.entryUid data;
         AppVenus.contentType := value |}
  end.

Definition fieldName (e : Input) : string :=
  match e with
  | environments_input _ _ => "environments"
  | locales_input _ _ => "locales"
  | variant_input _ => "variant"
  | entryUid_input _ => "entryUid"
  | contentType_input _ => "contentType"
  end.

(** The [name] of the [Controller] of the input. *)
Definition name (e : Input) : string :=
  match e with
  | environments_input box _ => environment_box_name box
  | locales_input box _ => locale_box_name box
  | variant_input _ => "variant"
  | entryUid_input _ => "entryUid"
  | contentType_input _ => "contentType"
  end.

Inductive Event : Type :=
| Submit
| Change (e : Input).

Definition is_submit (ev : Event) : bool :=
  match ev with
  | Submit => true
  | Change _ => false
  end.

Section Handlers.
Context `{Platform}.

Definition onChange (e : Input) : M AppVenus.FormValues unit unit :=
  field_onChange (field_value e) ;;
  handleFieldChange (fieldName e).

Definition handle (ev : Event) : M AppVenus.FormValues unit unit :=
  match ev with
  | Submit => AppVenus.handleButtonClick
  | Change e => onChange e
  end.

Definition mounted (seed : Rng) : World AppVenus.FormValues unit :=
  {| formValues := AppVenus.defaultValues; formErrors := []; hooks := tt;
     rng := seed; calls := [] |}.

End Handlers.

End VenusForm.

Module SidebarForm.

Inductive Input : Type :=
| environments_input (box : EnvironmentBox) (checked : bool)
| locales_input (box : LocaleBox) (checked : bool)
| variant_input (value : Variant).

Definition field_value (e : Input) (data : AppSidebar.FormValues) : AppSidebar.FormValues :=
  match e with
  | environments_input box checked =>
      {| AppSidebar.environments :=
           tick_environment box checked (AppSidebar.environments data);
         AppSidebar.locales := AppSidebar.locales data;
         AppSidebar.variant := AppSidebar.variant data |}
  | locales_input box checked =>
      {| AppSidebar.environments := AppSidebar.environments data;
         AppSidebar.locales := tick_locale box checked (AppSidebar.locales data);
         AppSidebar.variant := AppSidebar.variant data |}
  | variant_input value =>
      {| AppSidebar.environments := AppSidebar.environments data;
         AppSidebar.locales := AppSidebar.locales data;
         AppSidebar.variant := value |}
  end.

Definition fieldName (e : Input) : string :=
  match e with
  | environments_input _ _ => "environments"
  | locales_input _ _ => "locales"
  | variant_input _ => "variant"
  end.

(** The [name] of the [Controller] of the input. *)
Definition name (e : Input) : string :=
  match e with
  | environments_input box _ => environment_box_name box
  | locales_input box _ => locale_box_name box
  | variant_input _ => "variant"
  end.

(** [SdkReady] is the resolution of [ContentStackAppSDK.init()]. *)
Inductive Event : Type :=
| Submit
| Change (e : Input)
| SdkReady (parentWindow : option AppSidebar.SidebarWidget).

(** The sidebar context gives all three values. *)
Definition usable (parentWindow : option AppSidebar.SidebarWidget) : bool :=
  match parentWindow with
  | Some widget =>
      negb (AppSidebar.missing (AppSidebar.entry_data_uid widget))
      && negb (AppSidebar.missing (AppSidebar.entry_content_type_uid widget))
      && negb (AppSidebar.missing (AppSidebar.stack_data_api_key widget))
  | None => false
  end.

Definition is_submit (ev : Event) : bool :=
  match ev with
  | Submit => true
  | _ => false
  end.

Definition is_usable_answer (ev : Event) : bool :=
  match ev with
  | SdkReady parentWindow => usable parentWindow
  | _ => false
  end.

Section Handlers.
Context `{Platform}.

Definition onChange (e : Input) : M AppSidebar.FormValues AppSidebar.HostState unit :=
  field_onChange (field_value e) ;;
  handleFieldChange (fieldName e).

Definition handle (ev : Event) : M AppSidebar.FormValues AppSidebar.HostState unit :=
  match ev with
  | Submit => AppSidebar.handleButtonClick
  | Change e => onChange e
  | SdkReady parentWindow => AppSidebar.init_then parentWindow
  end.

Definition mounted (seed : Rng) : World AppSidebar.FormValues AppSidebar.HostState :=
  {| formValues := AppSidebar.defaultValues; formErrors := [];
     hooks := AppSidebar.initialHostState; rng := seed; calls := [] |}.

End Handlers.

End SidebarForm.

(** ** What the history of calls may hold *)

Section HistoryPredicates.
Context `{Platform}.

(** What the history of the first form holds: every URL opened carries the
    encryption of a validated payload, and no dialog was shown. *)
Definition mui_history_sound (w : World AppMui.FormValues unit) : Prop :=
  (forall url target,
     In (WindowOpen url target) (calls w) ->
     target = "_blank"
     /\ exists (data : AppMui.FormValues) (source : Rng),
          passes AppMui.formSchema data = true
          /\ url = AppMui.target_url
                     ++ btoa (fst (AES_encrypt (JSON_stringify (AppMui.result data))
                                     VITE_APP_ENCRYPT_SECRET source)))
  /\ alerts (calls w) = [].

Definition venus_history_sound (w : World AppVenus.FormValues unit) : Prop :=
  (forall url target,
     In (WindowOpen url target) (calls w) ->
     target = "_blank"
     /\ exists (data : AppVenus.FormValues) (source : Rng),
          passes AppVenus.formSchema data = true
          /\ url = AppVenus.target_url
                     ++ btoa (fst (AES_encrypt (JSON_stringify (AppVenus.result data))
                                     VITE_APP_ENCRYPT_SECRET source)))
  /\ alerts (calls w) = [].

Definition sidebar_history_sound
  (w : World AppSidebar.FormValues AppSidebar.HostState) : Prop :=
  (forall url target,
     In (WindowOpen url target) (calls w) ->
     target = "_blank"
     /\ exists (data : AppSidebar.FormValues) (host : AppSidebar.HostState)
               (source : Rng),
          passes AppSidebar.formSchema data = true
          /\ AppSidebar.entryUid host <> "" /\ AppSidebar.contentType host <> ""
          /\ AppSidebar.stackAPI host <> ""
          /\ url = AppSidebar.target_url
                     ++ btoa (fst (AES_encrypt
                                     (JSON_stringify (AppSidebar.result data host))
                                     VITE_APP_ENCRYPT_SECRET source)))
  /\ (forall text, In text (alerts (calls w)) ->
        text = "Entry Uid or Content type or Stack API could not be retrieved").

End HistoryPredicates.

(** ** Sample sessions on the stand-in platform *)

Definition stub_seed : @Rng stub_platform := 0%nat.

(** A click on the empty first form, then one box ticked. *)
Definition mui_session_started : list MuiForm.Event :=
  [MuiForm.Submit;
   MuiForm.Change (MuiForm.environments_input staging_box true)].

(** The same session carried on until the form is filled in, and a second
    click. *)
Definition mui_session_completed : list MuiForm.Event :=
  (mui_session_started ++
   [MuiForm.Change (MuiForm.locales_input en_us_box true);
    MuiForm.Change (MuiForm.variant_input "tech");
    MuiForm.Change (MuiForm.entryUid_input "blt01");
    MuiForm.Change (MuiForm.contentType_input "page");
    MuiForm.Submit])%list.

Definition venus_session_completed : list VenusForm.Event :=
  [VenusForm.Submit;
   VenusForm.Change (VenusForm.environments_input production_box true);
   VenusForm.Change (VenusForm.locales_input es_box true);
   VenusForm.Change
     (VenusForm.variant_input
        {| id := 1; label := "Business Audience"; value := "business" |});
   VenusForm.Change (VenusForm.entryUid_input "blt01");
   VenusForm.Change (VenusForm.contentType_input "page")].

(** The sidebar form filled in and submitted while the host gives no
    context. *)
Definition sidebar_session_unanswered : list SidebarForm.Event :=
  [SidebarForm.Change (SidebarForm.environments_input production_box true);
   SidebarForm.Change (SidebarForm.locales_input en_us_box true);
   SidebarForm.Change
     (SidebarForm.variant_input {| id := 2; label := "Tech Enthusiasts"; value := "tech" |});
   SidebarForm.Submit;
   SidebarForm.SdkReady None;
   SidebarForm.Submit].

(** The same form with the answer of the host before the last click. *)
Definition sidebar_session_answered : list SidebarForm.Event :=
  [SidebarForm.Submit;
   SidebarForm.Change (SidebarForm.environments_input production_box true);
   SidebarForm.Change (SidebarForm.locales_input en_us_box true);
   SidebarForm.Change
     (SidebarForm.variant_input {| id := 2; label := "Tech Enthusiasts"; value := "tech" |});
   SidebarForm.SdkReady (Some sample_widget);
   SidebarForm.Submit].

(** The empty forms of the other two revisions, the sidebar one with the
    host values present. *)
Definition venus_empty : @World stub_platform AppVenus.FormValues unit :=
  world_of AppVenus.defaultValues sample_errors tt.

Definition sidebar_ready_empty
  : @World stub_platform AppSidebar.FormValues AppSidebar.HostState :=
  run (AppSidebar.init_then (Some sample_widget))
      (world_of AppSidebar.defaultValues [] AppSidebar.initialHostState).

(** * Properties *)

(** Unfolds one run of a handler on a world given by its fields. *)
Ltac unfold_handler :=
  unfold run, click_trace, bind, getValues, useState, safeParse, z.safeParse,
    console_log, setFormErrors, stringify, encrypt, base64, window_open, alert, record;
  cbn [formValues rng hooks calls formErrors fst snd].

Ltac tidy_calls :=
  repeat rewrite <- app_assoc; cbn [app].

(** ** Lists and strings *)

Lemma skipn_app_exact {A : Type} (l t : list A) :
  skipn (List.length l) (l ++ t)%list = t.
Proof. induction l as [|x l IH]; simpl; auto. Qed.

Lemma append_assoc (a b c : string) : (a ++ b) ++ c = a ++ (b ++ c).
Proof. induction a as [|x a IH]; simpl; [reflexivity | now rewrite IH]. Qed.

Lemma append_length (a b : string) :
  String.length (a ++ b) = (String.length a + String.length b)%nat.
Proof. induction a as [|x a IH]; simpl; [reflexivity | now rewrite IH]. Qed.

Lemma length_zero_iff_empty (s : string) :
  Nat.ltb (String.length s) 1 = true <-> s = "".
Proof.
  destruct s as [|c s]; simpl; split; intro Hs; try reflexivity; discriminate.
Qed.

Lemma some_selected_env_false (e : Environments) :
  some_selected e = false <-> none_selected_env e.
Proof.
  unfold none_selected_env.
  destruct e as [[] [] []]; cbn; split; intro Hs;
    try discriminate; try (repeat split; reflexivity);
    destruct Hs as (H1 & H2 & H3); discriminate.
Qed.

Lemma some_selected_locale_false (l : Locales) :
  some_selected l = false <-> none_selected_locale l.
Proof.
  unfold none_selected_locale.
  destruct l as [[] [] []]; cbn; split; intro Hs;
    try discriminate; try (repeat split; reflexivity);
    destruct Hs as (H1 & H2 & H3); discriminate.
Qed.

Lemma selected_names_env (e : Environments) :
  selected_names e = ticked_environments e.
Proof. destruct e as [[] [] []]; reflexivity. Qed.

Lemma selected_names_locale (l : Locales) :
  selected_names l = ticked_locales l.
Proof. destruct l as [[] [] []]; reflexivity. Qed.

Lemma passes_iff_no_issue {A : Type} (schema : z.ZodType A) (data : A) :
  passes schema data = true <-> schema [] data = [].
Proof.
  unfold passes, z.safeParse.
  destruct (schema [] data); simpl; split; intro Hs; try reflexivity; discriminate.
Qed.

Lemma fails_iff_issue {A : Type} (schema : z.ZodType A) (data : A) :
  passes schema data = false <-> schema [] data <> [].
Proof.
  unfold passes, z.safeParse.
  destruct (schema [] data); simpl; split; intro Hs;
    try reflexivity; try discriminate; congruence.
Qed.

(** ** The issues each schema raises, field by field *)

Lemma mui_issues (data : AppMui.FormValues) :
  AppMui.formSchema [] data =
  (issue_if (negb (some_selected (AppMui.environments data)))
     "environments" "Please select at least one environment"
   ++ issue_if (negb (some_selected (AppMui.locales data)))
        "locales" "Please select at least one locale"
   ++ issue_if (Nat.ltb (String.length (AppMui.variant data)) 1)
        "variant" "Please select a variant"
   ++ issue_if (Nat.ltb (String.length (AppMui.entryUid data)) 1)
        "entryUid" "Entry UID is required"
   ++ issue_if (Nat.ltb (String.length (AppMui.contentType data)) 1)
        "contentType" "Content Type is required")%list.
Proof.
  unfold AppMui.formSchema, environments_schema, locales_schema, z.object, z.key,
    z.refine, z.min, z.boolean, z.string, issue_if.
  cbn [flat_map app].
  destruct (some_selected (AppMui.environments data)),
           (some_selected (AppMui.locales data)); cbn [negb app];
    rewrite ?app_nil_r; reflexivity.
Qed.

Lemma venus_issues (data : AppVenus.FormValues) :
  AppVenus.formSchema [] data =
  (issue_if (negb (some_selected (AppVenus.environments data)))
     "environments" "Please select at least one environment"
   ++ issue_if (negb (some_selected (AppVenus.locales data)))
        "locales" "Please select at least one locale"
   ++ variant_issues (AppVenus.variant data)
   ++ issue_if (Nat.ltb (String.length (AppVenus.entryUid data)) 1)
        "entryUid" "Entry UID is required"
   ++ issue_if (Nat.ltb (String.length (AppVenus.contentType data)) 1)
        "contentType" "Content Type is required")%list.
Proof.
  unfold AppVenus.formSchema, environments_schema, locales_schema, variant_schema,
    z.object, z.key, z.refine, z.min, z.boolean, z.string, z.number, issue_if,
    variant_issues.
  cbn [flat_map app].
  destruct (some_selected (AppVenus.environments data)),
           (some_selected (AppVenus.locales data)); cbn [negb app];
    rewrite ?app_nil_r, <- ?app_assoc; reflexivity.
Qed.

Lemma sidebar_issues (data : AppSidebar.FormValues) :
  AppSidebar.formSchema [] data =
  (issue_if (negb (some_selected (AppSidebar.environments data)))
     "environments" "Please select at least one environment"
   ++ issue_if (negb (some_selected (AppSidebar.locales data)))
        "locales" "Please select at least one locale"
   ++ variant_issues (AppSidebar.variant data))%list.
Proof.
  unfold AppSidebar.formSchema, environments_schema, locales_schema, variant_schema,
    z.object, z.key, z.refine, z.min, z.boolean, z.string, z.number, issue_if,
    variant_issues.
  cbn [flat_map app].
  destruct (some_selected (AppSidebar.environments data)),
           (some_selected (AppSidebar.locales data)); cbn [negb app];
    rewrite ?app_nil_r, <- ?app_assoc; reflexivity.
Qed.

(** ** One click, outcome by outcome *)

Section Outcomes.
Context `{Platform}.

Lemma mui_click_valid (w : World AppMui.FormValues unit) :
  AppMui.formSchema [] (formValues w) = [] ->
  let data := formValues w in
  let payload := JSON_stringify (AppMui.result data) in
  let enc := AES_encrypt payload VITE_APP_ENCRYPT_SECRET (rng w) in
  run AppMui.handleButtonClick w =
  {| formValues := data; formErrors := []; hooks := hooks w; rng := snd enc;
     calls := (calls w ++
               [GetValues; SafeParse data; SetFormErrors [];
                JsonStringify (AppMui.result data);
                AesEncrypt payload VITE_APP_ENCRYPT_SECRET; Btoa (fst enc);
                WindowOpen (AppMui.target_url ++ btoa (fst enc)) "_blank"])%list |}.
Proof.
  destruct w as [v e h r c]. cbn [formValues rng hooks calls]. intros Hv.
  unfold AppMui.handleButtonClick. unfold_handler. rewrite Hv.
  unfold_handler.
  destruct (AES_encrypt _ _ r) as [ct r']. unfold_handler. tidy_calls. reflexivity.
Qed.

Lemma mui_click_invalid (w : World AppMui.FormValues unit) :
  AppMui.formSchema [] (formValues w) <> [] ->
  let data := formValues w in
  let errors := AppMui.formSchema [] data in
  run AppMui.handleButtonClick w =
  {| formValues := data; formErrors := map errorMessage errors; hooks := hooks w;
     rng := rng w;
     calls := (calls w ++
               [GetValues; SafeParse data; ConsoleLog (LogErrors errors);
                SetFormErrors (map errorMessage errors)])%list |}.
Proof.
  destruct w as [v e h r c]. cbn [formValues rng hooks calls]. intros Hv.
  unfold AppMui.handleButtonClick. unfold_handler.
  destruct (AppMui.formSchema [] v) as [|i more]; [congruence|].
  unfold_handler. tidy_calls. reflexivity.
Qed.

Lemma venus_click_valid (w : World AppVenus.FormValues unit) :
  AppVenus.formSchema [] (formValues w) = [] ->
  let data := formValues w in
  let payload := JSON_stringify (AppVenus.result data) in
  let enc := AES_encrypt payload VITE_APP_ENCRYPT_SECRET (rng w) in
  run AppVenus.handleButtonClick w =
  {| formValues := data; formErrors := []; hooks := hooks w; rng := snd enc;
     calls := (calls w ++
               [GetValues; ConsoleLog (LogData data); SafeParse data; SetFormErrors [];
                JsonStringify (AppVenus.result data);
                AesEncrypt payload VITE_APP_ENCRYPT_SECRET; Btoa (fst enc);
                WindowOpen (AppVenus.target_url ++ btoa (fst enc)) "_blank"])%list |}.
Proof.
  destruct w as [v e h r c]. cbn [formValues rng hooks calls]. intros Hv.
  unfold AppVenus.handleButtonClick. unfold_handler. rewrite Hv.
  unfold_handler.
  destruct (AES_encrypt _ _ r) as [ct r']. unfold_handler. tidy_calls. reflexivity.
Qed.

Lemma venus_click_invalid (w : World AppVenus.FormValues unit) :
  AppVenus.formSchema [] (formValues w) <> [] ->
  let data := formValues w in
  let errors := AppVenus.formSchema [] data in
  run AppVenus.handleButtonClick w =
  {| formValues := data; formErrors := map errorMessage errors; hooks := hooks w;
     rng := rng w;
     calls := (calls w ++
               [GetValues; ConsoleLog (LogData data); SafeParse data;
                ConsoleLog (LogErrors errors);
                SetFormErrors (map errorMessage errors)])%list |}.
Proof.
  destruct w as [v e h r c]. cbn [formValues rng hooks calls]. intros Hv.
  unfold AppVenus.handleButtonClick. unfold_handler.
  destruct (AppVenus.formSchema [] v) as [|i more]; [congruence|].
  unfold_handler. tidy_calls. reflexivity.
Qed.

Lemma missing_iff_empty (s : string) : AppSidebar.missing s = true <-> s = "".
Proof. destruct s; simpl; split; intro Hs; try reflexivity; discriminate. Qed.

Lemma sidebar_guard (h : AppSidebar.HostState) :
  AppSidebar.missing (AppSidebar.entryUid h)
  || AppSidebar.missing (AppSidebar.contentType h)
  || AppSidebar.missing (AppSidebar.stackAPI h) = true
  <-> AppSidebar.entryUid h = "" \/ AppSidebar.contentType h = ""
      \/ AppSidebar.stackAPI h = "".
Proof.
  rewrite !orb_true_iff, !missing_iff_empty. tauto.
Qed.

Lemma sidebar_guard_passed (h : AppSidebar.HostState) :
  AppSidebar.missing (AppSidebar.entryUid h)
  || AppSidebar.missing (AppSidebar.contentType h)
  || AppSidebar.missing (AppSidebar.stackAPI h) = false
  <-> AppSidebar.entryUid h <> "" /\ AppSidebar.contentType h <> ""
      /\ AppSidebar.stackAPI h <> "".
Proof.
  destruct h as [[|a u] [|b c] [|d k]]; cbn; split; intro Hs;
    try discriminate; try reflexivity;
    try (repeat split; discriminate);
    destruct Hs as (H1 & H2 & H3); congruence.
Qed.

Lemma sidebar_click_blocked (w : World AppSidebar.FormValues AppSidebar.HostState) :
  AppSidebar.entryUid (hooks w) = "" \/ AppSidebar.contentType (hooks w) = ""
  \/ AppSidebar.stackAPI (hooks w) = "" ->
  run AppSidebar.handleButtonClick w =
  {| formValues := formValues w; formErrors := formErrors w; hooks := hooks w;
     rng := rng w; calls := (calls w ++ [Alert AppSidebar.alert_text])%list |}.
Proof.
  destruct w as [v e h r c]. cbn [formValues rng hooks calls formErrors]. intros Hb.
  apply sidebar_guard in Hb.
  unfold AppSidebar.handleButtonClick. unfold_handler. rewrite Hb.
  unfold_handler. reflexivity.
Qed.

Lemma sidebar_click_valid (w : World AppSidebar.FormValues AppSidebar.HostState) :
  AppSidebar.entryUid (hooks w) <> "" /\ AppSidebar.contentType (hooks w) <> ""
  /\ AppSidebar.stackAPI (hooks w) <> "" ->
  AppSidebar.formSchema [] (formValues w) = [] ->
  let data := formValues w in
  let payload := JSON_stringify (AppSidebar.result data (hooks w)) in
  let enc := AES_encrypt payload VITE_APP_ENCRYPT_SECRET (rng w) in
  run AppSidebar.handleButtonClick w =
  {| formValues := data; formErrors := []; hooks := hooks w; rng := snd enc;
     calls := (calls w ++
               [GetValues; ConsoleLog (LogData data); SafeParse data; SetFormErrors [];
                JsonStringify (AppSidebar.result data (hooks w));
                AesEncrypt payload VITE_APP_ENCRYPT_SECRET; Btoa (fst enc);
                WindowOpen (AppSidebar.target_url ++ btoa (fst enc)) "_blank"])%list |}.
Proof.
  destruct w as [v e h r c]. cbn [formValues rng hooks calls formErrors].
  intros Hg Hv. apply sidebar_guard_passed in Hg.
  unfold AppSidebar.handleButtonClick. unfold_handler. rewrite Hg.
  unfold_handler. rewrite Hv. unfold_handler.
  destruct (AES_encrypt _ _ r) as [ct r']. unfold_handler. tidy_calls. reflexivity.
Qed.

Lemma sidebar_click_invalid (w : World AppSidebar.FormValues AppSidebar.HostState) :
  AppSidebar.entryUid (hooks w) <> "" /\ AppSidebar.contentType (hooks w) <> ""
  /\ AppSidebar.stackAPI (hooks w) <> "" ->
  AppSidebar.formSchema [] (formValues w) <> [] ->
  let data := formValues w in
  let errors := AppSidebar.formSchema [] data in
  run AppSidebar.handleButtonClick w =
  {| formValues := data; formErrors := map errorMessage errors; hooks := hooks w;
     rng := rng w;
     calls := (calls w ++
               [GetValues; ConsoleLog (LogData data); SafeParse data;
                ConsoleLog (LogErrors errors);
                SetFormErrors (map errorMessage errors)])%list |}.
Proof.
  destruct w as [v e h r c]. cbn [formValues rng hooks calls formErrors].
  intros Hg Hv. apply sidebar_guard_passed in Hg.
  unfold AppSidebar.handleButtonClick. unfold_handler. rewrite Hg.
  unfold_handler.
  destruct (AppSidebar.formSchema [] v) as [|i more]; [congruence|].
  unfold_handler. tidy_calls. reflexivity.
Qed.

End Outcomes.

(** ** The calls of one click *)

Section Traces.
Context `{Platform}.

Lemma trace_of_run {V X A : Type} (h : M V X A) (w : World V X) (t : list (Call V)) :
  calls (run h w) = (calls w ++ t)%list -> click_trace h w = t.
Proof.
  intros Hc. unfold click_trace. rewrite Hc. apply skipn_app_exact.
Qed.

Lemma mui_trace_valid (w : World AppMui.FormValues unit) :
  passes AppMui.formSchema (formValues w) = true ->
  let data := formValues w in
  let payload := JSON_stringify (AppMui.result data) in
  let cipher := fst (AES_encrypt payload VITE_APP_ENCRYPT_SECRET (rng w)) in
  click_trace AppMui.handleButtonClick w =
  [GetValues; SafeParse data; SetFormErrors []; JsonStringify (AppMui.result data);
   AesEncrypt payload VITE_APP_ENCRYPT_SECRET; Btoa cipher;
   WindowOpen (AppMui.target_url ++ btoa cipher) "_blank"].
Proof.
  intros Hp. apply passes_iff_no_issue in Hp. cbv zeta.
  apply trace_of_run. rewrite (mui_click_valid w Hp). reflexivity.
Qed.

Lemma mui_trace_invalid (w : World AppMui.FormValues unit) :
  passes AppMui.formSchema (formValues w) = false ->
  let data := formValues w in
  let errors := AppMui.formSchema [] data in
  click_trace AppMui.handleButtonClick w =
  [GetValues; SafeParse data; ConsoleLog (LogErrors errors);
   SetFormErrors (map errorMessage errors)].
Proof.
  intros Hp. apply fails_iff_issue in Hp. cbv zeta.
  apply trace_of_run. rewrite (mui_click_invalid w Hp). reflexivity.
Qed.

Lemma venus_trace_valid (w : World AppVenus.FormValues unit) :
  passes AppVenus.formSchema (formValues w) = true ->
  let data := formValues w in
  let payload := JSON_stringify (AppVenus.result data) in
  let cipher := fst (AES_encrypt payload VITE_APP_ENCRYPT_SECRET (rng w)) in
  click_trace AppVenus.handleButtonClick w =
  [GetValues; ConsoleLog (LogData data); SafeParse data; SetFormErrors [];
   JsonStringify (AppVenus.result data);
   AesEncrypt payload VITE_APP_ENCRYPT_SECRET; Btoa cipher;
   WindowOpen (AppVenus.target_url ++ btoa cipher) "_blank"].
Proof.
  intros Hp. apply passes_iff_no_issue in Hp. cbv zeta.
  apply trace_of_run. rewrite (venus_click_valid w Hp). reflexivity.
Qed.

Lemma venus_trace_invalid (w : World AppVenus.FormValues unit) :
  passes AppVenus.formSchema (formValues w) = false ->
  let data := formValues w in
  let errors := AppVenus.formSchema [] data in
  click_trace AppVenus.handleButtonClick w =
  [GetValues; ConsoleLog (LogData data); SafeParse data; ConsoleLog (LogErrors errors);
   SetFormErrors (map errorMessage errors)].
Proof.
  intros Hp. apply fails_iff_issue in Hp. cbv zeta.
  apply trace_of_run. rewrite (venus_click_invalid w Hp). reflexivity.
Qed.

Lemma sidebar_trace_blocked (w : World AppSidebar.FormValues AppSidebar.HostState) :
  AppSidebar.entryUid (hooks w) = "" \/ AppSidebar.contentType (hooks w) = ""
  \/ AppSidebar.stackAPI (hooks w) = "" ->
  click_trace AppSidebar.handleButtonClick w = [Alert AppSidebar.alert_text].
Proof.
  intros Hb. apply trace_of_run. rewrite (sidebar_click_blocked w Hb). reflexivity.
Qed.

Lemma sidebar_trace_valid (w : World AppSidebar.FormValues AppSidebar.HostState) :
  AppSidebar.entryUid (hooks w) <> "" /\ AppSidebar.contentType (hooks w) <> ""
  /\ AppSidebar.stackAPI (hooks w) <> "" ->
  passes AppSidebar.formSchema (formValues w) = true ->
  let data := formValues w in
  let payload := JSON_stringify (AppSidebar.result data (hooks w)) in
  let cipher := fst (AES_encrypt payload VITE_APP_ENCRYPT_SECRET (rng w)) in
  click_trace AppSidebar.handleButtonClick w =
  [GetValues; ConsoleLog (LogData data); SafeParse data; SetFormErrors [];
   JsonStringify (AppSidebar.result data (hooks w));
   AesEncrypt payload VITE_APP_ENCRYPT_SECRET; Btoa cipher;
   WindowOpen (AppSidebar.target_url ++ btoa cipher) "_blank"].
Proof.
  intros Hg Hp. apply passes_iff_no_issue in Hp. cbv zeta.
  apply trace_of_run. rewrite (sidebar_click_valid w Hg Hp). reflexivity.
Qed.

Lemma sidebar_trace_invalid (w : World AppSidebar.FormValues AppSidebar.HostState) :
  AppSidebar.entryUid (hooks w) <> "" /\ AppSidebar.contentType (hooks w) <> ""
  /\ AppSidebar.stackAPI (hooks w) <> "" ->
  passes AppSidebar.formSchema (formValues w) = false ->
  let data := formValues w in
  let errors := AppSidebar.formSchema [] data in
  click_trace AppSidebar.handleButtonClick w =
  [GetValues; ConsoleLog (LogData data); SafeParse data; ConsoleLog (LogErrors errors);
   SetFormErrors (map errorMessage errors)].
Proof.
  intros Hg Hp. apply fails_iff_issue in Hp. cbv zeta.
  apply trace_of_run. rewrite (sidebar_click_invalid w Hg Hp). reflexivity.
Qed.

(** The host values are either all there or one of them is missing. *)
Lemma host_ready_or_missing (h : AppSidebar.HostState) :
  (AppSidebar.entryUid h <> "" /\ AppSidebar.contentType h <> ""
   /\ AppSidebar.stackAPI h <> "")
  \/ (AppSidebar.entryUid h = "" \/ AppSidebar.contentType h = ""
      \/ AppSidebar.stackAPI h = "").
Proof.
  destruct h as [[|a u] [|b c] [|d k]]; cbn;
    try (left; repeat split; discriminate); right; auto.
Qed.

End Traces.

(** ** Concrete runs *)

Example btoa_hello : btoa "hello" = "aGVsbG8=".
Proof. reflexivity. Qed.

Example btoa_salted : btoa "U2FsdGVkX1+" = "VTJGc2RHVmtYMSs=".
Proof. reflexivity. Qed.

Example stringify_demo :
  JSON_stringify
    (JObject [("a", JArray [JString "x"; JString "y"]); ("n", JNumber 12);
              ("e", JArray [])])
  = "{" ++ dquote ++ "a" ++ dquote ++ ":[" ++ dquote ++ "x" ++ dquote ++ ","
        ++ dquote ++ "y" ++ dquote ++ "]," ++ dquote ++ "n" ++ dquote ++ ":12,"
        ++ dquote ++ "e" ++ dquote ++ ":[]}".
Proof. reflexivity. Qed.

Example stringify_escapes :
  JSON_stringify (JString (String (ascii_of_N 10) (String (ascii_of_N 1) "a\b")))
  = dquote ++ "\n\u0001a\\b" ++ dquote.
Proof. reflexivity. Qed.

Example mui_default_click_errors :
  map message (formErrors (run AppMui.handleButtonClick mui_empty))
  = ["Please select at least one environment"; "Please select at least one locale";
     "Please select a variant"; "Entry UID is required"; "Content Type is required"].
Proof. reflexivity. Qed.

Example sidebar_ready_hooks :
  hooks sidebar_ready
  = {| AppSidebar.entryUid := "blt01"; AppSidebar.contentType := "page";
       AppSidebar.stackAPI := "blt-stack" |}.
Proof. reflexivity. Qed.

(** Of the three options of the Venus select, the placeholder is the one
    the schema rejects. *)
Example variant_options_validity :
  map (passes variant_schema) variant_options = [false; true; true].
Proof. reflexivity. Qed.

Example decode_sample : base64_decode "aGVsbG8=" = Some "hello".
Proof. reflexivity. Qed.

(** ** C1: a click on a valid form *)

(** C1, as stated, fails in the sidebar revision: with the form filled in
    correctly but the host values not yet retrieved, a click opens no tab and
    shows the alert instead. *)
Lemma C1_counterexample_sidebar_before_init :
  passes AppSidebar.formSchema (formValues sidebar_before_init) = true
  /\ window_opens (click_trace AppSidebar.handleButtonClick sidebar_before_init) = []
  /\ click_trace AppSidebar.handleButtonClick sidebar_before_init
     = [Alert "Entry Uid or Content type or Stack API could not be retrieved"].
Proof. repeat split; reflexivity. Qed.

(** C1 (amended): for every form state that passes schema validation (and,
    in the sidebar revision, when the three host-provided values are all
    non-empty), one click serializes the [result] object with
    [JSON.stringify], encrypts that text with the shared secret, and opens
    exactly one tab, target [_blank], whose URL is the address of the
    visualization tool followed by [?data=] and the Base64 text of the
    cipher text. *)
Theorem C1_valid_click_opens_one_tab {P : Platform} :
  (forall w : World AppMui.FormValues unit,
     passes AppMui.formSchema (formValues w) = true ->
     let payload := JSON_stringify (AppMui.result (formValues w)) in
     let cipher := fst (AES_encrypt payload VITE_APP_ENCRYPT_SECRET (rng w)) in
     let trace := click_trace AppMui.handleButtonClick w in
     In (JsonStringify (AppMui.result (formValues w))) trace
     /\ In (AesEncrypt payload VITE_APP_ENCRYPT_SECRET) trace
     /\ window_opens trace
        = [("https://demo-graph.contentstackapps.com" ++ "?data=" ++ btoa cipher,
            "_blank")])
  /\ (forall w : World AppVenus.FormValues unit,
     passes AppVenus.formSchema (formValues w) = true ->
     let payload := JSON_stringify (AppVenus.result (formValues w)) in
     let cipher := fst (AES_encrypt payload VITE_APP_ENCRYPT_SECRET (rng w)) in
     let trace := click_trace AppVenus.handleButtonClick w in
     In (JsonStringify (AppVenus.result (formValues w))) trace
     /\ In (AesEncrypt payload VITE_APP_ENCRYPT_SECRET) trace
     /\ window_opens trace
        = [("https://demo-graph.contentstackapps.com" ++ "?data=" ++ btoa cipher,
            "_blank")])
  /\ (forall w : World AppSidebar.FormValues AppSidebar.HostState,
     passes AppSidebar.formSchema (formValues w) = true ->
     AppSidebar.entryUid (hooks w) <> "" ->
     AppSidebar.contentType (hooks w) <> "" ->
     AppSidebar.stackAPI (hooks w) <> "" ->
     let payload := JSON_stringify (AppSidebar.result (formValues w) (hooks w)) in
     let cipher := fst (AES_encrypt payload VITE_APP_ENCRYPT_SECRET (rng w)) in
     let trace := click_trace AppSidebar.handleButtonClick w in
     In (JsonStringify (AppSidebar.result (formValues w) (hooks w))) trace
     /\ In (AesEncrypt payload VITE_APP_ENCRYPT_SECRET) trace
     /\ window_opens trace
        = [("https://demo-graph-refactored.contentstackapps.com/" ++ "?data="
              ++ btoa cipher, "_blank")]).
Proof.
  split; [|split].
  - intros w Hp. cbv zeta. rewrite (mui_trace_valid w Hp).
    repeat split; cbn [In window_opens flat_map app]; auto 10.
  - intros w Hp. cbv zeta. rewrite (venus_trace_valid w Hp).
    repeat split; cbn [In window_opens flat_map app]; auto 10.
  - intros w Hp H1 H2 H3. cbv zeta.
    rewrite (sidebar_trace_valid w (conj H1 (conj H2 H3)) Hp).
    repeat split; cbn [In window_opens flat_map app]; auto 10.
Qed.

(** The three parts of C1 at the filled-in sample forms. *)
Lemma C1_witness :
  window_opens (click_trace AppMui.handleButtonClick mui_ready)
  = [("https://demo-graph.contentstackapps.com?data=VTJGc2RHVmtYMXMzY3JldHsiZW52aXJvbm1lbnRzIjpbInByb2R1Y3Rpb24iLCJkZXZlbG9wbWVudCJdLCJsb2NhbGVzIjpbImZyLWZyIl0sInZhcmlhbnQiOiJ0ZWNoIiwiZW50cnlVaWQiOiJibHQwMSIsImNvbnRlbnRUeXBlIjoicGFnZSJ9",
      "_blank")]
  /\ window_opens (click_trace AppVenus.handleButtonClick venus_ready)
     = [("https://demo-graph.contentstackapps.com?data=VTJGc2RHVmtYMXMzY3JldHsiZW52aXJvbm1lbnRzIjpbInN0YWdpbmciXSwibG9jYWxlcyI6WyJlbi11cyIsImVzIl0sInZhcmlhbnQiOnsiaWQiOjEsImxhYmVsIjoiQnVzaW5lc3MgQXVkaWVuY2UiLCJ2YWx1ZSI6ImJ1c2luZXNzIn0sImVudHJ5VWlkIjoiYmx0MDEiLCJjb250ZW50VHlwZSI6InBhZ2UifQ==",
         "_blank")]
  /\ window_opens (click_trace AppSidebar.handleButtonClick sidebar_ready)
     = [("https://demo-graph-refactored.contentstackapps.com/?data=VTJGc2RHVmtYMXMzY3JldHsiZW52aXJvbm1lbnRzIjpbInByb2R1Y3Rpb24iLCJzdGFnaW5nIl0sImxvY2FsZXMiOlsiZW4tdXMiXSwidmFyaWFudCI6eyJpZCI6MiwibGFiZWwiOiJUZWNoIEVudGh1c2lhc3RzIiwidmFsdWUiOiJ0ZWNoIn0sImVudHJ5VWlkIjoiYmx0MDEiLCJjb250ZW50VHlwZSI6InBhZ2UiLCJzdGFja0FQSSI6ImJsdC1zdGFjayJ9",
         "_blank")].
Proof.
  destruct (@C1_valid_click_opens_one_tab stub_platform) as (Hm & Hv & Hs).
  split; [|split].
  - apply (Hm mui_ready). reflexivity.
  - apply (Hv venus_ready). reflexivity.
  - apply (Hs sidebar_ready); [reflexivity | discriminate | discriminate | discriminate].
Defined.

(** ** C2: when validation fails *)

Lemma mui_passes_iff (data : AppMui.FormValues) :
  passes AppMui.formSchema data = true <->
  ~ none_selected_env (AppMui.environments data)
  /\ ~ none_selected_locale (AppMui.locales data)
  /\ AppMui.variant data <> "" /\ AppMui.entryUid data <> ""
  /\ AppMui.contentType data <> "".
Proof.
  rewrite passes_iff_no_issue, mui_issues.
  rewrite <- some_selected_env_false, <- some_selected_locale_false.
  rewrite <- !length_zero_iff_empty.
  destruct (some_selected (AppMui.environments data)),
           (some_selected (AppMui.locales data)),
           (Nat.ltb (String.length (AppMui.variant data)) 1),
           (Nat.ltb (String.length (AppMui.entryUid data)) 1),
           (Nat.ltb (String.length (AppMui.contentType data)) 1);
    cbn; split; intro Hs;
    try discriminate; try reflexivity;
    try (repeat split; discriminate);
    destruct Hs as (H1 & H2 & H3 & H4 & H5); congruence.
Qed.

Lemma mui_fails_iff (data : AppMui.FormValues) :
  passes AppMui.formSchema data = false <->
  none_selected_env (AppMui.environments data)
  \/ none_selected_locale (AppMui.locales data)
  \/ AppMui.variant data = "" \/ AppMui.entryUid data = ""
  \/ AppMui.contentType data = "".
Proof.
  rewrite fails_iff_issue, mui_issues.
  rewrite <- some_selected_env_false, <- some_selected_locale_false.
  rewrite <- !length_zero_iff_empty.
  destruct (some_selected (AppMui.environments data)),
           (some_selected (AppMui.locales data)),
           (Nat.ltb (String.length (AppMui.variant data)) 1),
           (Nat.ltb (String.length (AppMui.entryUid data)) 1),
           (Nat.ltb (String.length (AppMui.contentType data)) 1);
    cbn; split; intro Hs; try congruence; auto 6;
    repeat (destruct Hs as [Hs|Hs]; try discriminate).
Qed.

(** C2: in the form of src/src/App.tsx (first revision) a click fails
    validation if and only if no environment is ticked, or no locale is
    ticked, or the variant, the entry uid or the content type is empty; it
    succeeds exactly when none of these holds.  A failing click sets a
    non-empty inline error list, shows under each field its message exactly
    when that field is the missing one, and opens no tab. *)
Theorem C2_submit_fails_iff_a_field_is_missing {P : Platform}
  (w : World AppMui.FormValues unit) :
  let data := formValues w in
  let after := run AppMui.handleButtonClick w in
  let trace := click_trace AppMui.handleButtonClick w in
  let shown := FormHelperText (formErrors after) in
  (passes AppMui.formSchema data = false <->
     none_selected_env (AppMui.environments data)
     \/ none_selected_locale (AppMui.locales data)
     \/ AppMui.variant data = "" \/ AppMui.entryUid data = ""
     \/ AppMui.contentType data = "")
  /\ (passes AppMui.formSchema data = true <->
        ~ none_selected_env (AppMui.environments data)
        /\ ~ none_selected_locale (AppMui.locales data)
        /\ AppMui.variant data <> "" /\ AppMui.entryUid data <> ""
        /\ AppMui.contentType data <> "")
  /\ (passes AppMui.formSchema data = false ->
        formErrors after <> []
        /\ window_opens trace = []
        /\ (none_selected_env (AppMui.environments data) <->
              shown "environments"
              = HelperText (Some "Please select at least one environment"))
        /\ (none_selected_locale (AppMui.locales data) <->
              shown "locales" = HelperText (Some "Please select at least one locale"))
        /\ (AppMui.variant data = "" <->
              shown "variant" = HelperText (Some "Please select a variant"))
        /\ (AppMui.entryUid data = "" <->
              shown "entryUid" = HelperText (Some "Entry UID is required"))
        /\ (AppMui.contentType data = "" <->
              shown "contentType" = HelperText (Some "Content Type is required"))).
Proof.
  cbv zeta. split; [apply mui_fails_iff|]. split; [apply mui_passes_iff|].
  intros Hf. rewrite (mui_trace_invalid w Hf).
  pose proof Hf as Hi. apply fails_iff_issue in Hi.
  rewrite (mui_click_invalid w Hi). cbn [formErrors].
  rewrite mui_issues in Hi |- *.
  rewrite <- some_selected_env_false, <- some_selected_locale_false.
  rewrite <- !length_zero_iff_empty.
  destruct (some_selected (AppMui.environments (formValues w))),
           (some_selected (AppMui.locales (formValues w))),
           (Nat.ltb (String.length (AppMui.variant (formValues w))) 1),
           (Nat.ltb (String.length (AppMui.entryUid (formValues w))) 1),
           (Nat.ltb (String.length (AppMui.contentType (formValues w))) 1);
    cbn in Hi |- *; try congruence;
    (split; [discriminate|]); (split; [reflexivity|]);
    repeat split; intro Hs; try reflexivity; try discriminate.
Qed.

(** C2 on the empty first form: the click fails, sets the inline errors
    and opens nothing; on the filled-in form validation succeeds. *)
Lemma C2_witness :
  formErrors (run AppMui.handleButtonClick mui_empty) <> []
  /\ window_opens (click_trace AppMui.handleButtonClick mui_empty) = []
  /\ FormHelperText (formErrors (run AppMui.handleButtonClick mui_empty)) "entryUid"
     = HelperText (Some "Entry UID is required")
  /\ passes AppMui.formSchema mui_filled = true.
Proof.
  destruct (@C2_submit_fails_iff_a_field_is_missing stub_platform mui_empty)
    as (_ & _ & Hfail).
  destruct Hfail as (Hne & Hnone & _ & _ & _ & Huid & _); [reflexivity|].
  destruct (@C2_submit_fails_iff_a_field_is_missing stub_platform mui_ready)
    as (_ & Hpass & _).
  split; [exact Hne|]. split; [exact Hnone|]. split.
  - apply Huid. reflexivity.
  - apply Hpass. unfold none_selected_env, none_selected_locale. cbn.
    repeat split; try discriminate; intros (H1 & H2 & H3); discriminate.
Defined.

(** ** C3: the fields of the payload *)

Lemma stringify_names (names : list string) :
  map JSON_stringify (map JString names) = map QuoteJSONString names.
Proof. rewrite map_map. reflexivity. Qed.

Lemma mui_payload_text (data : AppMui.FormValues) :
  JSON_stringify (AppMui.result data)
  = "{" ++ (QuoteJSONString "environments" ++ ":" ++ "["
              ++ join_comma (map QuoteJSONString
                               (ticked_environments (AppMui.environments data))) ++ "]")
        ++ "," ++ (QuoteJSONString "locales" ++ ":" ++ "["
              ++ join_comma (map QuoteJSONString
                               (ticked_locales (AppMui.locales data))) ++ "]")
        ++ "," ++ (QuoteJSONString "variant" ++ ":" ++ QuoteJSONString (AppMui.variant data))
        ++ "," ++ (QuoteJSONString "entryUid" ++ ":" ++ QuoteJSONString (AppMui.entryUid data))
        ++ "," ++ (QuoteJSONString "contentType" ++ ":"
                     ++ QuoteJSONString (AppMui.contentType data))
        ++ "}".
Proof.
  unfold AppMui.result. cbn [JSON_stringify map fst snd].
  rewrite !stringify_names, selected_names_env, selected_names_locale.
  unfold join_comma at 1. cbn [String.concat].
  rewrite !append_assoc. reflexivity.
Qed.

Lemma variant_text (v : Variant) :
  JSON_stringify (Variant_json v)
  = "{" ++ QuoteJSONString "id" ++ ":" ++ Number_toString (id v)
        ++ "," ++ QuoteJSONString "label" ++ ":" ++ QuoteJSONString (label v)
        ++ "," ++ QuoteJSONString "value" ++ ":" ++ QuoteJSONString (value v)
        ++ "}".
Proof.
  unfold Variant_json. cbn [JSON_stringify map fst snd].
  unfold join_comma. cbn [String.concat].
  rewrite !append_assoc. reflexivity.
Qed.

Lemma venus_payload_text (data : AppVenus.FormValues) :
  JSON_stringify (AppVenus.result data)
  = "{" ++ (QuoteJSONString "environments" ++ ":" ++ "["
              ++ join_comma (map QuoteJSONString
                               (ticked_environments (AppVenus.environments data))) ++ "]")
        ++ "," ++ (QuoteJSONString "locales" ++ ":" ++ "["
              ++ join_comma (map QuoteJSONString
                               (ticked_locales (AppVenus.locales data))) ++ "]")
        ++ "," ++ (QuoteJSONString "variant" ++ ":"
                     ++ JSON_stringify (Variant_json (AppVenus.variant data)))
        ++ "," ++ (QuoteJSONString "entryUid" ++ ":"
                     ++ QuoteJSONString (AppVenus.entryUid data))
        ++ "," ++ (QuoteJSONString "contentType" ++ ":"
                     ++ QuoteJSONString (AppVenus.contentType data))
        ++ "}".
Proof.
  unfold AppVenus.result.
  remember (Variant_json (AppVenus.variant data)) as vj.
  cbn [JSON_stringify map fst snd].
  rewrite !stringify_names, selected_names_env, selected_names_locale.
  unfold join_comma at 1. cbn [String.concat].
  rewrite !append_assoc. reflexivity.
Qed.

Lemma sidebar_payload_text (data : AppSidebar.FormValues) (host : AppSidebar.HostState) :
  JSON_stringify (AppSidebar.result data host)
  = "{" ++ (QuoteJSONString "environments" ++ ":" ++ "["
              ++ join_comma (map QuoteJSONString
                               (ticked_environments (AppSidebar.environments data))) ++ "]")
        ++ "," ++ (QuoteJSONString "locales" ++ ":" ++ "["
              ++ join_comma (map QuoteJSONString
                               (ticked_locales (AppSidebar.locales data))) ++ "]")
        ++ "," ++ (QuoteJSONString "variant" ++ ":"
                     ++ JSON_stringify (Variant_json (AppSidebar.variant data)))
        ++ "," ++ (QuoteJSONString "entryUid" ++ ":"
                     ++ QuoteJSONString (AppSidebar.entryUid host))
        ++ "," ++ (QuoteJSONString "contentType" ++ ":"
                     ++ QuoteJSONString (AppSidebar.contentType host))
        ++ "," ++ (QuoteJSONString "stackAPI" ++ ":"
                     ++ QuoteJSONString (AppSidebar.stackAPI host))
        ++ "}".
Proof.
  unfold AppSidebar.result.
  remember (Variant_json (AppSidebar.variant data)) as vj.
  cbn [JSON_stringify map fst snd].
  rewrite !stringify_names, selected_names_env, selected_names_locale.
  unfold join_comma at 1. cbn [String.concat].
  rewrite !append_assoc. reflexivity.
Qed.

Section SerializedValue.
Context `{Platform}.

(** Whatever a click serializes is the [result] object of the values held. *)
Lemma mui_serializes_result (w : World AppMui.FormValues unit) (v : JSON) :
  In (JsonStringify v) (click_trace AppMui.handleButtonClick w) ->
  v = AppMui.result (formValues w).
Proof.
  destruct (passes AppMui.formSchema (formValues w)) eqn:Hp.
  - rewrite (mui_trace_valid w Hp). cbn [In].
    intros [Hc|[Hc|[Hc|[Hc|[Hc|[Hc|[Hc|[]]]]]]]]; congruence.
  - rewrite (mui_trace_invalid w Hp). cbn [In].
    intros [Hc|[Hc|[Hc|[Hc|[]]]]]; congruence.
Qed.

Lemma venus_serializes_result (w : World AppVenus.FormValues unit) (v : JSON) :
  In (JsonStringify v) (click_trace AppVenus.handleButtonClick w) ->
  v = AppVenus.result (formValues w).
Proof.
  destruct (passes AppVenus.formSchema (formValues w)) eqn:Hp.
  - rewrite (venus_trace_valid w Hp). cbn [In].
    intros [Hc|[Hc|[Hc|[Hc|[Hc|[Hc|[Hc|[Hc|[]]]]]]]]]; congruence.
  - rewrite (venus_trace_invalid w Hp). cbn [In].
    intros [Hc|[Hc|[Hc|[Hc|[Hc|[]]]]]]; congruence.
Qed.

Lemma sidebar_serializes_result
  (w : World AppSidebar.FormValues AppSidebar.HostState) (v : JSON) :
  In (JsonStringify v) (click_trace AppSidebar.handleButtonClick w) ->
  v = AppSidebar.result (formValues w) (hooks w).
Proof.
  destruct (host_ready_or_missing (hooks w)) as [Hg|Hb].
  - destruct (passes AppSidebar.formSchema (formValues w)) eqn:Hp.
    + rewrite (sidebar_trace_valid w Hg Hp). cbn [In].
      intros [Hc|[Hc|[Hc|[Hc|[Hc|[Hc|[Hc|[Hc|[]]]]]]]]]; congruence.
    + rewrite (sidebar_trace_invalid w Hg Hp). cbn [In].
      intros [Hc|[Hc|[Hc|[Hc|[Hc|[]]]]]]; congruence.
  - rewrite (sidebar_trace_blocked w Hb). cbn [In]. intros [Hc|[]]; congruence.
Qed.

End SerializedValue.

(** C3: in the payload, [environments] is the list of the ticked
    environment names in the order production, staging, development,
    [locales] the list of the ticked locale names in the order en-us, fr-fr,
    es, and the variant, the entry uid and the content type are the values
    held, unchanged; and every click that serializes, serializes this
    object. *)
Theorem C3_payload_fields {P : Platform} :
  (forall data : AppMui.FormValues,
     let payload := AppMui.result data in
     JSON_get "environments" payload
     = Some (JArray (map JString (ticked_environments (AppMui.environments data))))
     /\ JSON_get "locales" payload
        = Some (JArray (map JString (ticked_locales (AppMui.locales data))))
     /\ JSON_get "variant" payload = Some (JString (AppMui.variant data))
     /\ JSON_get "entryUid" payload = Some (JString (AppMui.entryUid data))
     /\ JSON_get "contentType" payload = Some (JString (AppMui.contentType data)))
  /\ (forall data : AppVenus.FormValues,
     let payload := AppVenus.result data in
     JSON_get "environments" payload
     = Some (JArray (map JString (ticked_environments (AppVenus.environments data))))
     /\ JSON_get "locales" payload
        = Some (JArray (map JString (ticked_locales (AppVenus.locales data))))
     /\ JSON_get "variant" payload = Some (Variant_json (AppVenus.variant data))
     /\ JSON_get "entryUid" payload = Some (JString (AppVenus.entryUid data))
     /\ JSON_get "contentType" payload = Some (JString (AppVenus.contentType data)))
  /\ (forall (data : AppSidebar.FormValues) (host : AppSidebar.HostState),
     let payload := AppSidebar.result data host in
     JSON_get "environments" payload
     = Some (JArray (map JString (ticked_environments (AppSidebar.environments data))))
     /\ JSON_get "locales" payload
        = Some (JArray (map JString (ticked_locales (AppSidebar.locales data))))
     /\ JSON_get "variant" payload = Some (Variant_json (AppSidebar.variant data))
     /\ JSON_get "entryUid" payload = Some (JString (AppSidebar.entryUid host))
     /\ JSON_get "contentType" payload = Some (JString (AppSidebar.contentType host)))
  /\ (forall (w : World AppMui.FormValues unit) (v : JSON),
     In (JsonStringify v) (click_trace AppMui.handleButtonClick w) ->
     v = AppMui.result (formValues w))
  /\ (forall (w : World AppVenus.FormValues unit) (v : JSON),
     In (JsonStringify v) (click_trace AppVenus.handleButtonClick w) ->
     v = AppVenus.result (formValues w))
  /\ (forall (w : World AppSidebar.FormValues AppSidebar.HostState) (v : JSON),
     In (JsonStringify v) (click_trace AppSidebar.handleButtonClick w) ->
     v = AppSidebar.result (formValues w) (hooks w)).
Proof.
  split; [|split; [|split; [|split; [|split]]]].
  - intros data. cbv zeta.
    repeat split;
      unfold AppMui.result; rewrite ?selected_names_env, ?selected_names_locale;
      reflexivity.
  - intros data. cbv zeta.
    repeat split;
      unfold AppVenus.result; rewrite ?selected_names_env, ?selected_names_locale;
      reflexivity.
  - intros data host. cbv zeta.
    repeat split;
      unfold AppSidebar.result; rewrite ?selected_names_env, ?selected_names_locale;
      reflexivity.
  - apply mui_serializes_result.
  - apply venus_serializes_result.
  - apply sidebar_serializes_result.
Qed.

(** C3 on the filled-in sample forms: what the click serializes. *)
Lemma C3_witness :
  In (JsonStringify (AppMui.result mui_filled))
     (click_trace AppMui.handleButtonClick mui_ready)
  /\ JSON_get "environments" (AppMui.result mui_filled)
     = Some (JArray [JString "production"; JString "development"])
  /\ JSON_get "locales" (AppMui.result mui_filled) = Some (JArray [JString "fr-fr"])
  /\ (forall v : JSON,
        In (JsonStringify v) (click_trace AppSidebar.handleButtonClick sidebar_ready) ->
        JSON_get "entryUid" v = Some (JString "blt01")
        /\ JSON_get "locales" v = Some (JArray [JString "en-us"])).
Proof.
  destruct (@C3_payload_fields stub_platform) as (Hm & _ & Hs & Hmt & _ & Hst).
  split; [|split; [|split]].
  - cbn. auto 10.
  - apply (Hm mui_filled).
  - apply (Hm mui_filled).
  - intros v Hv. rewrite (Hst sidebar_ready v Hv).
    split; apply (Hs sidebar_filled (hooks sidebar_ready)).
Defined.

(** ** C4: the order of the steps *)

(** C4: in every revision a click either validates, serializes, encrypts
    and redirects, in this order and on a form that passes validation, or it
    stops after a failed validation (or, in the sidebar revision, before
    validation): then nothing is serialized or encrypted and no tab is
    opened. *)
Theorem C4_steps_in_order {P : Platform} :
  (forall w : World AppMui.FormValues unit,
     let trace := click_trace AppMui.handleButtonClick w in
     (passes AppMui.formSchema (formValues w) = true
      /\ steps trace = [Validate; Serialize; Encrypt; Redirect])
     \/ (passes AppMui.formSchema (formValues w) = false
         /\ steps trace = [Validate] /\ window_opens trace = []))
  /\ (forall w : World AppVenus.FormValues unit,
     let trace := click_trace AppVenus.handleButtonClick w in
     (passes AppVenus.formSchema (formValues w) = true
      /\ steps trace = [Validate; Serialize; Encrypt; Redirect])
     \/ (passes AppVenus.formSchema (formValues w) = false
         /\ steps trace = [Validate] /\ window_opens trace = []))
  /\ (forall w : World AppSidebar.FormValues AppSidebar.HostState,
     let trace := click_trace AppSidebar.handleButtonClick w in
     (passes AppSidebar.formSchema (formValues w) = true
      /\ steps trace = [Validate; Serialize; Encrypt; Redirect])
     \/ (passes AppSidebar.formSchema (formValues w) = false
         /\ steps trace = [Validate] /\ window_opens trace = [])
     \/ ((AppSidebar.entryUid (hooks w) = "" \/ AppSidebar.contentType (hooks w) = ""
          \/ AppSidebar.stackAPI (hooks w) = "")
         /\ steps trace = [] /\ window_opens trace = [])).
Proof.
  split; [|split].
  - intros w. cbv zeta.
    destruct (passes AppMui.formSchema (formValues w)) eqn:Hp.
    + left. rewrite (mui_trace_valid w Hp). split; reflexivity.
    + right. rewrite (mui_trace_invalid w Hp). repeat split; reflexivity.
  - intros w. cbv zeta.
    destruct (passes AppVenus.formSchema (formValues w)) eqn:Hp.
    + left. rewrite (venus_trace_valid w Hp). split; reflexivity.
    + right. rewrite (venus_trace_invalid w Hp). repeat split; reflexivity.
  - intros w. cbv zeta.
    destruct (host_ready_or_missing (hooks w)) as [Hg|Hb].
    + destruct (passes AppSidebar.formSchema (formValues w)) eqn:Hp.
      * left. rewrite (sidebar_trace_valid w Hg Hp). split; reflexivity.
      * right; left. rewrite (sidebar_trace_invalid w Hg Hp). repeat split; reflexivity.
    + right; right. rewrite (sidebar_trace_blocked w Hb). repeat split; auto.
Qed.

(** ** C5: how a failed click is reported *)

Lemma strict_eqb_refl (a : option string) : strict_eqb a a = true.
Proof. destruct a as [s|]; simpl; [apply String.eqb_refl | reflexivity]. Qed.

Lemma strict_eqb_eq (a b : option string) : strict_eqb a b = true <-> a = b.
Proof.
  destruct a as [x|], b as [y|]; simpl; split; intro Hs;
    try discriminate; try reflexivity.
  - apply String.eqb_eq in Hs. now subst.
  - injection Hs as ->. apply String.eqb_refl.
Qed.

(** An entry of the list is shown under its field: the helper text of that
    field is rendered and holds a message. *)
Lemma entry_is_shown (errors : list FormError) (e : FormError) (field : string) :
  In e errors -> path e = Some field ->
  exists text, FormHelperText errors field = HelperText (Some text).
Proof.
  intros Hin Hpath. unfold FormHelperText.
  destruct errors as [|e0 errors]; [contradiction|].
  cbn [List.length Nat.ltb Nat.leb].
  destruct (find (fun error => strict_eqb (path error) (Some field)) (e0 :: errors))
    as [found|] eqn:Hfind.
  - exists (message found). reflexivity.
  - exfalso. apply (find_none _ _ Hfind) in Hin.
    rewrite Hpath, strict_eqb_refl in Hin. discriminate.
Qed.

Lemma issue_if_field (absent : bool) (field text : string) (i : z.ZodIssue) :
  In i (issue_if absent field text) -> nth_error (z.path i) 0 = Some field.
Proof.
  destruct absent; cbn; intros Hin; [|contradiction].
  destruct Hin as [<-|[]]. reflexivity.
Qed.

Lemma variant_issue_field (v : Variant) (i : z.ZodIssue) :
  In i (variant_issues v) -> nth_error (z.path i) 0 = Some "variant".
Proof.
  unfold variant_issues.
  destruct (Nat.ltb (String.length (label v)) 1), (Nat.ltb (String.length (value v)) 1);
    cbn; intros Hin; repeat (destruct Hin as [<-|Hin]; [reflexivity|]); contradiction.
Qed.

Lemma mui_issue_fields (data : AppMui.FormValues) (i : z.ZodIssue) :
  In i (AppMui.formSchema [] data) ->
  exists field, In field AppMui.helper_fields /\ nth_error (z.path i) 0 = Some field.
Proof.
  rewrite mui_issues, !in_app_iff.
  intros [Hi|[Hi|[Hi|[Hi|Hi]]]]; apply issue_if_field in Hi;
    eexists; (split; [|exact Hi]); cbn; auto 6.
Qed.

Lemma venus_issue_fields (data : AppVenus.FormValues) (i : z.ZodIssue) :
  In i (AppVenus.formSchema [] data) ->
  exists field, In field AppVenus.helper_fields /\ nth_error (z.path i) 0 = Some field.
Proof.
  rewrite venus_issues, !in_app_iff.
  intros [Hi|[Hi|[Hi|[Hi|Hi]]]];
    [apply issue_if_field in Hi | apply issue_if_field in Hi
     | apply variant_issue_field in Hi | apply issue_if_field in Hi
     | apply issue_if_field in Hi];
    eexists; (split; [|exact Hi]); cbn; auto 6.
Qed.

Lemma sidebar_issue_fields (data : AppSidebar.FormValues) (i : z.ZodIssue) :
  In i (AppSidebar.formSchema [] data) ->
  exists field, In field AppSidebar.helper_fields /\ nth_error (z.path i) 0 = Some field.
Proof.
  rewrite sidebar_issues, !in_app_iff.
  intros [Hi|[Hi|Hi]];
    [apply issue_if_field in Hi | apply issue_if_field in Hi
     | apply variant_issue_field in Hi];
    eexists; (split; [|exact Hi]); cbn; auto 6.
Qed.

(** Every entry made from the issues of a schema is shown under one of the
    fields of the form. *)
Lemma entries_are_shown (issues : list z.ZodIssue) (fields : list string) :
  (forall i, In i issues ->
     exists field, In field fields /\ nth_error (z.path i) 0 = Some field) ->
  forall e, In e (map errorMessage issues) ->
    exists field text,
      In field fields /\ path e = Some field
      /\ FormHelperText (map errorMessage issues) field = HelperText (Some text).
Proof.
  intros Hfields e He.
  pose proof He as Hmap. apply in_map_iff in Hmap. destruct Hmap as (i & <- & Hi).
  destruct (Hfields i Hi) as (field & Hin & Hpath).
  destruct (entry_is_shown (map errorMessage issues) (errorMessage i) field He Hpath)
    as (text & Htext).
  exists field, text. auto.
Qed.

(** C5, as stated, fails in the sidebar revision: the click below opens no
    tab, and the failure is reported by the alert dialog; the inline error
    list stays empty, so no helper text is rendered under any field. *)
Lemma C5_counterexample_alert_instead_of_inline_text :
  window_opens (click_trace AppSidebar.handleButtonClick sidebar_before_init) = []
  /\ alerts (click_trace AppSidebar.handleButtonClick sidebar_before_init)
     = ["Entry Uid or Content type or Stack API could not be retrieved"]
  /\ formErrors (run AppSidebar.handleButtonClick sidebar_before_init) = []
  /\ map (FormHelperText (formErrors (run AppSidebar.handleButtonClick sidebar_before_init)))
         AppSidebar.helper_fields
     = [NotRendered; NotRendered; NotRendered].
Proof. repeat split; reflexivity. Qed.

(** C5 (amended): a click that fails schema validation is reported to the
    user by inline error text and by no dialog: the inline error list
    becomes non-empty, each of its entries is shown under one of the fields
    of the form, and the only other call that leaves the component is the
    console log.  In the sidebar revision a click blocked by a missing host
    value is reported by the alert dialog alone and leaves the inline error
    list as it was. *)
Theorem C5_failed_click_report {P : Platform} :
  (forall w : World AppMui.FormValues unit,
     let trace := click_trace AppMui.handleButtonClick w in
     let after := run AppMui.handleButtonClick w in
     window_opens trace = [] ->
     formErrors after <> [] /\ alerts trace = []
     /\ (forall e, In e (formErrors after) ->
           exists field text,
             In field AppMui.helper_fields /\ path e = Some field
             /\ FormHelperText (formErrors after) field = HelperText (Some text))
     /\ (forall c, In c trace -> is_external c = true -> is_console_log c = true))
  /\ (forall w : World AppVenus.FormValues unit,
     let trace := click_trace AppVenus.handleButtonClick w in
     let after := run AppVenus.handleButtonClick w in
     window_opens trace = [] ->
     formErrors after <> [] /\ alerts trace = []
     /\ (forall e, In e (formErrors after) ->
           exists field text,
             In field AppVenus.helper_fields /\ path e = Some field
             /\ FormHelperText (formErrors after) field = HelperText (Some text))
     /\ (forall c, In c trace -> is_external c = true -> is_console_log c = true))
  /\ (forall w : World AppSidebar.FormValues AppSidebar.HostState,
     let trace := click_trace AppSidebar.handleButtonClick w in
     let after := run AppSidebar.handleButtonClick w in
     window_opens trace = [] ->
     (passes AppSidebar.formSchema (formValues w) = false
      /\ formErrors after <> [] /\ alerts trace = []
      /\ (forall e, In e (formErrors after) ->
            exists field text,
              In field AppSidebar.helper_fields /\ path e = Some field
              /\ FormHelperText (formErrors after) field = HelperText (Some text))
      /\ (forall c, In c trace -> is_external c = true -> is_console_log c = true))
     \/ ((AppSidebar.entryUid (hooks w) = "" \/ AppSidebar.contentType (hooks w) = ""
          \/ AppSidebar.stackAPI (hooks w) = "")
         /\ trace = [Alert "Entry Uid or Content type or Stack API could not be retrieved"]
         /\ formErrors after = formErrors w)).
Proof.
  split; [|split].
  - intros w. cbv zeta.
    destruct (passes AppMui.formSchema (formValues w)) eqn:Hp.
    + rewrite (mui_trace_valid w Hp). discriminate.
    + intros _. rewrite (mui_trace_invalid w Hp).
      pose proof Hp as Hi. apply fails_iff_issue in Hi.
      rewrite (mui_click_invalid w Hi). cbn [formErrors].
      split; [|split; [|split]].
      * destruct (AppMui.formSchema [] (formValues w)); [congruence | discriminate].
      * reflexivity.
      * apply entries_are_shown, mui_issue_fields.
      * cbn [In]. intros c [<-|[<-|[<-|[<-|[]]]]]; cbn; auto.
  - intros w. cbv zeta.
    destruct (passes AppVenus.formSchema (formValues w)) eqn:Hp.
    + rewrite (venus_trace_valid w Hp). discriminate.
    + intros _. rewrite (venus_trace_invalid w Hp).
      pose proof Hp as Hi. apply fails_iff_issue in Hi.
      rewrite (venus_click_invalid w Hi). cbn [formErrors].
      split; [|split; [|split]].
      * destruct (AppVenus.formSchema [] (formValues w)); [congruence | discriminate].
      * reflexivity.
      * apply entries_are_shown, venus_issue_fields.
      * cbn [In]. intros c [<-|[<-|[<-|[<-|[<-|[]]]]]]; cbn; auto.
  - intros w. cbv zeta.
    destruct (host_ready_or_missing (hooks w)) as [Hg|Hb].
    + destruct (passes AppSidebar.formSchema (formValues w)) eqn:Hp.
      * rewrite (sidebar_trace_valid w Hg Hp). discriminate.
      * intros _. left. rewrite (sidebar_trace_invalid w Hg Hp).
        pose proof Hp as Hi. apply fails_iff_issue in Hi.
        rewrite (sidebar_click_invalid w Hg Hi). cbn [formErrors].
        split; [reflexivity|]. split; [|split; [|split]].
        -- destruct (AppSidebar.formSchema [] (formValues w)); [congruence | discriminate].
        -- reflexivity.
        -- apply entries_are_shown, sidebar_issue_fields.
        -- cbn [In]. intros c [<-|[<-|[<-|[<-|[<-|[]]]]]]; cbn; auto.
    + intros _. right. rewrite (sidebar_trace_blocked w Hb).
      rewrite (sidebar_click_blocked w Hb). cbn [formErrors]. auto.
Qed.

(** C5 at the empty first form and at the sidebar form before the host has
    answered. *)
Lemma C5_witness :
  formErrors (run AppMui.handleButtonClick mui_empty) <> []
  /\ alerts (click_trace AppMui.handleButtonClick mui_empty) = []
  /\ click_trace AppSidebar.handleButtonClick sidebar_before_init
     = [Alert "Entry Uid or Content type or Stack API could not be retrieved"].
Proof.
  destruct (@C5_failed_click_report stub_platform) as (Hm & _ & Hs).
  destruct (Hm mui_empty) as (Hne & Hal & _); [reflexivity|].
  split; [exact Hne|]. split; [exact Hal|].
  destruct (Hs sidebar_before_init) as [(Hp & _)|(_ & Ht & _)]; [reflexivity | |exact Ht].
  discriminate Hp.
Defined.

(** ** C6: the host-provided values *)

(** C6: the callback of the SDK initialisation stores the entry uid, the
    content type uid and the stack key of the sidebar context (empty strings
    when there is no sidebar context); the payload of a click carries
    exactly the stored values; and a click with any of the three empty shows
    the alert and does nothing else: no validation, no encryption, no tab,
    no change of state. *)
Theorem C6_host_values_in_payload_or_blocked {P : Platform} :
  (forall (parentWindow : option AppSidebar.SidebarWidget)
          (w : World AppSidebar.FormValues AppSidebar.HostState),
     let ready := run (AppSidebar.init_then parentWindow) w in
     hooks ready
     = match parentWindow with
       | Some widget =>
           {| AppSidebar.entryUid := AppSidebar.entry_data_uid widget;
              AppSidebar.contentType := AppSidebar.entry_content_type_uid widget;
              AppSidebar.stackAPI := AppSidebar.stack_data_api_key widget |}
       | None =>
           {| AppSidebar.entryUid := ""; AppSidebar.contentType := "";
              AppSidebar.stackAPI := "" |}
       end
     /\ formValues ready = formValues w /\ formErrors ready = formErrors w
     /\ calls ready = calls w)
  /\ (forall (w : World AppSidebar.FormValues AppSidebar.HostState) (v : JSON),
     In (JsonStringify v) (click_trace AppSidebar.handleButtonClick w) ->
     JSON_get "entryUid" v = Some (JString (AppSidebar.entryUid (hooks w)))
     /\ JSON_get "contentType" v = Some (JString (AppSidebar.contentType (hooks w)))
     /\ JSON_get "stackAPI" v = Some (JString (AppSidebar.stackAPI (hooks w))))
  /\ (forall w : World AppSidebar.FormValues AppSidebar.HostState,
     AppSidebar.entryUid (hooks w) = "" \/ AppSidebar.contentType (hooks w) = ""
     \/ AppSidebar.stackAPI (hooks w) = "" ->
     let trace := click_trace AppSidebar.handleButtonClick w in
     let after := run AppSidebar.handleButtonClick w in
     trace = [Alert "Entry Uid or Content type or Stack API could not be retrieved"]
     /\ steps trace = [] /\ window_opens trace = []
     /\ formValues after = formValues w /\ formErrors after = formErrors w
     /\ hooks after = hooks w /\ rng after = rng w)
  /\ (forall w : World AppSidebar.FormValues AppSidebar.HostState,
     AppSidebar.entryUid (hooks w) <> "" -> AppSidebar.contentType (hooks w) <> "" ->
     AppSidebar.stackAPI (hooks w) <> "" ->
     passes AppSidebar.formSchema (formValues w) = true ->
     In (JsonStringify (AppSidebar.result (formValues w) (hooks w)))
        (click_trace AppSidebar.handleButtonClick w)).
Proof.
  split; [|split; [|split]].
  - intros parentWindow w. cbv zeta.
    destruct w as [v e h r c], parentWindow as [widget|]; repeat split.
  - intros w v Hin. rewrite (sidebar_serializes_result w v Hin). repeat split.
  - intros w Hb. cbv zeta.
    rewrite (sidebar_trace_blocked w Hb), (sidebar_click_blocked w Hb).
    repeat split.
  - intros w H1 H2 H3 Hp.
    rewrite (sidebar_trace_valid w (conj H1 (conj H2 H3)) Hp). cbn [In]. auto 10.
Qed.

(** C6 on the sample sidebar context: the payload of the click after
    initialisation, and the blocked click before it. *)
Lemma C6_witness :
  (forall v : JSON,
     In (JsonStringify v) (click_trace AppSidebar.handleButtonClick sidebar_ready) ->
     JSON_get "entryUid" v = Some (JString "blt01")
     /\ JSON_get "contentType" v = Some (JString "page")
     /\ JSON_get "stackAPI" v = Some (JString "blt-stack"))
  /\ In (JsonStringify (AppSidebar.result sidebar_filled (hooks sidebar_ready)))
        (click_trace AppSidebar.handleButtonClick sidebar_ready)
  /\ steps (click_trace AppSidebar.handleButtonClick sidebar_before_init) = [].
Proof.
  destruct (@C6_host_values_in_payload_or_blocked stub_platform)
    as (_ & Hpayload & Hblocked & Hmade).
  split; [|split].
  - intros v Hv. exact (Hpayload sidebar_ready v Hv).
  - apply (Hmade sidebar_ready); [discriminate | discriminate | discriminate | reflexivity].
  - apply (Hblocked sidebar_before_init). left. reflexivity.
Defined.

(** ** C7: what a click changes *)

(** C7, as stated, fails in the sidebar revision: the click below makes a
    call that leaves the component and is not the opening of a URL, the
    alert dialog. *)
Lemma C7_counterexample_alert_is_a_side_effect :
  filter is_external (click_trace AppSidebar.handleButtonClick sidebar_before_init)
  = [Alert "Entry Uid or Content type or Stack API could not be retrieved"]
  /\ filter is_window_open
       (click_trace AppSidebar.handleButtonClick sidebar_before_init) = [].
Proof. split; reflexivity. Qed.

(** C7 (amended): a click leaves the values of the form and the host cells
    unchanged; the only state it sets is the inline error list; it opens
    exactly one URL when validation is reached and succeeds and none
    otherwise; its other calls that leave the component are console logs
    and, in the sidebar revision, the alert shown when a host value is
    missing. *)
Theorem C7_click_frame {P : Platform} :
  (forall w : World AppMui.FormValues unit,
     let trace := click_trace AppMui.handleButtonClick w in
     let after := run AppMui.handleButtonClick w in
     formValues after = formValues w /\ hooks after = hooks w
     /\ List.length (window_opens trace)
        = (if passes AppMui.formSchema (formValues w) then 1 else 0)%nat
     /\ (forall c, In c trace -> is_external c = true ->
           is_window_open c = true \/ is_console_log c = true))
  /\ (forall w : World AppVenus.FormValues unit,
     let trace := click_trace AppVenus.handleButtonClick w in
     let after := run AppVenus.handleButtonClick w in
     formValues after = formValues w /\ hooks after = hooks w
     /\ List.length (window_opens trace)
        = (if passes AppVenus.formSchema (formValues w) then 1 else 0)%nat
     /\ (forall c, In c trace -> is_external c = true ->
           is_window_open c = true \/ is_console_log c = true))
  /\ (forall w : World AppSidebar.FormValues AppSidebar.HostState,
     let trace := click_trace AppSidebar.handleButtonClick w in
     let after := run AppSidebar.handleButtonClick w in
     formValues after = formValues w /\ hooks after = hooks w
     /\ (AppSidebar.entryUid (hooks w) <> "" /\ AppSidebar.contentType (hooks w) <> ""
         /\ AppSidebar.stackAPI (hooks w) <> "" ->
         List.length (window_opens trace)
         = (if passes AppSidebar.formSchema (formValues w) then 1 else 0)%nat
         /\ alerts trace = [])
     /\ (AppSidebar.entryUid (hooks w) = "" \/ AppSidebar.contentType (hooks w) = ""
         \/ AppSidebar.stackAPI (hooks w) = "" ->
         window_opens trace = []
         /\ alerts trace
            = ["Entry Uid or Content type or Stack API could not be retrieved"]
         /\ formErrors after = formErrors w)
     /\ (forall c, In c trace -> is_external c = true ->
           is_window_open c = true \/ is_console_log c = true \/ is_alert c = true)).
Proof.
  split; [|split].
  - intros w. cbv zeta.
    destruct (passes AppMui.formSchema (formValues w)) eqn:Hp.
    + rewrite (mui_trace_valid w Hp).
      apply passes_iff_no_issue in Hp. rewrite (mui_click_valid w Hp).
      repeat split. cbn [In]. intros c Hc.
      repeat (destruct Hc as [<-|Hc]; [cbn; auto; discriminate|]). contradiction.
    + rewrite (mui_trace_invalid w Hp).
      apply fails_iff_issue in Hp. rewrite (mui_click_invalid w Hp).
      repeat split. cbn [In]. intros c Hc.
      repeat (destruct Hc as [<-|Hc]; [cbn; auto; discriminate|]). contradiction.
  - intros w. cbv zeta.
    destruct (passes AppVenus.formSchema (formValues w)) eqn:Hp.
    + rewrite (venus_trace_valid w Hp).
      apply passes_iff_no_issue in Hp. rewrite (venus_click_valid w Hp).
      repeat split. cbn [In]. intros c Hc.
      repeat (destruct Hc as [<-|Hc]; [cbn; auto; discriminate|]). contradiction.
    + rewrite (venus_trace_invalid w Hp).
      apply fails_iff_issue in Hp. rewrite (venus_click_invalid w Hp).
      repeat split. cbn [In]. intros c Hc.
      repeat (destruct Hc as [<-|Hc]; [cbn; auto; discriminate|]). contradiction.
  - intros w. cbv zeta.
    destruct (host_ready_or_missing (hooks w)) as [Hg|Hb].
    + assert (Hnb : ~ (AppSidebar.entryUid (hooks w) = ""
                       \/ AppSidebar.contentType (hooks w) = ""
                       \/ AppSidebar.stackAPI (hooks w) = "")) by tauto.
      destruct (passes AppSidebar.formSchema (formValues w)) eqn:Hp.
      * rewrite (sidebar_trace_valid w Hg Hp).
        apply passes_iff_no_issue in Hp. rewrite (sidebar_click_valid w Hg Hp).
        split; [reflexivity|]. split; [reflexivity|].
        split; [intros _; split; reflexivity|].
        split; [intros Hbad; contradiction|].
        cbn [In]. intros c Hc.
        repeat (destruct Hc as [<-|Hc]; [cbn; auto; discriminate|]). contradiction.
      * rewrite (sidebar_trace_invalid w Hg Hp).
        apply fails_iff_issue in Hp. rewrite (sidebar_click_invalid w Hg Hp).
        split; [reflexivity|]. split; [reflexivity|].
        split; [intros _; split; reflexivity|].
        split; [intros Hbad; contradiction|].
        cbn [In]. intros c Hc.
        repeat (destruct Hc as [<-|Hc]; [cbn; auto; discriminate|]). contradiction.
    + assert (Hng : ~ (AppSidebar.entryUid (hooks w) <> ""
                       /\ AppSidebar.contentType (hooks w) <> ""
                       /\ AppSidebar.stackAPI (hooks w) <> "")) by tauto.
      rewrite (sidebar_trace_blocked w Hb), (sidebar_click_blocked w Hb).
      split; [reflexivity|]. split; [reflexivity|].
      split; [intros Hbad; contradiction|].
      split; [intros _; repeat split|].
      cbn [In]. intros c [<-|[]]. cbn. auto.
Qed.

(** C7 on the sample worlds: one tab on the valid first form, none on the
    empty one, one on the sidebar form once the host has answered, the alert
    and no tab before. *)
Lemma C7_witness :
  List.length (window_opens (click_trace AppMui.handleButtonClick mui_ready)) = 1%nat
  /\ List.length (window_opens (click_trace AppMui.handleButtonClick mui_empty)) = 0%nat
  /\ formValues (run AppMui.handleButtonClick mui_ready) = mui_filled
  /\ List.length (window_opens (click_trace AppSidebar.handleButtonClick sidebar_ready))
     = 1%nat
  /\ window_opens (click_trace AppSidebar.handleButtonClick sidebar_before_init) = [].
Proof.
  destruct (@C7_click_frame stub_platform) as (Hm & _ & Hs).
  destruct (Hm mui_ready) as (Hvalues & _ & Hone & _).
  destruct (Hm mui_empty) as (_ & _ & Hnone & _).
  destruct (Hs sidebar_ready) as (_ & _ & Hready & _).
  destruct (Hs sidebar_before_init) as (_ & _ & _ & Hblocked & _).
  split; [exact Hone|]. split; [exact Hnone|]. split; [exact Hvalues|].
  split.
  - apply Hready. repeat split; discriminate.
  - apply Hblocked. left. reflexivity.
Defined.

(** ** C8: the Base64 layer *)

Lemma btoa_length_below (n : nat) :
  forall s : string,
    (String.length s < n)%nat ->
    String.length (btoa s) = (4 * ((String.length s + 2) / 3))%nat.
Proof.
  induction n as [|n IH]; intros s Hlen; [lia|].
  destruct s as [|a [|b [|c rest]]]; try reflexivity.
  cbn [btoa String.length]. cbn [String.length] in Hlen.
  rewrite IH by lia.
  replace (S (S (S (String.length rest))) + 2)%nat
    with (1 * 3 + (String.length rest + 2))%nat by lia.
  rewrite Nat.div_add_l by lia. lia.
Qed.

(** [btoa] gives four characters for every three code units, rounded up. *)
Lemma btoa_length (s : string) :
  String.length (btoa s) = (4 * ((String.length s + 2) / 3))%nat.
Proof. apply (btoa_length_below (S (String.length s))). lia. Qed.

(** The Base64 text of a non-empty string is longer than the string, so it
    is never the string itself. *)
Lemma btoa_differs (s : string) : s <> "" -> btoa s <> s.
Proof.
  intros Hne Heq.
  assert (Hlen : String.length (btoa s) = String.length s) by now rewrite Heq.
  rewrite btoa_length in Hlen.
  destruct s as [|a s]; [congruence|]. cbn [String.length] in Hlen.
  pose proof (Nat.div_mod_eq (S (String.length s) + 2) 3) as Hdiv.
  pose proof (Nat.mod_upper_bound (S (String.length s) + 2) 3) as Hmod.
  lia.
Qed.

Lemma b64_index_char (n : N) : (n < 64)%N -> b64_index (b64_char n) = Some n.
Proof.
  intros Hn. destruct n as [|p]; [reflexivity|].
  do 6 (try destruct p as [p|p|]); try reflexivity; exfalso; lia.
Qed.

Lemma b64_char_not_pad (n : N) : (n < 64)%N -> is_pad (b64_char n) = false.
Proof.
  intros Hn. destruct n as [|p]; [reflexivity|].
  do 6 (try destruct p as [p|p|]); try reflexivity; exfalso; lia.
Qed.

Lemma N_of_ascii_bound (a : ascii) : (N_of_ascii a < 256)%N.
Proof. destruct a as [[] [] [] [] [] [] [] []]; vm_compute; reflexivity. Qed.

Ltac sextets :=
  repeat match goal with
  | |- context [b64_index (b64_char ?n)] =>
      rewrite (b64_index_char n) by (zify; Z.to_euclidean_division_equations; lia)
  | |- context [is_pad (b64_char ?n)] =>
      rewrite (b64_char_not_pad n) by (zify; Z.to_euclidean_division_equations; lia)
  end.

(** Decoding undoes [btoa]. *)
Lemma decode_btoa_below (n : nat) :
  forall s : string, (String.length s < n)%nat -> base64_decode (btoa s) = Some s.
Proof.
  induction n as [|n IH]; intros s Hlen; [lia|].
  destruct s as [|a [|b [|c rest]]]; [reflexivity| | |].
  - pose proof (N_of_ascii_bound a) as Ha.
    cbn [btoa base64_decode]. sextets. cbn [is_pad Ascii.eqb Bool.eqb].
    replace (N_of_ascii a / 4 * 4 + N_of_ascii a mod 4 * 16 / 16)%N with (N_of_ascii a)
      by (zify; Z.to_euclidean_division_equations; lia).
    now rewrite ascii_N_embedding.
  - pose proof (N_of_ascii_bound a) as Ha. pose proof (N_of_ascii_bound b) as Hb.
    cbn [btoa base64_decode]. sextets. cbn [is_pad Ascii.eqb Bool.eqb].
    replace (N_of_ascii a / 4 * 4 + (N_of_ascii a mod 4 * 16 + N_of_ascii b / 16) / 16)%N
      with (N_of_ascii a) by (zify; Z.to_euclidean_division_equations; lia).
    replace ((N_of_ascii a mod 4 * 16 + N_of_ascii b / 16) mod 16 * 16
             + N_of_ascii b mod 16 * 4 / 4)%N
      with (N_of_ascii b) by (zify; Z.to_euclidean_division_equations; lia).
    now rewrite !ascii_N_embedding.
  - pose proof (N_of_ascii_bound a) as Ha. pose proof (N_of_ascii_bound b) as Hb.
    pose proof (N_of_ascii_bound c) as Hc.
    cbn [btoa base64_decode]. sextets.
    rewrite IH by (cbn [String.length] in Hlen; lia).
    replace (N_of_ascii a / 4 * 4 + (N_of_ascii a mod 4 * 16 + N_of_ascii b / 16) / 16)%N
      with (N_of_ascii a) by (zify; Z.to_euclidean_division_equations; lia).
    replace ((N_of_ascii a mod 4 * 16 + N_of_ascii b / 16) mod 16 * 16
             + (N_of_ascii b mod 16 * 4 + N_of_ascii c / 64) / 4)%N
      with (N_of_ascii b) by (zify; Z.to_euclidean_division_equations; lia).
    replace ((N_of_ascii b mod 16 * 4 + N_of_ascii c / 64) mod 4 * 64
             + N_of_ascii c mod 64)%N
      with (N_of_ascii c) by (zify; Z.to_euclidean_division_equations; lia).
    now rewrite !ascii_N_embedding.
Qed.

Lemma decode_btoa (s : string) : base64_decode (btoa s) = Some s.
Proof. apply (decode_btoa_below (S (String.length s))). lia. Qed.

Section OpenedUrl.
Context `{Platform}.

Lemma mui_opened_url (w : World AppMui.FormValues unit) (url target : string) :
  In (WindowOpen url target) (click_trace AppMui.handleButtonClick w) ->
  passes AppMui.formSchema (formValues w) = true
  /\ url = AppMui.target_url
             ++ btoa (fst (AES_encrypt (JSON_stringify (AppMui.result (formValues w)))
                             VITE_APP_ENCRYPT_SECRET (rng w)))
  /\ target = "_blank".
Proof.
  destruct (passes AppMui.formSchema (formValues w)) eqn:Hp.
  - rewrite (mui_trace_valid w Hp). cbn [In].
    intros [Hc|[Hc|[Hc|[Hc|[Hc|[Hc|[Hc|[]]]]]]]]; try discriminate.
    injection Hc as <- <-. auto.
  - rewrite (mui_trace_invalid w Hp). cbn [In].
    intros [Hc|[Hc|[Hc|[Hc|[]]]]]; discriminate.
Qed.

Lemma venus_opened_url (w : World AppVenus.FormValues unit) (url target : string) :
  In (WindowOpen url target) (click_trace AppVenus.handleButtonClick w) ->
  passes AppVenus.formSchema (formValues w) = true
  /\ url = AppVenus.target_url
             ++ btoa (fst (AES_encrypt (JSON_stringify (AppVenus.result (formValues w)))
                             VITE_APP_ENCRYPT_SECRET (rng w)))
  /\ target = "_blank".
Proof.
  destruct (passes AppVenus.formSchema (formValues w)) eqn:Hp.
  - rewrite (venus_trace_valid w Hp). cbn [In].
    intros [Hc|[Hc|[Hc|[Hc|[Hc|[Hc|[Hc|[Hc|[]]]]]]]]]; try discriminate.
    injection Hc as <- <-. auto.
  - rewrite (venus_trace_invalid w Hp). cbn [In].
    intros [Hc|[Hc|[Hc|[Hc|[Hc|[]]]]]]; discriminate.
Qed.

Lemma sidebar_opened_url
  (w : World AppSidebar.FormValues AppSidebar.HostState) (url target : string) :
  In (WindowOpen url target) (click_trace AppSidebar.handleButtonClick w) ->
  passes AppSidebar.formSchema (formValues w) = true
  /\ (AppSidebar.entryUid (hooks w) <> "" /\ AppSidebar.contentType (hooks w) <> ""
      /\ AppSidebar.stackAPI (hooks w) <> "")
  /\ url = AppSidebar.target_url
             ++ btoa (fst (AES_encrypt
                             (JSON_stringify (AppSidebar.result (formValues w) (hooks w)))
                             VITE_APP_ENCRYPT_SECRET (rng w)))
  /\ target = "_blank".
Proof.
  destruct (host_ready_or_missing (hooks w)) as [Hg|Hb].
  - destruct (passes AppSidebar.formSchema (formValues w)) eqn:Hp.
    + rewrite (sidebar_trace_valid w Hg Hp). cbn [In].
      intros [Hc|[Hc|[Hc|[Hc|[Hc|[Hc|[Hc|[Hc|[]]]]]]]]]; try discriminate.
      injection Hc as <- <-. auto.
    + rewrite (sidebar_trace_invalid w Hg Hp). cbn [In].
      intros [Hc|[Hc|[Hc|[Hc|[Hc|[]]]]]]; discriminate.
  - rewrite (sidebar_trace_blocked w Hb). cbn [In]. intros [Hc|[]]. discriminate.
Qed.

End OpenedUrl.

(** C8: whenever a click opens a URL, the URL is the address of the tool,
    [?data=], and [btoa] of the cipher text returned by the encryption of
    the serialized payload; [btoa] is called on that cipher text before the
    tab is opened; the parameter decodes back to the cipher text, is four
    characters for every three of it, and differs from any non-empty cipher
    text. *)
Theorem C8_data_parameter_is_btoa_of_cipher {P : Platform} :
  (forall (w : World AppMui.FormValues unit) (url target : string),
     let trace := click_trace AppMui.handleButtonClick w in
     let payload := JSON_stringify (AppMui.result (formValues w)) in
     let cipher := fst (AES_encrypt payload VITE_APP_ENCRYPT_SECRET (rng w)) in
     In (WindowOpen url target) trace ->
     url = "https://demo-graph.contentstackapps.com" ++ "?data=" ++ btoa cipher
     /\ (exists before after : list (Call AppMui.FormValues),
           trace = (before ++ [AesEncrypt payload VITE_APP_ENCRYPT_SECRET; Btoa cipher;
                               WindowOpen url target] ++ after)%list)
     /\ base64_decode (btoa cipher) = Some cipher
     /\ String.length (btoa cipher) = (4 * ((String.length cipher + 2) / 3))%nat
     /\ (cipher <> "" -> btoa cipher <> cipher))
  /\ (forall (w : World AppVenus.FormValues unit) (url target : string),
     let trace := click_trace AppVenus.handleButtonClick w in
     let payload := JSON_stringify (AppVenus.result (formValues w)) in
     let cipher := fst (AES_encrypt payload VITE_APP_ENCRYPT_SECRET (rng w)) in
     In (WindowOpen url target) trace ->
     url = "https://demo-graph.contentstackapps.com" ++ "?data=" ++ btoa cipher
     /\ (exists before after : list (Call AppVenus.FormValues),
           trace = (before ++ [AesEncrypt payload VITE_APP_ENCRYPT_SECRET; Btoa cipher;
                               WindowOpen url target] ++ after)%list)
     /\ base64_decode (btoa cipher) = Some cipher
     /\ String.length (btoa cipher) = (4 * ((String.length cipher + 2) / 3))%nat
     /\ (cipher <> "" -> btoa cipher <> cipher))
  /\ (forall (w : World AppSidebar.FormValues AppSidebar.HostState) (url target : string),
     let trace := click_trace AppSidebar.handleButtonClick w in
     let payload := JSON_stringify (AppSidebar.result (formValues w) (hooks w)) in
     let cipher := fst (AES_encrypt payload VITE_APP_ENCRYPT_SECRET (rng w)) in
     In (WindowOpen url target) trace ->
     url = "https://demo-graph-refactored.contentstackapps.com/" ++ "?data="
             ++ btoa cipher
     /\ (exists before after : list (Call AppSidebar.FormValues),
           trace = (before ++ [AesEncrypt payload VITE_APP_ENCRYPT_SECRET; Btoa cipher;
                               WindowOpen url target] ++ after)%list)
     /\ base64_decode (btoa cipher) = Some cipher
     /\ String.length (btoa cipher) = (4 * ((String.length cipher + 2) / 3))%nat
     /\ (cipher <> "" -> btoa cipher <> cipher)).
Proof.
  split; [|split].
  - intros w url target. cbv zeta. intros Hin.
    destruct (mui_opened_url w url target Hin) as (Hp & -> & ->).
    split; [reflexivity|].
    split; [|split; [apply decode_btoa | split; [apply btoa_length | apply btoa_differs]]].
    rewrite (mui_trace_valid w Hp).
    eexists [GetValues; SafeParse _; SetFormErrors []; JsonStringify _], [].
    reflexivity.
  - intros w url target. cbv zeta. intros Hin.
    destruct (venus_opened_url w url target Hin) as (Hp & -> & ->).
    split; [reflexivity|].
    split; [|split; [apply decode_btoa | split; [apply btoa_length | apply btoa_differs]]].
    rewrite (venus_trace_valid w Hp).
    eexists [GetValues; ConsoleLog _; SafeParse _; SetFormErrors []; JsonStringify _], [].
    reflexivity.
  - intros w url target. cbv zeta. intros Hin.
    destruct (sidebar_opened_url w url target Hin) as (Hp & Hg & -> & ->).
    split; [reflexivity|].
    split; [|split; [apply decode_btoa | split; [apply btoa_length | apply btoa_differs]]].
    rewrite (sidebar_trace_valid w Hg Hp).
    eexists [GetValues; ConsoleLog _; SafeParse _; SetFormErrors []; JsonStringify _], [].
    reflexivity.
Qed.

(** C8 on the filled-in first form: the URL opened carries [btoa] of the
    stand-in cipher text, which is not that text. *)
Lemma C8_witness :
  In (WindowOpen
        ("https://demo-graph.contentstackapps.com" ++ "?data="
           ++ btoa ("U2FsdGVkX1" ++ "s3cret" ++ JSON_stringify (AppMui.result mui_filled)))
        "_blank")
     (click_trace AppMui.handleButtonClick mui_ready)
  /\ btoa ("U2FsdGVkX1" ++ "s3cret" ++ JSON_stringify (AppMui.result mui_filled))
     <> "U2FsdGVkX1" ++ "s3cret" ++ JSON_stringify (AppMui.result mui_filled).
Proof.
  assert (Hin : In (WindowOpen
                      ("https://demo-graph.contentstackapps.com" ++ "?data="
                         ++ btoa ("U2FsdGVkX1" ++ "s3cret"
                                    ++ JSON_stringify (AppMui.result mui_filled)))
                      "_blank")
                   (click_trace AppMui.handleButtonClick mui_ready)).
  { vm_compute. auto 10. }
  split; [exact Hin|].
  destruct (@C8_data_parameter_is_btoa_of_cipher stub_platform) as (Hm & _).
  destruct (Hm mui_ready _ _ Hin) as (_ & _ & _ & _ & Hdiffers).
  apply Hdiffers. discriminate.
Defined.

(** ** C9: changing a field *)

Lemma filter_removes_field (field : string) (errors : list FormError) :
  RemovesField field errors
    (filter (fun error => negb (strict_eqb (path error) (Some field))) errors).
Proof.
  induction errors as [|e errors IH]; cbn [filter]; [constructor|].
  destruct (strict_eqb (path e) (Some field)) eqn:He; cbn [negb].
  - apply RemovesField_drop; [now apply strict_eqb_eq | exact IH].
  - apply RemovesField_keep; [|exact IH].
    intros Hp. apply strict_eqb_eq in Hp. congruence.
Qed.

Lemma removes_field_subsequence (field : string) (errors kept : list FormError) :
  RemovesField field errors kept -> Subsequence kept errors.
Proof.
  induction 1; [constructor | now apply Subsequence_drop | now apply Subsequence_keep].
Qed.

Lemma removes_field_in (field : string) (errors kept : list FormError) :
  RemovesField field errors kept ->
  forall e, In e kept <-> In e errors /\ path e <> Some field.
Proof.
  induction 1 as [|e0 errors kept Hp Hr IH|e0 errors kept Hp Hr IH]; intros e; cbn [In].
  - tauto.
  - rewrite IH. split; [tauto|]. intros [[<-|Hin] Hne]; [contradiction | tauto].
  - rewrite IH. split.
    + intros [<-|[Hin Hne]]; auto.
    + intros [[<-|Hin] Hne]; auto.
Qed.

(** The list left by a removal is determined by the list it starts from. *)
Lemma removes_field_unique (field : string) (errors kept kept' : list FormError) :
  RemovesField field errors kept -> RemovesField field errors kept' -> kept = kept'.
Proof.
  intros Hr. revert kept'.
  induction Hr as [|e errors kept Hp Hr IH|e errors kept Hp Hr IH];
    intros kept' Hr'; inversion Hr'; subst; try contradiction; auto.
  f_equal. auto.
Qed.

(** C9: [handleFieldChange] drops exactly the entries of the inline error
    list whose path is the field name and keeps every other entry, unchanged
    and in its place: the list left is a subsequence of the old one, an entry
    is in it if and only if it was in the old one with another path, and
    nothing else in the component changes. *)
Theorem C9_field_change_removes_its_errors {P : Platform} {V X : Type}
  (fieldName : string) (w : World V X) :
  let after := run (handleFieldChange fieldName) w in
  RemovesField fieldName (formErrors w) (formErrors after)
  /\ Subsequence (formErrors after) (formErrors w)
  /\ (forall e, In e (formErrors after) <->
                In e (formErrors w) /\ path e <> Some fieldName)
  /\ (List.length (formErrors after) <= List.length (formErrors w))%nat
  /\ formValues after = formValues w /\ hooks after = hooks w
  /\ rng after = rng w /\ calls after = calls w.
Proof.
  cbv zeta. destruct w as [v e h r c].
  unfold run, handleFieldChange, setFormErrors_from.
  cbn [snd formErrors formValues hooks rng calls].
  pose proof (filter_removes_field fieldName e) as Hr.
  split; [exact Hr|].
  split; [exact (removes_field_subsequence _ _ _ Hr)|].
  split; [exact (removes_field_in _ _ _ Hr)|].
  split; [apply filter_length_le|]. repeat split.
Qed.

Example field_change_sample :
  formErrors (run (handleFieldChange "environments") mui_ready)
  = [{| path := Some "variant"; message := "Please select a variant" |};
     {| path := None; message := "root" |}].
Proof. reflexivity. Qed.

(** ** C10: a successful click clears the inline errors *)

(** C10: when validation succeeds (in the sidebar revision it is reached
    only with the three host values present), the click sets the inline
    error list to the empty list before it opens the URL, and opens nothing
    before that; afterwards the list is empty and no helper text is rendered
    under any field. *)
Theorem C10_success_clears_inline_errors {P : Platform} :
  (forall w : World AppMui.FormValues unit,
     let trace := click_trace AppMui.handleButtonClick w in
     let after := run AppMui.handleButtonClick w in
     passes AppMui.formSchema (formValues w) = true ->
     formErrors after = []
     /\ (forall field, FormHelperText (formErrors after) field = NotRendered)
     /\ (exists (before between : list (Call AppMui.FormValues)) (url : string),
           trace = (before ++ [SetFormErrors []] ++ between
                           ++ [WindowOpen url "_blank"])%list
           /\ window_opens before = [] /\ window_opens between = []))
  /\ (forall w : World AppVenus.FormValues unit,
     let trace := click_trace AppVenus.handleButtonClick w in
     let after := run AppVenus.handleButtonClick w in
     passes AppVenus.formSchema (formValues w) = true ->
     formErrors after = []
     /\ (forall field, FormHelperText (formErrors after) field = NotRendered)
     /\ (exists (before between : list (Call AppVenus.FormValues)) (url : string),
           trace = (before ++ [SetFormErrors []] ++ between
                           ++ [WindowOpen url "_blank"])%list
           /\ window_opens before = [] /\ window_opens between = []))
  /\ (forall w : World AppSidebar.FormValues AppSidebar.HostState,
     let trace := click_trace AppSidebar.handleButtonClick w in
     let after := run AppSidebar.handleButtonClick w in
     AppSidebar.entryUid (hooks w) <> "" -> AppSidebar.contentType (hooks w) <> "" ->
     AppSidebar.stackAPI (hooks w) <> "" ->
     passes AppSidebar.formSchema (formValues w) = true ->
     formErrors after = []
     /\ (forall field, FormHelperText (formErrors after) field = NotRendered)
     /\ (exists (before between : list (Call AppSidebar.FormValues)) (url : string),
           trace = (before ++ [SetFormErrors []] ++ between
                           ++ [WindowOpen url "_blank"])%list
           /\ window_opens before = [] /\ window_opens between = [])).
Proof.
  split; [|split].
  - intros w. cbv zeta. intros Hp. rewrite (mui_trace_valid w Hp).
    apply passes_iff_no_issue in Hp. rewrite (mui_click_valid w Hp).
    cbn [formErrors]. split; [reflexivity|]. split; [reflexivity|].
    eexists [GetValues; SafeParse _], [JsonStringify _; AesEncrypt _ _; Btoa _], _.
    repeat split.
  - intros w. cbv zeta. intros Hp. rewrite (venus_trace_valid w Hp).
    apply passes_iff_no_issue in Hp. rewrite (venus_click_valid w Hp).
    cbn [formErrors]. split; [reflexivity|]. split; [reflexivity|].
    eexists [GetValues; ConsoleLog _; SafeParse _],
            [JsonStringify _; AesEncrypt _ _; Btoa _], _.
    repeat split.
  - intros w. cbv zeta. intros H1 H2 H3 Hp.
    rewrite (sidebar_trace_valid w (conj H1 (conj H2 H3)) Hp).
    apply passes_iff_no_issue in Hp.
    rewrite (sidebar_click_valid w (conj H1 (conj H2 H3)) Hp).
    cbn [formErrors]. split; [reflexivity|]. split; [reflexivity|].
    eexists [GetValues; ConsoleLog _; SafeParse _],
            [JsonStringify _; AesEncrypt _ _; Btoa _], _.
    repeat split.
Qed.

(** C10 on the filled-in first form, which starts with four inline errors,
    and on the sidebar form once the host has answered. *)
Lemma C10_witness :
  formErrors mui_ready = sample_errors
  /\ formErrors (run AppMui.handleButtonClick mui_ready) = []
  /\ FormHelperText (formErrors (run AppMui.handleButtonClick mui_ready)) "environments"
     = NotRendered
  /\ formErrors (run AppSidebar.handleButtonClick sidebar_ready) = [].
Proof.
  destruct (@C10_success_clears_inline_errors stub_platform) as (Hm & _ & Hs).
  destruct (Hm mui_ready) as (Hempty & Hshown & _); [reflexivity|].
  destruct (Hs sidebar_ready) as (Hsidebar & _);
    [discriminate | discriminate | discriminate | reflexivity |].
  split; [reflexivity|]. split; [exact Hempty|]. split; [apply Hshown | exact Hsidebar].
Defined.

(** * Further properties: the form as a whole *)

(** ** Subsequences *)

Lemma Subsequence_nil_l {A : Type} (l : list A) : Subsequence [] l.
Proof. induction l as [|x l IH]; [constructor | now apply Subsequence_drop]. Qed.

Lemma Subsequence_refl {A : Type} (l : list A) : Subsequence l l.
Proof. induction l as [|x l IH]; [constructor | now apply Subsequence_keep]. Qed.

Lemma Subsequence_nil_r {A : Type} (l : list A) : Subsequence l [] -> l = [].
Proof. intros Hs. inversion Hs. reflexivity. Qed.

Lemma Subsequence_In {A : Type} (sub l : list A) (x : A) :
  Subsequence sub l -> In x sub -> In x l.
Proof.
  induction 1 as [|y sub l Hs IH|y sub l Hs IH]; cbn [In]; intros Hin; auto.
  destruct Hin as [->|Hin]; auto.
Qed.

Lemma Subsequence_filter {A : Type} (p : A -> bool) (l : list A) :
  Subsequence (filter p l) l.
Proof.
  induction l as [|x l IH]; cbn [filter]; [constructor|].
  destruct (p x); [now apply Subsequence_keep | now apply Subsequence_drop].
Qed.

Lemma Subsequence_filter_mono {A : Type} (p : A -> bool) (sub l : list A) :
  Subsequence sub l -> Subsequence (filter p sub) (filter p l).
Proof.
  induction 1 as [|y sub l Hs IH|y sub l Hs IH]; cbn [filter].
  - constructor.
  - destruct (p y); [now apply Subsequence_keep | exact IH].
  - destruct (p y); [now apply Subsequence_drop | exact IH].
Qed.

Lemma Subsequence_trans {A : Type} (a b c : list A) :
  Subsequence a b -> Subsequence b c -> Subsequence a c.
Proof.
  intros Hab Hbc. revert a Hab.
  induction Hbc as [|y b c Hs IH|y b c Hs IH]; intros a Hab.
  - exact Hab.
  - inversion Hab; subst.
    + apply Subsequence_keep. auto.
    + apply Subsequence_drop. auto.
  - apply Subsequence_drop. auto.
Qed.

(** ** Playing events *)

Section PlayFacts.
Context `{Platform} {V X Ev : Type}.
Variable handle : Ev -> M V X unit.

Lemma play_cons (ev : Ev) (events : list Ev) (w : World V X) :
  play handle (ev :: events) w = play handle events (run (handle ev) w).
Proof. reflexivity. Qed.

Lemma play_app (first second : list Ev) (w : World V X) :
  play handle (first ++ second)%list w = play handle second (play handle first w).
Proof. unfold play. apply fold_left_app. Qed.

(** What every handler keeps, every sequence of events keeps. *)
Lemma play_invariant (Inv : World V X -> Prop) :
  (forall ev w, Inv w -> Inv (run (handle ev) w)) ->
  forall events w, Inv w -> Inv (play handle events w).
Proof.
  intros Hstep events. induction events as [|ev events IH]; intros w Hw; [exact Hw|].
  cbn [play fold_left]. apply IH, Hstep, Hw.
Qed.

(** The same, for what is kept by the events of a sequence that all
    satisfy a test. *)
Lemma play_invariant_on (Inv : World V X -> Prop) (allowed : Ev -> bool) :
  (forall ev w, allowed ev = true -> Inv w -> Inv (run (handle ev) w)) ->
  forall events w,
    forallb allowed events = true -> Inv w -> Inv (play handle events w).
Proof.
  intros Hstep events. induction events as [|ev events IH]; intros w Hall Hw; [exact Hw|].
  cbn [forallb] in Hall. apply andb_true_iff in Hall. destruct Hall as (Hev & Hall).
  cbn [play fold_left]. apply IH; [exact Hall|]. apply Hstep; assumption.
Qed.

End PlayFacts.

(** ** What a change of a control does *)

Section ChangeFacts.
Context `{Platform}.

Lemma mui_change_run (e : MuiForm.Input) (w : World AppMui.FormValues unit) :
  run (MuiForm.onChange e) w
  = {| formValues := MuiForm.field_value e (formValues w);
       formErrors := filter (keeps_other_fields (MuiForm.fieldName e)) (formErrors w);
       hooks := hooks w; rng := rng w; calls := calls w |}.
Proof. destruct w as [v errs h r c]. reflexivity. Qed.

End ChangeFacts.

Lemma filter_issue_if (group : string) (absent : bool) (field text : string) :
  filter (keeps_other_fields group) (map errorMessage (issue_if absent field text))
  = if String.eqb field group then [] else map errorMessage (issue_if absent field text).
Proof.
  unfold keeps_other_fields.
  destruct absent; cbn; destruct (String.eqb field group); reflexivity.
Qed.

Lemma mui_other_issues_kept (e : MuiForm.Input) (data : AppMui.FormValues) :
  filter (keeps_other_fields (MuiForm.fieldName e))
         (map errorMessage (AppMui.formSchema [] (MuiForm.field_value e data)))
  = filter (keeps_other_fields (MuiForm.fieldName e))
           (map errorMessage (AppMui.formSchema [] data)).
Proof.
  rewrite !mui_issues, !map_app, !filter_app, !filter_issue_if.
  destruct e; reflexivity.
Qed.

(** ** After a click, the inline errors are the current issues *)

Section ClickErrors.
Context `{Platform}.

Lemma mui_click_errors (w : World AppMui.FormValues unit) :
  formErrors (run AppMui.handleButtonClick w)
  = map errorMessage (AppMui.formSchema [] (formValues w))
  /\ formValues (run AppMui.handleButtonClick w) = formValues w.
Proof.
  destruct (passes AppMui.formSchema (formValues w)) eqn:Hp.
  - apply passes_iff_no_issue in Hp. rewrite (mui_click_valid w Hp), Hp. split; reflexivity.
  - apply fails_iff_issue in Hp. rewrite (mui_click_invalid w Hp). split; reflexivity.
Qed.

Lemma mui_step_fresh (ev : MuiForm.Event) (w : World AppMui.FormValues unit) :
  Subsequence (formErrors w) (map errorMessage (AppMui.formSchema [] (formValues w))) ->
  Subsequence (formErrors (run (MuiForm.handle ev) w))
    (map errorMessage (AppMui.formSchema [] (formValues (run (MuiForm.handle ev) w)))).
Proof.
  intros Hinv. destruct ev as [|e]; cbn [MuiForm.handle].
  - destruct (mui_click_errors w) as (-> & ->). apply Subsequence_refl.
  - rewrite mui_change_run. cbn [formErrors formValues].
    apply Subsequence_trans
      with (filter (keeps_other_fields (MuiForm.fieldName e))
              (map errorMessage (AppMui.formSchema [] (MuiForm.field_value e (formValues w))))).
    + rewrite mui_other_issues_kept. apply Subsequence_filter_mono, Hinv.
    + apply Subsequence_filter.
Qed.

End ClickErrors.

(** A helper shows the message of an entry of the list. *)
Lemma shown_is_entry (errors : list FormError) (field text : string) :
  FormHelperText errors field = HelperText (Some text) ->
  In {| path := Some field; message := text |} errors.
Proof.
  unfold FormHelperText. destruct (Nat.ltb 0 (List.length errors)); [|discriminate].
  destruct (find (fun error => strict_eqb (path error) (Some field)) errors)
    as [found|] eqn:Hfind; cbn [option_map]; [|discriminate].
  intros Heq. injection Heq as <-.
  apply find_some in Hfind. destruct Hfind as (Hin & Hpath).
  apply strict_eqb_eq in Hpath. destruct found as [p m]. cbn in *. now subst.
Qed.

Lemma in_issue_if (absent : bool) (field text : string) (e : FormError) :
  In e (map errorMessage (issue_if absent field text)) ->
  absent = true /\ e = {| path := Some field; message := text |}.
Proof.
  destruct absent; cbn; intros Hin; [|contradiction].
  destruct Hin as [<-|[]]. split; reflexivity.
Qed.

(** What an entry of the current issues of the first form says. *)
Lemma mui_issue_meaning (data : AppMui.FormValues) (field text : string) :
  In {| path := Some field; message := text |}
     (map errorMessage (AppMui.formSchema [] data)) ->
  (field = "environments" /\ text = "Please select at least one environment"
   /\ none_selected_env (AppMui.environments data))
  \/ (field = "locales" /\ text = "Please select at least one locale"
      /\ none_selected_locale (AppMui.locales data))
  \/ (field = "variant" /\ text = "Please select a variant" /\ AppMui.variant data = "")
  \/ (field = "entryUid" /\ text = "Entry UID is required" /\ AppMui.entryUid data = "")
  \/ (field = "contentType" /\ text = "Content Type is required"
      /\ AppMui.contentType data = "").
Proof.
  rewrite mui_issues, !map_app, !in_app_iff.
  intros [Hi|[Hi|[Hi|[Hi|Hi]]]]; apply in_issue_if in Hi; destruct Hi as (Hb & Heq);
    injection Heq as -> ->.
  - left. split; [reflexivity|]. split; [reflexivity|].
    apply some_selected_env_false.
    now destruct (some_selected (AppMui.environments data)).
  - right; left. split; [reflexivity|]. split; [reflexivity|].
    apply some_selected_locale_false.
    now destruct (some_selected (AppMui.locales data)).
  - right; right; left. split; [reflexivity|]. split; [reflexivity|].
    now apply length_zero_iff_empty.
  - right; right; right; left. split; [reflexivity|]. split; [reflexivity|].
    now apply length_zero_iff_empty.
  - right; right; right; right. split; [reflexivity|]. split; [reflexivity|].
    now apply length_zero_iff_empty.
Qed.

(** X7: in the first form, whatever the user has done since the form was
    mounted, the inline errors are among the issues of the values the form
    holds now, in their order: a message shown under a field is the message
    of that field and the field is still missing, and a form that would pass
    validation shows no message at all. *)
Theorem mui_inline_errors_never_stale {P : Platform} (seed : Rng)
  (events : list MuiForm.Event) :
  let w := play MuiForm.handle events (MuiForm.mounted seed) in
  let data := formValues w in
  Subsequence (formErrors w) (map errorMessage (AppMui.formSchema [] data))
  /\ (passes AppMui.formSchema data = true -> formErrors w = [])
  /\ (forall field text,
        FormHelperText (formErrors w) field = HelperText (Some text) ->
        (field = "environments" /\ text = "Please select at least one environment"
         /\ none_selected_env (AppMui.environments data))
        \/ (field = "locales" /\ text = "Please select at least one locale"
            /\ none_selected_locale (AppMui.locales data))
        \/ (field = "variant" /\ text = "Please select a variant"
            /\ AppMui.variant data = "")
        \/ (field = "entryUid" /\ text = "Entry UID is required"
            /\ AppMui.entryUid data = "")
        \/ (field = "contentType" /\ text = "Content Type is required"
            /\ AppMui.contentType data = "")).
Proof.
  cbv zeta.
  assert (Hinv : Subsequence
                   (formErrors (play MuiForm.handle events (MuiForm.mounted seed)))
                   (map errorMessage
                      (AppMui.formSchema []
                         (formValues (play MuiForm.handle events (MuiForm.mounted seed)))))).
  { apply (play_invariant MuiForm.handle
             (fun w => Subsequence (formErrors w)
                         (map errorMessage (AppMui.formSchema [] (formValues w))))).
    - intros ev w. apply mui_step_fresh.
    - apply Subsequence_nil_l. }
  split; [exact Hinv|]. split.
  - intros Hp. apply passes_iff_no_issue in Hp. rewrite Hp in Hinv.
    now apply Subsequence_nil_r.
  - intros field text Hshown. apply mui_issue_meaning.
    apply (Subsequence_In _ _ _ Hinv), shown_is_entry, Hshown.
Qed.

Lemma filter_same_path (group field : string) (errors : list FormError) :
  (forall e, In e errors -> path e = Some field) ->
  filter (keeps_other_fields group) errors
  = if String.eqb field group then [] else errors.
Proof.
  induction errors as [|e errors IH]; intros Hpath; cbn [filter].
  - now destruct (String.eqb field group).
  - unfold keeps_other_fields at 1. rewrite (Hpath e) by (left; reflexivity).
    cbn [strict_eqb]. rewrite IH by (intros e' He'; apply Hpath; right; exact He').
    now destruct (String.eqb field group).
Qed.

Lemma filter_variant_issues (group : string) (v : Variant) :
  filter (keeps_other_fields group) (map errorMessage (variant_issues v))
  = if String.eqb "variant" group then [] else map errorMessage (variant_issues v).
Proof.
  apply filter_same_path. intros e He.
  apply in_map_iff in He. destruct He as (i & <- & Hi).
  exact (variant_issue_field v i Hi).
Qed.

Lemma in_variant_issues (v : Variant) (e : FormError) :
  In e (map errorMessage (variant_issues v)) ->
  e = {| path := Some "variant"; message := "Variant is required" |}
  /\ (label v = "" \/ value v = "").
Proof.
  unfold variant_issues. rewrite <- !length_zero_iff_empty.
  destruct (Nat.ltb (String.length (label v)) 1), (Nat.ltb (String.length (value v)) 1);
    cbn; intros Hin; repeat (destruct Hin as [<-|Hin]; [auto|]); contradiction.
Qed.

Lemma venus_other_issues_kept (e : VenusForm.Input) (data : AppVenus.FormValues) :
  filter (keeps_other_fields (VenusForm.fieldName e))
         (map errorMessage (AppVenus.formSchema [] (VenusForm.field_value e data)))
  = filter (keeps_other_fields (VenusForm.fieldName e))
           (map errorMessage (AppVenus.formSchema [] data)).
Proof.
  rewrite !venus_issues, !map_app, !filter_app, !filter_issue_if, !filter_variant_issues.
  destruct e; reflexivity.
Qed.

Lemma sidebar_other_issues_kept (e : SidebarForm.Input) (data : AppSidebar.FormValues) :
  filter (keeps_other_fields (SidebarForm.fieldName e))
         (map errorMessage (AppSidebar.formSchema [] (SidebarForm.field_value e data)))
  = filter (keeps_other_fields (SidebarForm.fieldName e))
           (map errorMessage (AppSidebar.formSchema [] data)).
Proof.
  rewrite !sidebar_issues, !map_app, !filter_app, !filter_issue_if, !filter_variant_issues.
  destruct e; reflexivity.
Qed.

Section OtherForms.
Context `{Platform}.

Lemma venus_change_run (e : VenusForm.Input) (w : World AppVenus.FormValues unit) :
  run (VenusForm.onChange e) w
  = {| formValues := VenusForm.field_value e (formValues w);
       formErrors := filter (keeps_other_fields (VenusForm.fieldName e)) (formErrors w);
       hooks := hooks w; rng := rng w; calls := calls w |}.
Proof. destruct w as [v errs h r c]. reflexivity. Qed.

Lemma sidebar_change_run (e : SidebarForm.Input)
  (w : World AppSidebar.FormValues AppSidebar.HostState) :
  run (SidebarForm.onChange e) w
  = {| formValues := SidebarForm.field_value e (formValues w);
       formErrors := filter (keeps_other_fields (SidebarForm.fieldName e)) (formErrors w);
       hooks := hooks w; rng := rng w; calls := calls w |}.
Proof. destruct w as [v errs h r c]. reflexivity. Qed.

Lemma sidebar_init_run (parentWindow : option AppSidebar.SidebarWidget)
  (w : World AppSidebar.FormValues AppSidebar.HostState) :
  run (AppSidebar.init_then parentWindow) w
  = {| formValues := formValues w; formErrors := formErrors w;
       hooks := {| AppSidebar.entryUid :=
                     AppSidebar.or_empty parentWindow AppSidebar.entry_data_uid;
                   AppSidebar.contentType :=
                     AppSidebar.or_empty parentWindow AppSidebar.entry_content_type_uid;
                   AppSidebar.stackAPI :=
                     AppSidebar.or_empty parentWindow AppSidebar.stack_data_api_key |};
       rng := rng w; calls := calls w |}.
Proof. destruct w as [v errs h r c]. reflexivity. Qed.

Lemma venus_click_errors (w : World AppVenus.FormValues unit) :
  formErrors (run AppVenus.handleButtonClick w)
  = map errorMessage (AppVenus.formSchema [] (formValues w))
  /\ formValues (run AppVenus.handleButtonClick w) = formValues w.
Proof.
  destruct (passes AppVenus.formSchema (formValues w)) eqn:Hp.
  - apply passes_iff_no_issue in Hp. rewrite (venus_click_valid w Hp), Hp.
    split; reflexivity.
  - apply fails_iff_issue in Hp. rewrite (venus_click_invalid w Hp). split; reflexivity.
Qed.

Lemma sidebar_click_errors (w : World AppSidebar.FormValues AppSidebar.HostState) :
  AppSidebar.entryUid (hooks w) <> "" /\ AppSidebar.contentType (hooks w) <> ""
  /\ AppSidebar.stackAPI (hooks w) <> "" ->
  formErrors (run AppSidebar.handleButtonClick w)
  = map errorMessage (AppSidebar.formSchema [] (formValues w))
  /\ formValues (run AppSidebar.handleButtonClick w) = formValues w.
Proof.
  intros Hg. destruct (passes AppSidebar.formSchema (formValues w)) eqn:Hp.
  - apply passes_iff_no_issue in Hp. rewrite (sidebar_click_valid w Hg Hp), Hp.
    split; reflexivity.
  - apply fails_iff_issue in Hp. rewrite (sidebar_click_invalid w Hg Hp).
    split; reflexivity.
Qed.

Lemma venus_step_fresh (ev : VenusForm.Event) (w : World AppVenus.FormValues unit) :
  Subsequence (formErrors w) (map errorMessage (AppVenus.formSchema [] (formValues w))) ->
  Subsequence (formErrors (run (VenusForm.handle ev) w))
    (map errorMessage (AppVenus.formSchema [] (formValues (run (VenusForm.handle ev) w)))).
Proof.
  intros Hinv. destruct ev as [|e]; cbn [VenusForm.handle].
  - destruct (venus_click_errors w) as (-> & ->). apply Subsequence_refl.
  - rewrite venus_change_run. cbn [formErrors formValues].
    apply Subsequence_trans
      with (filter (keeps_other_fields (VenusForm.fieldName e))
              (map errorMessage
                 (AppVenus.formSchema [] (VenusForm.field_value e (formValues w))))).
    + rewrite venus_other_issues_kept. apply Subsequence_filter_mono, Hinv.
    + apply Subsequence_filter.
Qed.

Lemma sidebar_step_fresh (ev : SidebarForm.Event)
  (w : World AppSidebar.FormValues AppSidebar.HostState) :
  Subsequence (formErrors w)
    (map errorMessage (AppSidebar.formSchema [] (formValues w))) ->
  Subsequence (formErrors (run (SidebarForm.handle ev) w))
    (map errorMessage
       (AppSidebar.formSchema [] (formValues (run (SidebarForm.handle ev) w)))).
Proof.
  intros Hinv. destruct ev as [|e|parentWindow]; cbn [SidebarForm.handle].
  - destruct (host_ready_or_missing (hooks w)) as [Hg|Hb].
    + destruct (sidebar_click_errors w Hg) as (-> & ->). apply Subsequence_refl.
    + rewrite (sidebar_click_blocked w Hb). exact Hinv.
  - rewrite sidebar_change_run. cbn [formErrors formValues].
    apply Subsequence_trans
      with (filter (keeps_other_fields (SidebarForm.fieldName e))
              (map errorMessage
                 (AppSidebar.formSchema [] (SidebarForm.field_value e (formValues w))))).
    + rewrite sidebar_other_issues_kept. apply Subsequence_filter_mono, Hinv.
    + apply Subsequence_filter.
  - rewrite sidebar_init_run. exact Hinv.
Qed.

End OtherForms.

Lemma venus_issue_meaning (data : AppVenus.FormValues) (field text : string) :
  In {| path := Some field; message := text |}
     (map errorMessage (AppVenus.formSchema [] data)) ->
  (field = "environments" /\ text = "Please select at least one environment"
   /\ none_selected_env (AppVenus.environments data))
  \/ (field = "locales" /\ text = "Please select at least one locale"
      /\ none_selected_locale (AppVenus.locales data))
  \/ (field = "variant" /\ text = "Variant is required"
      /\ (label (AppVenus.variant data) = "" \/ value (AppVenus.variant data) = ""))
  \/ (field = "entryUid" /\ text = "Entry UID is required" /\ AppVenus.entryUid data = "")
  \/ (field = "contentType" /\ text = "Content Type is required"
      /\ AppVenus.contentType data = "").
Proof.
  rewrite venus_issues, !map_app, !in_app_iff.
  intros [Hi|[Hi|[Hi|[Hi|Hi]]]];
    [apply in_issue_if in Hi | apply in_issue_if in Hi | apply in_variant_issues in Hi
     | apply in_issue_if in Hi | apply in_issue_if in Hi];
    destruct Hi as (Hb & Heq).
  - injection Heq as -> ->. left. split; [reflexivity|]. split; [reflexivity|].
    apply some_selected_env_false.
    now destruct (some_selected (AppVenus.environments data)).
  - injection Heq as -> ->. right; left. split; [reflexivity|]. split; [reflexivity|].
    apply some_selected_locale_false.
    now destruct (some_selected (AppVenus.locales data)).
  - injection Hb as -> ->. right; right; left. auto.
  - injection Heq as -> ->. right; right; right; left.
    split; [reflexivity|]. split; [reflexivity|]. now apply length_zero_iff_empty.
  - injection Heq as -> ->. right; right; right; right.
    split; [reflexivity|]. split; [reflexivity|]. now apply length_zero_iff_empty.
Qed.

Lemma sidebar_issue_meaning (data : AppSidebar.FormValues) (field text : string) :
  In {| path := Some field; message := text |}
     (map errorMessage (AppSidebar.formSchema [] data)) ->
  (field = "environments" /\ text = "Please select at least one environment"
   /\ none_selected_env (AppSidebar.environments data))
  \/ (field = "locales" /\ text = "Please select at least one locale"
      /\ none_selected_locale (AppSidebar.locales data))
  \/ (field = "variant" /\ text = "Variant is required"
      /\ (label (AppSidebar.variant data) = "" \/ value (AppSidebar.variant data) = "")).
Proof.
  rewrite sidebar_issues, !map_app, !in_app_iff.
  intros [Hi|[Hi|Hi]];
    [apply in_issue_if in Hi | apply in_issue_if in Hi | apply in_variant_issues in Hi];
    destruct Hi as (Hb & Heq).
  - injection Heq as -> ->. left. split; [reflexivity|]. split; [reflexivity|].
    apply some_selected_env_false.
    now destruct (some_selected (AppSidebar.environments data)).
  - injection Heq as -> ->. right; left. split; [reflexivity|]. split; [reflexivity|].
    apply some_selected_locale_false.
    now destruct (some_selected (AppSidebar.locales data)).
  - injection Hb as -> ->. right; right. auto.
Qed.

(** X8: the same in the second revision of the form, where the variant is
    the option object: a message under the variant means that its label or
    its value is empty now. *)
Theorem venus_inline_errors_never_stale {P : Platform} (seed : Rng)
  (events : list VenusForm.Event) :
  let w := play VenusForm.handle events (VenusForm.mounted seed) in
  let data := formValues w in
  Subsequence (formErrors w) (map errorMessage (AppVenus.formSchema [] data))
  /\ (passes AppVenus.formSchema data = true -> formErrors w = [])
  /\ (forall field text,
        FormHelperText (formErrors w) field = HelperText (Some text) ->
        (field = "environments" /\ text = "Please select at least one environment"
         /\ none_selected_env (AppVenus.environments data))
        \/ (field = "locales" /\ text = "Please select at least one locale"
            /\ none_selected_locale (AppVenus.locales data))
        \/ (field = "variant" /\ text = "Variant is required"
            /\ (label (AppVenus.variant data) = ""
                \/ value (AppVenus.variant data) = ""))
        \/ (field = "entryUid" /\ text = "Entry UID is required"
            /\ AppVenus.entryUid data = "")
        \/ (field = "contentType" /\ text = "Content Type is required"
            /\ AppVenus.contentType data = "")).
Proof.
  cbv zeta.
  assert (Hinv : Subsequence
                   (formErrors (play VenusForm.handle events (VenusForm.mounted seed)))
                   (map errorMessage
                      (AppVenus.formSchema []
                         (formValues
                            (play VenusForm.handle events (VenusForm.mounted seed)))))).
  { apply (play_invariant VenusForm.handle
             (fun w => Subsequence (formErrors w)
                         (map errorMessage (AppVenus.formSchema [] (formValues w))))).
    - intros ev w. apply venus_step_fresh.
    - apply Subsequence_nil_l. }
  split; [exact Hinv|]. split.
  - intros Hp. apply passes_iff_no_issue in Hp. rewrite Hp in Hinv.
    now apply Subsequence_nil_r.
  - intros field text Hshown. apply venus_issue_meaning.
    apply (Subsequence_In _ _ _ Hinv), shown_is_entry, Hshown.
Qed.

(** X9: the same in the sidebar revision, whatever the host has answered
    and however often. *)
Theorem sidebar_inline_errors_never_stale {P : Platform} (seed : Rng)
  (events : list SidebarForm.Event) :
  let w := play SidebarForm.handle events (SidebarForm.mounted seed) in
  let data := formValues w in
  Subsequence (formErrors w) (map errorMessage (AppSidebar.formSchema [] data))
  /\ (passes AppSidebar.formSchema data = true -> formErrors w = [])
  /\ (forall field text,
        FormHelperText (formErrors w) field = HelperText (Some text) ->
        (field = "environments" /\ text = "Please select at least one environment"
         /\ none_selected_env (AppSidebar.environments data))
        \/ (field = "locales" /\ text = "Please select at least one locale"
            /\ none_selected_locale (AppSidebar.locales data))
        \/ (field = "variant" /\ text = "Variant is required"
            /\ (label (AppSidebar.variant data) = ""
                \/ value (AppSidebar.variant data) = ""))).
Proof.
  cbv zeta.
  assert (Hinv : Subsequence
                   (formErrors (play SidebarForm.handle events (SidebarForm.mounted seed)))
                   (map errorMessage
                      (AppSidebar.formSchema []
                         (formValues
                            (play SidebarForm.handle events (SidebarForm.mounted seed)))))).
  { apply (play_invariant SidebarForm.handle
             (fun w => Subsequence (formErrors w)
                         (map errorMessage (AppSidebar.formSchema [] (formValues w))))).
    - intros ev w. apply sidebar_step_fresh.
    - apply Subsequence_nil_l. }
  split; [exact Hinv|]. split.
  - intros Hp. apply passes_iff_no_issue in Hp. rewrite Hp in Hinv.
    now apply Subsequence_nil_r.
  - intros field text Hshown. apply sidebar_issue_meaning.
    apply (Subsequence_In _ _ _ Hinv), shown_is_entry, Hshown.
Qed.

(** ** The history of calls *)

Lemma window_opens_app {V : Type} (a b : list (Call V)) :
  window_opens (a ++ b)%list = (window_opens a ++ window_opens b)%list.
Proof. unfold window_opens. apply flat_map_app. Qed.

Lemma alerts_app {V : Type} (a b : list (Call V)) :
  alerts (a ++ b)%list = (alerts a ++ alerts b)%list.
Proof. unfold alerts. apply flat_map_app. Qed.

Section History.
Context `{Platform}.

(** A click appends its calls to the history, and at most one of them
    opens a tab. *)
Lemma mui_click_history (w : World AppMui.FormValues unit) :
  calls (run AppMui.handleButtonClick w)
  = (calls w ++ click_trace AppMui.handleButtonClick w)%list
  /\ (List.length (window_opens (click_trace AppMui.handleButtonClick w)) <= 1)%nat.
Proof.
  destruct (passes AppMui.formSchema (formValues w)) eqn:Hp.
  - rewrite (mui_trace_valid w Hp). apply passes_iff_no_issue in Hp.
    rewrite (mui_click_valid w Hp). split; [reflexivity | cbn; lia].
  - rewrite (mui_trace_invalid w Hp). apply fails_iff_issue in Hp.
    rewrite (mui_click_invalid w Hp). split; [reflexivity | cbn; lia].
Qed.

Lemma venus_click_history (w : World AppVenus.FormValues unit) :
  calls (run AppVenus.handleButtonClick w)
  = (calls w ++ click_trace AppVenus.handleButtonClick w)%list
  /\ (List.length (window_opens (click_trace AppVenus.handleButtonClick w)) <= 1)%nat.
Proof.
  destruct (passes AppVenus.formSchema (formValues w)) eqn:Hp.
  - rewrite (venus_trace_valid w Hp). apply passes_iff_no_issue in Hp.
    rewrite (venus_click_valid w Hp). split; [reflexivity | cbn; lia].
  - rewrite (venus_trace_invalid w Hp). apply fails_iff_issue in Hp.
    rewrite (venus_click_invalid w Hp). split; [reflexivity | cbn; lia].
Qed.

Lemma sidebar_click_history (w : World AppSidebar.FormValues AppSidebar.HostState) :
  calls (run AppSidebar.handleButtonClick w)
  = (calls w ++ click_trace AppSidebar.handleButtonClick w)%list
  /\ (List.length (window_opens (click_trace AppSidebar.handleButtonClick w)) <= 1)%nat.
Proof.
  destruct (host_ready_or_missing (hooks w)) as [Hg|Hb].
  - destruct (passes AppSidebar.formSchema (formValues w)) eqn:Hp.
    + rewrite (sidebar_trace_valid w Hg Hp). apply passes_iff_no_issue in Hp.
      rewrite (sidebar_click_valid w Hg Hp). split; [reflexivity | cbn; lia].
    + rewrite (sidebar_trace_invalid w Hg Hp). apply fails_iff_issue in Hp.
      rewrite (sidebar_click_invalid w Hg Hp). split; [reflexivity | cbn; lia].
  - rewrite (sidebar_trace_blocked w Hb), (sidebar_click_blocked w Hb).
    split; [reflexivity | cbn; lia].
Qed.

Lemma mui_tabs_bounded (events : list MuiForm.Event) :
  forall w : World AppMui.FormValues unit,
    (List.length (window_opens (calls (play MuiForm.handle events w)))
     <= List.length (window_opens (calls w))
        + List.length (filter MuiForm.is_submit events))%nat.
Proof.
  induction events as [|ev events IH]; intros w; [cbn; lia|].
  rewrite play_cons. cbn [filter]. specialize (IH (run (MuiForm.handle ev) w)).
  destruct ev as [|e]; cbn [MuiForm.handle MuiForm.is_submit List.length] in *.
  - destruct (mui_click_history w) as (Hc & Hone). rewrite Hc in IH.
    rewrite window_opens_app, length_app in IH.
    eapply Nat.le_trans; [exact IH|]. lia.
  - rewrite mui_change_run in IH. cbn [calls] in IH.
    eapply Nat.le_trans; [exact IH|]. lia.
Qed.

Lemma venus_tabs_bounded (events : list VenusForm.Event) :
  forall w : World AppVenus.FormValues unit,
    (List.length (window_opens (calls (play VenusForm.handle events w)))
     <= List.length (window_opens (calls w))
        + List.length (filter VenusForm.is_submit events))%nat.
Proof.
  induction events as [|ev events IH]; intros w; [cbn; lia|].
  rewrite play_cons. cbn [filter]. specialize (IH (run (VenusForm.handle ev) w)).
  destruct ev as [|e]; cbn [VenusForm.handle VenusForm.is_submit List.length] in *.
  - destruct (venus_click_history w) as (Hc & Hone). rewrite Hc in IH.
    rewrite window_opens_app, length_app in IH.
    eapply Nat.le_trans; [exact IH|]. lia.
  - rewrite venus_change_run in IH. cbn [calls] in IH.
    eapply Nat.le_trans; [exact IH|]. lia.
Qed.

Lemma sidebar_tabs_bounded (events : list SidebarForm.Event) :
  forall w : World AppSidebar.FormValues AppSidebar.HostState,
    (List.length (window_opens (calls (play SidebarForm.handle events w)))
     <= List.length (window_opens (calls w))
        + List.length (filter SidebarForm.is_submit events))%nat.
Proof.
  induction events as [|ev events IH]; intros w; [cbn; lia|].
  rewrite play_cons. cbn [filter]. specialize (IH (run (SidebarForm.handle ev) w)).
  destruct ev as [|e|parentWindow];
    cbn [SidebarForm.handle SidebarForm.is_submit List.length] in *.
  - destruct (sidebar_click_history w) as (Hc & Hone). rewrite Hc in IH.
    rewrite window_opens_app, length_app in IH.
    eapply Nat.le_trans; [exact IH|]. lia.
  - rewrite sidebar_change_run in IH. cbn [calls] in IH.
    eapply Nat.le_trans; [exact IH|]. lia.
  - rewrite sidebar_init_run in IH. cbn [calls] in IH.
    eapply Nat.le_trans; [exact IH|]. lia.
Qed.

End History.

(** X11: however the user clicks and edits, the component opens at most one
    tab per click on Submit: edits, and in the sidebar revision the answer of
    the host, never open one. *)
Theorem tabs_never_exceed_submits {P : Platform} (seed : Rng) :
  (forall events : list MuiForm.Event,
     (List.length (window_opens (calls (play MuiForm.handle events (MuiForm.mounted seed))))
      <= List.length (filter MuiForm.is_submit events))%nat)
  /\ (forall events : list VenusForm.Event,
     (List.length
        (window_opens (calls (play VenusForm.handle events (VenusForm.mounted seed))))
      <= List.length (filter VenusForm.is_submit events))%nat)
  /\ (forall events : list SidebarForm.Event,
     (List.length
        (window_opens (calls (play SidebarForm.handle events (SidebarForm.mounted seed))))
      <= List.length (filter SidebarForm.is_submit events))%nat).
Proof.
  split; [|split]; intros events.
  - apply (mui_tabs_bounded events (MuiForm.mounted seed)).
  - apply (venus_tabs_bounded events (VenusForm.mounted seed)).
  - apply (sidebar_tabs_bounded events (SidebarForm.mounted seed)).
Qed.

Section Sent.
Context `{Platform}.

Lemma mui_click_alerts (w : World AppMui.FormValues unit) :
  alerts (click_trace AppMui.handleButtonClick w) = [].
Proof.
  destruct (passes AppMui.formSchema (formValues w)) eqn:Hp.
  - rewrite (mui_trace_valid w Hp). reflexivity.
  - rewrite (mui_trace_invalid w Hp). reflexivity.
Qed.

Lemma venus_click_alerts (w : World AppVenus.FormValues unit) :
  alerts (click_trace AppVenus.handleButtonClick w) = [].
Proof.
  destruct (passes AppVenus.formSchema (formValues w)) eqn:Hp.
  - rewrite (venus_trace_valid w Hp). reflexivity.
  - rewrite (venus_trace_invalid w Hp). reflexivity.
Qed.

Lemma sidebar_click_alerts (w : World AppSidebar.FormValues AppSidebar.HostState)
  (text : string) :
  In text (alerts (click_trace AppSidebar.handleButtonClick w)) ->
  text = AppSidebar.alert_text.
Proof.
  destruct (host_ready_or_missing (hooks w)) as [Hg|Hb].
  - destruct (passes AppSidebar.formSchema (formValues w)) eqn:Hp.
    + rewrite (sidebar_trace_valid w Hg Hp). intros [].
    + rewrite (sidebar_trace_invalid w Hg Hp). intros [].
  - rewrite (sidebar_trace_blocked w Hb). cbn. intros [<-|[]]. reflexivity.
Qed.

Lemma mui_step_sound (ev : MuiForm.Event) (w : World AppMui.FormValues unit) :
  mui_history_sound w -> mui_history_sound (run (MuiForm.handle ev) w).
Proof.
  intros (Hurl & Halert). destruct ev as [|e]; cbn [MuiForm.handle].
  - destruct (mui_click_history w) as (Hc & _). unfold mui_history_sound.
    rewrite Hc. split.
    + intros url target Hin. apply in_app_iff in Hin. destruct Hin as [Hin|Hin].
      * exact (Hurl url target Hin).
      * destruct (mui_opened_url w url target Hin) as (Hp & -> & ->).
        split; [reflexivity|]. exists (formValues w), (rng w). auto.
    + rewrite alerts_app, Halert, mui_click_alerts. reflexivity.
  - unfold mui_history_sound. rewrite mui_change_run. cbn [calls]. auto.
Qed.

Lemma venus_step_sound (ev : VenusForm.Event) (w : World AppVenus.FormValues unit) :
  venus_history_sound w -> venus_history_sound (run (VenusForm.handle ev) w).
Proof.
  intros (Hurl & Halert). destruct ev as [|e]; cbn [VenusForm.handle].
  - destruct (venus_click_history w) as (Hc & _). unfold venus_history_sound.
    rewrite Hc. split.
    + intros url target Hin. apply in_app_iff in Hin. destruct Hin as [Hin|Hin].
      * exact (Hurl url target Hin).
      * destruct (venus_opened_url w url target Hin) as (Hp & -> & ->).
        split; [reflexivity|]. exists (formValues w), (rng w). auto.
    + rewrite alerts_app, Halert, venus_click_alerts. reflexivity.
  - unfold venus_history_sound. rewrite venus_change_run. cbn [calls]. auto.
Qed.

Lemma sidebar_step_sound (ev : SidebarForm.Event)
  (w : World AppSidebar.FormValues AppSidebar.HostState) :
  sidebar_history_sound w -> sidebar_history_sound (run (SidebarForm.handle ev) w).
Proof.
  intros (Hurl & Halert). destruct ev as [|e|parentWindow]; cbn [SidebarForm.handle].
  - destruct (sidebar_click_history w) as (Hc & _). unfold sidebar_history_sound.
    rewrite Hc. split.
    + intros url target Hin. apply in_app_iff in Hin. destruct Hin as [Hin|Hin].
      * exact (Hurl url target Hin).
      * destruct (sidebar_opened_url w url target Hin) as (Hp & (H1 & H2 & H3) & -> & ->).
        split; [reflexivity|]. exists (formValues w), (hooks w), (rng w). auto 6.
    + intros text Hin. rewrite alerts_app in Hin. apply in_app_iff in Hin.
      destruct Hin as [Hin|Hin]; [exact (Halert text Hin)|].
      exact (sidebar_click_alerts w text Hin).
  - unfold sidebar_history_sound. rewrite sidebar_change_run. cbn [calls]. auto.
  - unfold sidebar_history_sound. rewrite sidebar_init_run. cbn [calls]. auto.
Qed.

(** A sidebar context that is not usable leaves one of the cells empty. *)
Lemma unusable_leaves_a_cell_empty (parentWindow : option AppSidebar.SidebarWidget) :
  SidebarForm.usable parentWindow = false ->
  AppSidebar.or_empty parentWindow AppSidebar.entry_data_uid = ""
  \/ AppSidebar.or_empty parentWindow AppSidebar.entry_content_type_uid = ""
  \/ AppSidebar.or_empty parentWindow AppSidebar.stack_data_api_key = "".
Proof.
  destruct parentWindow as [[[|a c] [|b u] [|d k]]|]; cbn; intros Hu;
    try discriminate; auto.
Qed.

Lemma sidebar_step_blocked (ev : SidebarForm.Event)
  (w : World AppSidebar.FormValues AppSidebar.HostState) :
  negb (SidebarForm.is_usable_answer ev) = true ->
  (AppSidebar.entryUid (hooks w) = "" \/ AppSidebar.contentType (hooks w) = ""
   \/ AppSidebar.stackAPI (hooks w) = "")
  /\ window_opens (calls w) = [] ->
  (AppSidebar.entryUid (hooks (run (SidebarForm.handle ev) w)) = ""
   \/ AppSidebar.contentType (hooks (run (SidebarForm.handle ev) w)) = ""
   \/ AppSidebar.stackAPI (hooks (run (SidebarForm.handle ev) w)) = "")
  /\ window_opens (calls (run (SidebarForm.handle ev) w)) = [].
Proof.
  intros Hev (Hb & Hnone). destruct ev as [|e|parentWindow]; cbn [SidebarForm.handle].
  - rewrite (sidebar_click_blocked w Hb). cbn [hooks calls].
    rewrite window_opens_app, Hnone. auto.
  - rewrite sidebar_change_run. cbn [hooks calls]. auto.
  - rewrite sidebar_init_run. cbn [hooks calls AppSidebar.entryUid
      AppSidebar.contentType AppSidebar.stackAPI].
    split; [|exact Hnone]. apply unusable_leaves_a_cell_empty.
    cbn [SidebarForm.is_usable_answer] in Hev. now destruct (SidebarForm.usable parentWindow).
Qed.

End Sent.

(** ** Validation in the other two revisions *)

Lemma venus_fails_iff (data : AppVenus.FormValues) :
  passes AppVenus.formSchema data = false <->
  none_selected_env (AppVenus.environments data)
  \/ none_selected_locale (AppVenus.locales data)
  \/ label (AppVenus.variant data) = "" \/ value (AppVenus.variant data) = ""
  \/ AppVenus.entryUid data = "" \/ AppVenus.contentType data = "".
Proof.
  rewrite fails_iff_issue, venus_issues. unfold variant_issues.
  rewrite <- some_selected_env_false, <- some_selected_locale_false.
  rewrite <- !length_zero_iff_empty.
  destruct (some_selected (AppVenus.environments data)),
           (some_selected (AppVenus.locales data)),
           (Nat.ltb (String.length (label (AppVenus.variant data))) 1),
           (Nat.ltb (String.length (value (AppVenus.variant data))) 1),
           (Nat.ltb (String.length (AppVenus.entryUid data)) 1),
           (Nat.ltb (String.length (AppVenus.contentType data)) 1);
    cbn; split; intro Hs; try congruence; auto 7;
    repeat (destruct Hs as [Hs|Hs]; try discriminate).
Qed.

Lemma sidebar_fails_iff (data : AppSidebar.FormValues) :
  passes AppSidebar.formSchema data = false <->
  none_selected_env (AppSidebar.environments data)
  \/ none_selected_locale (AppSidebar.locales data)
  \/ label (AppSidebar.variant data) = "" \/ value (AppSidebar.variant data) = "".
Proof.
  rewrite fails_iff_issue, sidebar_issues. unfold variant_issues.
  rewrite <- some_selected_env_false, <- some_selected_locale_false.
  rewrite <- !length_zero_iff_empty.
  destruct (some_selected (AppSidebar.environments data)),
           (some_selected (AppSidebar.locales data)),
           (Nat.ltb (String.length (label (AppSidebar.variant data))) 1),
           (Nat.ltb (String.length (value (AppSidebar.variant data))) 1);
    cbn; split; intro Hs; try congruence; auto 7;
    repeat (destruct Hs as [Hs|Hs]; try discriminate).
Qed.

(** X1: in the second revision of src/src/App.tsx a click fails validation
    if and only if no environment is ticked, or no locale is ticked, or the
    label or the value of the variant is empty, or the entry uid or the
    content type is empty.  A failing click opens no tab and shows
    "Variant is required" under the variant exactly when its label or its
    value is empty: once, also when both are. *)
Theorem venus_submit_fails_iff_a_field_is_missing {P : Platform}
  (w : World AppVenus.FormValues unit) :
  let data := formValues w in
  let after := run AppVenus.handleButtonClick w in
  let trace := click_trace AppVenus.handleButtonClick w in
  (passes AppVenus.formSchema data = false <->
     none_selected_env (AppVenus.environments data)
     \/ none_selected_locale (AppVenus.locales data)
     \/ label (AppVenus.variant data) = "" \/ value (AppVenus.variant data) = ""
     \/ AppVenus.entryUid data = "" \/ AppVenus.contentType data = "")
  /\ (passes AppVenus.formSchema data = false ->
        formErrors after <> [] /\ window_opens trace = []
        /\ (label (AppVenus.variant data) = "" \/ value (AppVenus.variant data) = "" <->
              FormHelperText (formErrors after) "variant"
              = HelperText (Some "Variant is required"))
        /\ (AppVenus.entryUid data = "" <->
              FormHelperText (formErrors after) "entryUid"
              = HelperText (Some "Entry UID is required"))).
Proof.
  cbv zeta. split; [apply venus_fails_iff|].
  intros Hf. rewrite (venus_trace_invalid w Hf).
  pose proof Hf as Hi. apply fails_iff_issue in Hi.
  rewrite (venus_click_invalid w Hi). cbn [formErrors].
  rewrite venus_issues in Hi |- *. unfold variant_issues in Hi |- *.
  rewrite <- !length_zero_iff_empty.
  destruct (some_selected (AppVenus.environments (formValues w))),
           (some_selected (AppVenus.locales (formValues w))),
           (Nat.ltb (String.length (label (AppVenus.variant (formValues w)))) 1),
           (Nat.ltb (String.length (value (AppVenus.variant (formValues w)))) 1),
           (Nat.ltb (String.length (AppVenus.entryUid (formValues w))) 1),
           (Nat.ltb (String.length (AppVenus.contentType (formValues w))) 1);
    cbn in Hi |- *; try congruence;
    (split; [discriminate|]); (split; [reflexivity|]);
    repeat split; intro Hs; try reflexivity; try discriminate; auto;
    destruct Hs; discriminate.
Qed.

(** X2: in the sidebar revision the schema checks the two groups of boxes
    and the variant only: a form fails if and only if no environment is
    ticked, or no locale is ticked, or the label or the value of the variant
    is empty.  With the host values present a failing click opens no tab,
    sets a non-empty inline error list and raises no alert. *)
Theorem sidebar_submit_fails_iff_a_field_is_missing {P : Platform}
  (w : World AppSidebar.FormValues AppSidebar.HostState) :
  let data := formValues w in
  let after := run AppSidebar.handleButtonClick w in
  let trace := click_trace AppSidebar.handleButtonClick w in
  (passes AppSidebar.formSchema data = false <->
     none_selected_env (AppSidebar.environments data)
     \/ none_selected_locale (AppSidebar.locales data)
     \/ label (AppSidebar.variant data) = "" \/ value (AppSidebar.variant data) = "")
  /\ (AppSidebar.entryUid (hooks w) <> "" /\ AppSidebar.contentType (hooks w) <> ""
      /\ AppSidebar.stackAPI (hooks w) <> "" ->
      passes AppSidebar.formSchema data = false ->
      formErrors after <> [] /\ window_opens trace = [] /\ alerts trace = []
      /\ (label (AppSidebar.variant data) = "" \/ value (AppSidebar.variant data) = "" <->
            FormHelperText (formErrors after) "variant"
            = HelperText (Some "Variant is required"))).
Proof.
  cbv zeta. split; [apply sidebar_fails_iff|].
  intros Hg Hf. rewrite (sidebar_trace_invalid w Hg Hf).
  pose proof Hf as Hi. apply fails_iff_issue in Hi.
  rewrite (sidebar_click_invalid w Hg Hi). cbn [formErrors].
  rewrite sidebar_issues in Hi |- *. unfold variant_issues in Hi |- *.
  rewrite <- !length_zero_iff_empty.
  destruct (some_selected (AppSidebar.environments (formValues w))),
           (some_selected (AppSidebar.locales (formValues w))),
           (Nat.ltb (String.length (label (AppSidebar.variant (formValues w)))) 1),
           (Nat.ltb (String.length (value (AppSidebar.variant (formValues w)))) 1);
    cbn in Hi |- *; try congruence;
    (split; [discriminate|]); (split; [reflexivity|]); (split; [reflexivity|]);
    split; intro Hs; try reflexivity; try discriminate; auto;
    destruct Hs; discriminate.
Qed.

(** ** A click and the list it finds *)

(** X3: a click on Submit replaces the inline error list by the list of the
    issues of the values the form holds, one entry per issue in the order of
    the schema (the empty list when there is none), whatever the list held
    before; so a second click changes nothing in it.  In the sidebar
    revision this holds with the host values present; without them the click
    leaves the list as it was. *)
Theorem click_sets_errors_to_current_issues {P : Platform} :
  (forall w : World AppMui.FormValues unit,
     let after := run AppMui.handleButtonClick w in
     formErrors after = map errorMessage (AppMui.formSchema [] (formValues w))
     /\ formErrors (run AppMui.handleButtonClick after) = formErrors after)
  /\ (forall w : World AppVenus.FormValues unit,
     let after := run AppVenus.handleButtonClick w in
     formErrors after = map errorMessage (AppVenus.formSchema [] (formValues w))
     /\ formErrors (run AppVenus.handleButtonClick after) = formErrors after)
  /\ (forall w : World AppSidebar.FormValues AppSidebar.HostState,
     let after := run AppSidebar.handleButtonClick w in
     (AppSidebar.entryUid (hooks w) <> "" /\ AppSidebar.contentType (hooks w) <> ""
      /\ AppSidebar.stackAPI (hooks w) <> "" ->
      formErrors after = map errorMessage (AppSidebar.formSchema [] (formValues w)))
     /\ (AppSidebar.entryUid (hooks w) = "" \/ AppSidebar.contentType (hooks w) = ""
         \/ AppSidebar.stackAPI (hooks w) = "" ->
         formErrors after = formErrors w)
     /\ formErrors (run AppSidebar.handleButtonClick after) = formErrors after).
Proof.
  split; [|split].
  - intros w. cbv zeta. destruct (mui_click_errors w) as (He & Hv).
    split; [exact He|].
    destruct (mui_click_errors (run AppMui.handleButtonClick w)) as (He' & _).
    rewrite He', Hv, He. reflexivity.
  - intros w. cbv zeta. destruct (venus_click_errors w) as (He & Hv).
    split; [exact He|].
    destruct (venus_click_errors (run AppVenus.handleButtonClick w)) as (He' & _).
    rewrite He', Hv, He. reflexivity.
  - intros w. cbv zeta.
    split; [intros Hg; apply (sidebar_click_errors w Hg)|].
    split; [intros Hb; now rewrite (sidebar_click_blocked w Hb)|].
    destruct (host_ready_or_missing (hooks w)) as [Hg|Hb].
    + destruct (sidebar_click_errors w Hg) as (He & Hv).
      assert (Hh : hooks (run AppSidebar.handleButtonClick w) = hooks w).
      { destruct (passes AppSidebar.formSchema (formValues w)) eqn:Hp.
        - apply passes_iff_no_issue in Hp. now rewrite (sidebar_click_valid w Hg Hp).
        - apply fails_iff_issue in Hp. now rewrite (sidebar_click_invalid w Hg Hp). }
      assert (Hg' : AppSidebar.entryUid (hooks (run AppSidebar.handleButtonClick w)) <> ""
                    /\ AppSidebar.contentType (hooks (run AppSidebar.handleButtonClick w))
                       <> ""
                    /\ AppSidebar.stackAPI (hooks (run AppSidebar.handleButtonClick w))
                       <> "") by now rewrite Hh.
      destruct (sidebar_click_errors _ Hg') as (He' & _).
      rewrite He', Hv, He. reflexivity.
    + rewrite (sidebar_click_blocked w Hb).
      rewrite sidebar_click_blocked by exact Hb. reflexivity.
Qed.

(** ** The message under a field *)

Lemma shown_message_find (errors : list FormError) (field : string) :
  shown_message (FormHelperText errors field)
  = option_map message
      (find (fun error => strict_eqb (path error) (Some field)) errors).
Proof.
  unfold FormHelperText. destruct errors as [|e errors]; [reflexivity|].
  cbn [List.length Nat.ltb Nat.leb].
  destruct (find _ (e :: errors)); reflexivity.
Qed.

Lemma find_after_filter {A : Type} (p q : A -> bool) (l : list A) :
  (forall x, p x = true -> q x = true) -> find p (filter q l) = find p l.
Proof.
  intros Hpq. induction l as [|x l IH]; [reflexivity|]. cbn [filter find].
  destruct (q x) eqn:Hq; cbn [find].
  - now rewrite IH.
  - destruct (p x) eqn:Hp; [|exact IH]. rewrite (Hpq x Hp) in Hq. discriminate.
Qed.

Lemma find_filtered_out {A : Type} (p q : A -> bool) (l : list A) :
  (forall x, p x = true -> q x = false) -> find p (filter q l) = None.
Proof.
  intros Hpq. induction l as [|x l IH]; [reflexivity|]. cbn [filter].
  destruct (q x) eqn:Hq; [|exact IH]. cbn [find].
  destruct (p x) eqn:Hp; [|exact IH]. rewrite (Hpq x Hp) in Hq. discriminate.
Qed.

Lemma filtered_field_not_shown (errors : list FormError) (field : string) :
  shown_message (FormHelperText (filter (keeps_other_fields field) errors) field) = None.
Proof.
  rewrite shown_message_find, find_filtered_out; [reflexivity|].
  intros e He. unfold keeps_other_fields. now rewrite He.
Qed.

Lemma filtered_other_field_shown (errors : list FormError) (field other : string) :
  other <> field ->
  shown_message (FormHelperText (filter (keeps_other_fields field) errors) other)
  = shown_message (FormHelperText errors other).
Proof.
  intros Hne. rewrite !shown_message_find, find_after_filter; [reflexivity|].
  intros e He. apply strict_eqb_eq in He. unfold keeps_other_fields.
  destruct (strict_eqb (path e) (Some field)) eqn:Hf; [|reflexivity].
  apply strict_eqb_eq in Hf. congruence.
Qed.

(** X4: after [handleFieldChange] no message is shown under the field that
    changed, and under every other field the message shown is the one that
    was shown before. *)
Theorem field_change_clears_only_its_message {P : Platform} {V X : Type}
  (fieldName : string) (w : World V X) :
  let after := run (handleFieldChange fieldName) w in
  shown_message (FormHelperText (formErrors after) fieldName) = None
  /\ (forall other : string,
        other <> fieldName ->
        shown_message (FormHelperText (formErrors after) other)
        = shown_message (FormHelperText (formErrors w) other)).
Proof.
  cbv zeta. destruct w as [v errs h r c].
  unfold run, handleFieldChange, setFormErrors_from. cbn [snd formErrors].
  split.
  - apply (filtered_field_not_shown errs fieldName).
  - intros other Hne. apply (filtered_other_field_shown errs fieldName other Hne).
Qed.

(** X4 on the sample list: the message of the environments goes, the one of
    the variant stays. *)
Lemma field_change_clears_only_its_message_witness :
  shown_message
    (FormHelperText (formErrors (run (handleFieldChange "environments") mui_ready))
                    "variant")
  = Some "Please select a variant".
Proof.
  destruct (@field_change_clears_only_its_message stub_platform _ _
              "environments" mui_ready) as (_ & Hother).
  rewrite (Hother "variant"); [reflexivity | discriminate].
Defined.

(** ** Edits *)

Lemma filter_comm {A : Type} (p q : A -> bool) (l : list A) :
  filter p (filter q l) = filter q (filter p l).
Proof.
  induction l as [|x l IH]; [reflexivity|]. cbn [filter].
  destruct (p x) eqn:Hp, (q x) eqn:Hq; cbn [filter]; rewrite ?Hp, ?Hq, IH; reflexivity.
Qed.

(** X5: two edits of different controls give the same form, with the same
    inline errors, in either order; only two edits of the same control
    depend on their order. *)
Theorem edits_of_different_controls_commute {P : Platform} :
  (forall (e1 e2 : MuiForm.Input) (w : World AppMui.FormValues unit),
     MuiForm.name e1 <> MuiForm.name e2 ->
     run (MuiForm.onChange e2) (run (MuiForm.onChange e1) w)
     = run (MuiForm.onChange e1) (run (MuiForm.onChange e2) w))
  /\ (forall (e1 e2 : VenusForm.Input) (w : World AppVenus.FormValues unit),
     VenusForm.name e1 <> VenusForm.name e2 ->
     run (VenusForm.onChange e2) (run (VenusForm.onChange e1) w)
     = run (VenusForm.onChange e1) (run (VenusForm.onChange e2) w))
  /\ (forall (e1 e2 : SidebarForm.Input)
             (w : World AppSidebar.FormValues AppSidebar.HostState),
     SidebarForm.name e1 <> SidebarForm.name e2 ->
     run (SidebarForm.onChange e2) (run (SidebarForm.onChange e1) w)
     = run (SidebarForm.onChange e1) (run (SidebarForm.onChange e2) w)).
Proof.
  split; [|split].
  - intros e1 e2 w Hne. rewrite !mui_change_run. cbn [formValues formErrors hooks rng calls].
    rewrite (filter_comm (keeps_other_fields (MuiForm.fieldName e2))).
    f_equal.
    destruct e1 as [[] ?|[] ?| | |], e2 as [[] ?|[] ?| | |];
      cbn in Hne |- *; try reflexivity; congruence.
  - intros e1 e2 w Hne. rewrite !venus_change_run.
    cbn [formValues formErrors hooks rng calls].
    rewrite (filter_comm (keeps_other_fields (VenusForm.fieldName e2))).
    f_equal.
    destruct e1 as [[] ?|[] ?| | |], e2 as [[] ?|[] ?| | |];
      cbn in Hne |- *; try reflexivity; congruence.
  - intros e1 e2 w Hne. rewrite !sidebar_change_run.
    cbn [formValues formErrors hooks rng calls].
    rewrite (filter_comm (keeps_other_fields (SidebarForm.fieldName e2))).
    f_equal.
    destruct e1 as [[] ?|[] ?|], e2 as [[] ?|[] ?|];
      cbn in Hne |- *; try reflexivity; congruence.
Qed.

(** X6: an edit of a control adds nothing to the history of calls (it does
    not validate, serialize, encrypt, log, alert or open a tab), leaves the
    host cells and the random source alone, changes no value outside the
    group of the control, and removes the message shown under that group,
    whether or not the new value is valid. *)
Theorem edit_touches_only_its_group {P : Platform} :
  (forall (e : MuiForm.Input) (w : World AppMui.FormValues unit),
     let after := run (MuiForm.onChange e) w in
     let group := MuiForm.fieldName e in
     calls after = calls w /\ hooks after = hooks w /\ rng after = rng w
     /\ (group <> "environments" ->
         AppMui.environments (formValues after) = AppMui.environments (formValues w))
     /\ (group <> "locales" ->
         AppMui.locales (formValues after) = AppMui.locales (formValues w))
     /\ (group <> "variant" ->
         AppMui.variant (formValues after) = AppMui.variant (formValues w))
     /\ (group <> "entryUid" ->
         AppMui.entryUid (formValues after) = AppMui.entryUid (formValues w))
     /\ (group <> "contentType" ->
         AppMui.contentType (formValues after) = AppMui.contentType (formValues w))
     /\ shown_message (FormHelperText (formErrors after) group) = None)
  /\ (forall (e : VenusForm.Input) (w : World AppVenus.FormValues unit),
     let after := run (VenusForm.onChange e) w in
     let group := VenusForm.fieldName e in
     calls after = calls w /\ hooks after = hooks w /\ rng after = rng w
     /\ (group <> "environments" ->
         AppVenus.environments (formValues after) = AppVenus.environments (formValues w))
     /\ (group <> "locales" ->
         AppVenus.locales (formValues after) = AppVenus.locales (formValues w))
     /\ (group <> "variant" ->
         AppVenus.variant (formValues after) = AppVenus.variant (formValues w))
     /\ (group <> "entryUid" ->
         AppVenus.entryUid (formValues after) = AppVenus.entryUid (formValues w))
     /\ (group <> "contentType" ->
         AppVenus.contentType (formValues after) = AppVenus.contentType (formValues w))
     /\ shown_message (FormHelperText (formErrors after) group) = None)
  /\ (forall (e : SidebarForm.Input)
             (w : World AppSidebar.FormValues AppSidebar.HostState),
     let after := run (SidebarForm.onChange e) w in
     let group := SidebarForm.fieldName e in
     calls after = calls w /\ hooks after = hooks w /\ rng after = rng w
     /\ (group <> "environments" ->
         AppSidebar.environments (formValues after)
         = AppSidebar.environments (formValues w))
     /\ (group <> "locales" ->
         AppSidebar.locales (formValues after) = AppSidebar.locales (formValues w))
     /\ (group <> "variant" ->
         AppSidebar.variant (formValues after) = AppSidebar.variant (formValues w))
     /\ shown_message (FormHelperText (formErrors after) group) = None).
Proof.
  split; [|split].
  - intros e w. cbv zeta. rewrite mui_change_run.
    cbn [formValues formErrors hooks rng calls].
    repeat (split; [try reflexivity; destruct e; cbn; intros Hne; congruence|]).
    apply filtered_field_not_shown.
  - intros e w. cbv zeta. rewrite venus_change_run.
    cbn [formValues formErrors hooks rng calls].
    repeat (split; [try reflexivity; destruct e; cbn; intros Hne; congruence|]).
    apply filtered_field_not_shown.
  - intros e w. cbv zeta. rewrite sidebar_change_run.
    cbn [formValues formErrors hooks rng calls].
    repeat (split; [try reflexivity; destruct e; cbn; intros Hne; congruence|]).
    apply filtered_field_not_shown.
Qed.

(** ** What was sent *)

(** X10: over the whole life of the component, every URL it opens is opened
    in a new tab and is the address of the tool followed by [btoa] of the
    encryption, under the shared secret, of the serialized selections of a
    form that passed validation (in the sidebar revision with the three host
    values non-empty); the two revisions of src/src/App.tsx never show a
    dialog, and the sidebar revision shows no other dialog than the one of
    the missing host values. *)
Theorem only_validated_payloads_are_sent {P : Platform} (seed : Rng) :
  (forall (events : list MuiForm.Event) (url target : string),
     In (WindowOpen url target) (calls (play MuiForm.handle events (MuiForm.mounted seed))) ->
     target = "_blank"
     /\ exists (data : AppMui.FormValues) (source : Rng),
          passes AppMui.formSchema data = true
          /\ url = "https://demo-graph.contentstackapps.com?data="
                     ++ btoa (fst (AES_encrypt (JSON_stringify (AppMui.result data))
                                     VITE_APP_ENCRYPT_SECRET source)))
  /\ (forall events : list MuiForm.Event,
        alerts (calls (play MuiForm.handle events (MuiForm.mounted seed))) = [])
  /\ (forall (events : list VenusForm.Event) (url target : string),
     In (WindowOpen url target)
        (calls (play VenusForm.handle events (VenusForm.mounted seed))) ->
     target = "_blank"
     /\ exists (data : AppVenus.FormValues) (source : Rng),
          passes AppVenus.formSchema data = true
          /\ url = "https://demo-graph.contentstackapps.com?data="
                     ++ btoa (fst (AES_encrypt (JSON_stringify (AppVenus.result data))
                                     VITE_APP_ENCRYPT_SECRET source)))
  /\ (forall events : list VenusForm.Event,
        alerts (calls (play VenusForm.handle events (VenusForm.mounted seed))) = [])
  /\ (forall (events : list SidebarForm.Event) (url target : string),
     In (WindowOpen url target)
        (calls (play SidebarForm.handle events (SidebarForm.mounted seed))) ->
     target = "_blank"
     /\ exists (data : AppSidebar.FormValues) (host : AppSidebar.HostState)
               (source : Rng),
          passes AppSidebar.formSchema data = true
          /\ AppSidebar.entryUid host <> "" /\ AppSidebar.contentType host <> ""
          /\ AppSidebar.stackAPI host <> ""
          /\ url = "https://demo-graph-refactored.contentstackapps.com/?data="
                     ++ btoa (fst (AES_encrypt
                                     (JSON_stringify (AppSidebar.result data host))
                                     VITE_APP_ENCRYPT_SECRET source)))
  /\ (forall (events : list SidebarForm.Event) (text : string),
        In text (alerts (calls (play SidebarForm.handle events (SidebarForm.mounted seed)))) ->
        text = "Entry Uid or Content type or Stack API could not be retrieved").
Proof.
  assert (Hm : forall events,
             mui_history_sound (play MuiForm.handle events (MuiForm.mounted seed))).
  { intros events. apply (play_invariant MuiForm.handle mui_history_sound).
    - apply mui_step_sound.
    - split; [intros url target []|reflexivity]. }
  assert (Hv : forall events,
             venus_history_sound (play VenusForm.handle events (VenusForm.mounted seed))).
  { intros events. apply (play_invariant VenusForm.handle venus_history_sound).
    - apply venus_step_sound.
    - split; [intros url target []|reflexivity]. }
  assert (Hs : forall events,
             sidebar_history_sound
               (play SidebarForm.handle events (SidebarForm.mounted seed))).
  { intros events. apply (play_invariant SidebarForm.handle sidebar_history_sound).
    - apply sidebar_step_sound.
    - split; [intros url target []|intros text []]. }
  split; [|split; [|split; [|split; [|split]]]].
  - intros events. apply (Hm events).
  - intros events. apply (Hm events).
  - intros events. apply (Hv events).
  - intros events. apply (Hv events).
  - intros events. apply (Hs events).
  - intros events. apply (Hs events).
Qed.

(** X12: in the sidebar revision, as long as the host has not answered with
    a context that gives all three values, no sequence of clicks and edits
    opens a tab, and one of the three cells is still empty. *)
Theorem sidebar_no_tab_before_usable_answer {P : Platform} (seed : Rng)
  (events : list SidebarForm.Event) :
  forallb (fun ev => negb (SidebarForm.is_usable_answer ev)) events = true ->
  let w := play SidebarForm.handle events (SidebarForm.mounted seed) in
  window_opens (calls w) = []
  /\ (AppSidebar.entryUid (hooks w) = "" \/ AppSidebar.contentType (hooks w) = ""
      \/ AppSidebar.stackAPI (hooks w) = "").
Proof.
  intros Hall. cbv zeta.
  pose proof (play_invariant_on SidebarForm.handle
                (fun w => (AppSidebar.entryUid (hooks w) = ""
                           \/ AppSidebar.contentType (hooks w) = ""
                           \/ AppSidebar.stackAPI (hooks w) = "")
                          /\ window_opens (calls w) = [])
                (fun ev => negb (SidebarForm.is_usable_answer ev))
                (fun ev w Hev Hw => sidebar_step_blocked ev w Hev Hw)
                events (SidebarForm.mounted seed) Hall) as Hinv.
  destruct Hinv as (Hb & Hnone); [split; [left; reflexivity | reflexivity]|].
  split; assumption.
Qed.

(** ** What a payload holds *)

Lemma ticked_environments_nonempty (e : Environments) :
  ~ none_selected_env e -> ticked_environments e <> [].
Proof.
  unfold none_selected_env. destruct e as [[] [] []]; cbn; intros Hn; try discriminate.
  exfalso. apply Hn. repeat split.
Qed.

Lemma ticked_locales_nonempty (l : Locales) :
  ~ none_selected_locale l -> ticked_locales l <> [].
Proof.
  unfold none_selected_locale. destruct l as [[] [] []]; cbn; intros Hn; try discriminate.
  exfalso. apply Hn. repeat split.
Qed.

Lemma not_or_4 (A B C D : Prop) : ~ (A \/ B \/ C \/ D) -> ~ A /\ ~ B /\ ~ C /\ ~ D.
Proof. tauto. Qed.

Lemma not_or_6 (A B C D E F : Prop) :
  ~ (A \/ B \/ C \/ D \/ E \/ F) -> ~ A /\ ~ B /\ ~ C /\ ~ D /\ ~ E /\ ~ F.
Proof. tauto. Qed.

Lemma venus_passes_fields (data : AppVenus.FormValues) :
  passes AppVenus.formSchema data = true ->
  ~ none_selected_env (AppVenus.environments data)
  /\ ~ none_selected_locale (AppVenus.locales data)
  /\ label (AppVenus.variant data) <> "" /\ value (AppVenus.variant data) <> ""
  /\ AppVenus.entryUid data <> "" /\ AppVenus.contentType data <> "".
Proof.
  intros Hp. apply not_or_6. intros Hbad. apply venus_fails_iff in Hbad. congruence.
Qed.

Lemma sidebar_passes_fields (data : AppSidebar.FormValues) :
  passes AppSidebar.formSchema data = true ->
  ~ none_selected_env (AppSidebar.environments data)
  /\ ~ none_selected_locale (AppSidebar.locales data)
  /\ label (AppSidebar.variant data) <> "" /\ value (AppSidebar.variant data) <> "".
Proof.
  intros Hp. apply not_or_4. intros Hbad. apply sidebar_fails_iff in Hbad. congruence.
Qed.

(** X13: whenever a click opens a tab, the payload it has serialized is
    complete: its [environments] and [locales] arrays are not empty, and the
    variant, the entry uid and the content type (and, in the sidebar
    revision, the stack key) are not empty strings. *)
Theorem opened_payload_is_complete {P : Platform} :
  (forall (w : World AppMui.FormValues unit) (url target : string),
     In (WindowOpen url target) (click_trace AppMui.handleButtonClick w) ->
     let data := formValues w in
     In (JsonStringify (AppMui.result data)) (click_trace AppMui.handleButtonClick w)
     /\ ticked_environments (AppMui.environments data) <> []
     /\ ticked_locales (AppMui.locales data) <> []
     /\ AppMui.variant data <> "" /\ AppMui.entryUid data <> ""
     /\ AppMui.contentType data <> "")
  /\ (forall (w : World AppVenus.FormValues unit) (url target : string),
     In (WindowOpen url target) (click_trace AppVenus.handleButtonClick w) ->
     let data := formValues w in
     In (JsonStringify (AppVenus.result data)) (click_trace AppVenus.handleButtonClick w)
     /\ ticked_environments (AppVenus.environments data) <> []
     /\ ticked_locales (AppVenus.locales data) <> []
     /\ label (AppVenus.variant data) <> "" /\ value (AppVenus.variant data) <> ""
     /\ AppVenus.entryUid data <> "" /\ AppVenus.contentType data <> "")
  /\ (forall (w : World AppSidebar.FormValues AppSidebar.HostState) (url target : string),
     In (WindowOpen url target) (click_trace AppSidebar.handleButtonClick w) ->
     let data := formValues w in
     In (JsonStringify (AppSidebar.result data (hooks w)))
        (click_trace AppSidebar.handleButtonClick w)
     /\ ticked_environments (AppSidebar.environments data) <> []
     /\ ticked_locales (AppSidebar.locales data) <> []
     /\ label (AppSidebar.variant data) <> "" /\ value (AppSidebar.variant data) <> ""
     /\ AppSidebar.entryUid (hooks w) <> "" /\ AppSidebar.contentType (hooks w) <> ""
     /\ AppSidebar.stackAPI (hooks w) <> "").
Proof.
  split; [|split].
  - intros w url target Hin. cbv zeta.
    destruct (mui_opened_url w url target Hin) as (Hp & _).
    split; [rewrite (mui_trace_valid w Hp); cbn [In]; auto 10|].
    apply mui_passes_iff in Hp. destruct Hp as (He & Hl & Hrest).
    split; [now apply ticked_environments_nonempty|].
    split; [now apply ticked_locales_nonempty | exact Hrest].
  - intros w url target Hin. cbv zeta.
    destruct (venus_opened_url w url target Hin) as (Hp & _).
    split; [rewrite (venus_trace_valid w Hp); cbn [In]; auto 10|].
    apply venus_passes_fields in Hp. destruct Hp as (He & Hl & Hrest).
    split; [now apply ticked_environments_nonempty|].
    split; [now apply ticked_locales_nonempty | exact Hrest].
  - intros w url target Hin. cbv zeta.
    destruct (sidebar_opened_url w url target Hin) as (Hp & Hg & _).
    split; [rewrite (sidebar_trace_valid w Hg Hp); cbn [In]; auto 10|].
    apply sidebar_passes_fields in Hp. destruct Hp as (He & Hl & Hlabel & Hvalue).
    split; [now apply ticked_environments_nonempty|].
    split; [now apply ticked_locales_nonempty|]. tauto.
Qed.

(** ** The characters of the data parameter *)

Lemma b64_char_is_base64 (n : N) : (n < 64)%N -> is_base64_char (b64_char n) = true.
Proof.
  intros Hn. destruct n as [|p]; [reflexivity|].
  do 6 (try destruct p as [p|p|]); try reflexivity; exfalso; lia.
Qed.

Ltac base64_chars :=
  repeat match goal with
  | |- context [is_base64_char (b64_char ?n)] =>
      rewrite (b64_char_is_base64 n) by (zify; Z.to_euclidean_division_equations; lia)
  end.

Lemma btoa_chars_below (n : nat) :
  forall s : string,
    (String.length s < n)%nat -> all_chars is_base64_char (btoa s) = true.
Proof.
  induction n as [|n IH]; intros s Hlen; [lia|].
  destruct s as [|a [|b [|c rest]]]; [reflexivity| | |].
  - pose proof (N_of_ascii_bound a) as Ha.
    cbn [btoa all_chars]. base64_chars. reflexivity.
  - pose proof (N_of_ascii_bound a) as Ha. pose proof (N_of_ascii_bound b) as Hb.
    cbn [btoa all_chars]. base64_chars. reflexivity.
  - pose proof (N_of_ascii_bound a) as Ha. pose proof (N_of_ascii_bound b) as Hb.
    pose proof (N_of_ascii_bound c) as Hc.
    cbn [btoa all_chars]. base64_chars.
    rewrite IH by (cbn [String.length] in Hlen; lia). reflexivity.
Qed.

Lemma btoa_chars (s : string) : all_chars is_base64_char (btoa s) = true.
Proof. apply (btoa_chars_below (S (String.length s))). lia. Qed.

(** X14: in every URL the component opens, the text after [?data=] is made
    of the sixty-four Base64 characters and [=] only, whatever the user has
    typed and whatever the cipher text is: none of the characters that end
    or split a query ([&], [#], space) is among them. *)
Theorem data_parameter_is_base64_text {P : Platform} :
  (forall (w : World AppMui.FormValues unit) (url target : string),
     In (WindowOpen url target) (click_trace AppMui.handleButtonClick w) ->
     exists parameter : string,
       url = "https://demo-graph.contentstackapps.com?data=" ++ parameter
       /\ all_chars is_base64_char parameter = true)
  /\ (forall (w : World AppVenus.FormValues unit) (url target : string),
     In (WindowOpen url target) (click_trace AppVenus.handleButtonClick w) ->
     exists parameter : string,
       url = "https://demo-graph.contentstackapps.com?data=" ++ parameter
       /\ all_chars is_base64_char parameter = true)
  /\ (forall (w : World AppSidebar.FormValues AppSidebar.HostState) (url target : string),
     In (WindowOpen url target) (click_trace AppSidebar.handleButtonClick w) ->
     exists parameter : string,
       url = "https://demo-graph-refactored.contentstackapps.com/?data=" ++ parameter
       /\ all_chars is_base64_char parameter = true)
  /\ map is_base64_char ["&"; "#"; " "; "?"; "%"]%char = [false; false; false; false; false].
Proof.
  split; [|split; [|split]].
  - intros w url target Hin. destruct (mui_opened_url w url target Hin) as (_ & -> & _).
    eexists. split; [reflexivity | apply btoa_chars].
  - intros w url target Hin. destruct (venus_opened_url w url target Hin) as (_ & -> & _).
    eexists. split; [reflexivity | apply btoa_chars].
  - intros w url target Hin.
    destruct (sidebar_opened_url w url target Hin) as (_ & _ & -> & _).
    eexists. split; [reflexivity | apply btoa_chars].
  - reflexivity.
Qed.

(** ** String literals of the payload *)

Lemma unquote_quote_char (c : ascii) (rest : string) :
  unquote_chars (quote_char c ++ rest)
  = option_map (fun r => (String c (fst r), snd r)) (unquote_chars rest).
Proof.
  destruct c as [[] [] [] [] [] [] [] []]; reflexivity.
Qed.

Lemma unquote_quote_chars (s rest : string) :
  unquote_chars (quote_chars s ++ dquote ++ rest) = Some (s, rest).
Proof.
  induction s as [|c s IH]; [reflexivity|].
  cbn [quote_chars]. rewrite append_assoc, unquote_quote_char, IH. reflexivity.
Qed.

(** X15: a string written by [JSON.stringify] reads back as the string it
    was made from, followed by the text that came after it: whatever the
    user types in a field (quotes, backslashes, control characters), the
    literal ends where it should and holds the typed text. *)
Theorem json_string_literal_reads_back (s rest : string) :
  JSON_unquote (JSON_stringify (JString s) ++ rest) = Some (s, rest).
Proof.
  cbn [JSON_stringify]. unfold QuoteJSONString, JSON_unquote.
  rewrite !append_assoc. cbn [dquote append].
  rewrite Ascii.eqb_refl. apply (unquote_quote_chars s rest).
Qed.

(** ** The properties above on the sample sessions *)

(** X7 after a click on the empty first form and one box ticked: the message
    under the locales is shown, and no locale is ticked. *)
Lemma mui_inline_errors_never_stale_witness :
  FormHelperText
    (formErrors (play MuiForm.handle mui_session_started (MuiForm.mounted stub_seed)))
    "locales"
  = HelperText (Some "Please select at least one locale")
  /\ none_selected_locale
       (AppMui.locales
          (formValues (play MuiForm.handle mui_session_started (MuiForm.mounted stub_seed)))).
Proof.
  split; [reflexivity|].
  destruct (@mui_inline_errors_never_stale stub_platform stub_seed mui_session_started)
    as (_ & _ & Hshown).
  destruct (Hshown "locales" "Please select at least one locale")
    as [(Hf & _)|[(_ & _ & Hnone)|[(Hf & _)|[(Hf & _)|(Hf & _)]]]];
    [reflexivity | discriminate Hf | exact Hnone | discriminate Hf | discriminate Hf
     | discriminate Hf].
Defined.

(** X8 at the end of the session that fills the second form in. *)
Lemma venus_inline_errors_never_stale_witness :
  formErrors (play VenusForm.handle venus_session_completed (VenusForm.mounted stub_seed))
  = [].
Proof.
  destruct (@venus_inline_errors_never_stale stub_platform stub_seed
              venus_session_completed) as (_ & Hvalid & _).
  apply Hvalid. reflexivity.
Defined.

(** X9 at the end of the session in which the host has answered. *)
Lemma sidebar_inline_errors_never_stale_witness :
  formErrors
    (play SidebarForm.handle sidebar_session_answered (SidebarForm.mounted stub_seed))
  = [].
Proof.
  destruct (@sidebar_inline_errors_never_stale stub_platform stub_seed
              sidebar_session_answered) as (_ & Hvalid & _).
  apply Hvalid. reflexivity.
Defined.

(** X1 on the empty second form. *)
Lemma venus_submit_fails_witness :
  window_opens (click_trace AppVenus.handleButtonClick venus_empty) = []
  /\ FormHelperText (formErrors (run AppVenus.handleButtonClick venus_empty)) "variant"
     = HelperText (Some "Variant is required").
Proof.
  destruct (@venus_submit_fails_iff_a_field_is_missing stub_platform venus_empty)
    as (_ & Hfail).
  destruct Hfail as (_ & Hnone & Hvariant & _); [reflexivity|].
  split; [exact Hnone|]. apply Hvariant. right. reflexivity.
Defined.

(** X2 on the empty sidebar form with the host values present. *)
Lemma sidebar_submit_fails_witness :
  window_opens (click_trace AppSidebar.handleButtonClick sidebar_ready_empty) = []
  /\ alerts (click_trace AppSidebar.handleButtonClick sidebar_ready_empty) = []
  /\ formErrors (run AppSidebar.handleButtonClick sidebar_ready_empty) <> [].
Proof.
  destruct (@sidebar_submit_fails_iff_a_field_is_missing stub_platform sidebar_ready_empty)
    as (_ & Hfail).
  destruct Hfail as (Hne & Hnone & Halerts & _);
    [repeat split; discriminate | reflexivity |].
  auto.
Defined.

(** X3 on the sidebar form: with the host values present the click empties
    the list of the valid form; without them the list stays. *)
Lemma click_sets_errors_witness :
  formErrors (run AppSidebar.handleButtonClick sidebar_ready) = []
  /\ formErrors (run AppSidebar.handleButtonClick sidebar_before_init)
     = formErrors sidebar_before_init
  /\ formErrors (run AppMui.handleButtonClick mui_ready) = [].
Proof.
  destruct (@click_sets_errors_to_current_issues stub_platform) as (Hm & _ & Hs).
  destruct (Hs sidebar_ready) as (Hready & _ & _).
  destruct (Hs sidebar_before_init) as (_ & Hblocked & _).
  destruct (Hm mui_ready) as (Hmui & _).
  split; [|split].
  - rewrite Hready; [reflexivity | repeat split; discriminate].
  - apply Hblocked. left. reflexivity.
  - rewrite Hmui. reflexivity.
Defined.

(** X5 on two boxes of the same group. *)
Lemma edits_commute_witness :
  run (MuiForm.onChange (MuiForm.environments_input staging_box true))
      (run (MuiForm.onChange (MuiForm.environments_input production_box false)) mui_ready)
  = run (MuiForm.onChange (MuiForm.environments_input production_box false))
        (run (MuiForm.onChange (MuiForm.environments_input staging_box true)) mui_ready).
Proof.
  destruct (@edits_of_different_controls_commute stub_platform) as (Hm & _).
  apply Hm. discriminate.
Defined.

(** X6 on an edit of the entry uid to the empty text: the other values
    stay, and the message of the entry uid is gone although the value is
    not valid. *)
Lemma edit_touches_only_its_group_witness :
  AppMui.environments
    (formValues (run (MuiForm.onChange (MuiForm.entryUid_input "")) mui_empty))
  = AppMui.environments AppMui.defaultValues
  /\ AppMui.entryUid
       (formValues (run (MuiForm.onChange (MuiForm.entryUid_input "")) mui_empty)) = ""
  /\ calls (run (MuiForm.onChange (MuiForm.entryUid_input "")) mui_empty) = [].
Proof.
  destruct (@edit_touches_only_its_group stub_platform) as (Hm & _).
  destruct (Hm (MuiForm.entryUid_input "") mui_empty) as (Hcalls & _ & _ & Henv & _).
  split; [apply Henv; discriminate|]. split; [reflexivity | exact Hcalls].
Defined.

(** X10 on the completed session of the first form: one tab was opened, in
    a new tab. *)
Lemma only_validated_payloads_witness :
  List.length
    (window_opens
       (calls (play MuiForm.handle mui_session_completed (MuiForm.mounted stub_seed))))
  = 1%nat
  /\ (forall url target,
        In (WindowOpen url target)
           (calls (play MuiForm.handle mui_session_completed (MuiForm.mounted stub_seed))) ->
        target = "_blank").
Proof.
  split; [reflexivity|]. intros url target Hin.
  destruct (@only_validated_payloads_are_sent stub_platform stub_seed) as (Hm & _).
  apply (Hm mui_session_completed url target Hin).
Defined.

(** X12 on the session in which the host gives no context. *)
Lemma sidebar_no_tab_witness :
  window_opens
    (calls (play SidebarForm.handle sidebar_session_unanswered
              (SidebarForm.mounted stub_seed))) = []
  /\ passes AppSidebar.formSchema
       (formValues (play SidebarForm.handle sidebar_session_unanswered
                      (SidebarForm.mounted stub_seed))) = true.
Proof.
  split; [|reflexivity].
  apply (@sidebar_no_tab_before_usable_answer stub_platform stub_seed
           sidebar_session_unanswered).
  reflexivity.
Defined.

(** X13 on the filled-in first form. *)
Lemma opened_payload_is_complete_witness :
  ticked_environments (AppMui.environments mui_filled) = ["production"; "development"]
  /\ ticked_environments (AppMui.environments (formValues mui_ready)) <> [].
Proof.
  split; [reflexivity|].
  destruct (@opened_payload_is_complete stub_platform) as (Hm & _).
  assert (Hin : In (WindowOpen
                      ("https://demo-graph.contentstackapps.com" ++ "?data="
                         ++ btoa ("U2FsdGVkX1" ++ "s3cret"
                                    ++ JSON_stringify (AppMui.result mui_filled)))
                      "_blank")
                   (click_trace AppMui.handleButtonClick mui_ready)).
  { vm_compute. auto 10. }
  destruct (Hm mui_ready _ _ Hin) as (_ & Henv & _). exact Henv.
Defined.

(** X14 on the URL opened for the filled-in first form. *)
Lemma data_parameter_is_base64_text_witness :
  exists parameter : string,
    "https://demo-graph.contentstackapps.com" ++ "?data="
      ++ btoa ("U2FsdGVkX1" ++ "s3cret" ++ JSON_stringify (AppMui.result mui_filled))
    = "https://demo-graph.contentstackapps.com?data=" ++ parameter
    /\ all_chars is_base64_char parameter = true.
Proof.
  destruct (@data_parameter_is_base64_text stub_platform) as (Hm & _).
  apply (Hm mui_ready _ "_blank"). vm_compute. auto 10.
Defined.

(** ** Reading the payload back *)

Lemma JSON_size_array (items : list JSON) :
  JSON_size (JArray items) = S (items_size items).
Proof. reflexivity. Qed.

Lemma JSON_size_object (members : list (string * JSON)) :
  JSON_size (JObject members) = S (members_size members).
Proof. reflexivity. Qed.

Lemma JSON_size_positive (v : JSON) : (1 <= JSON_size v)%nat.
Proof. destruct v; cbn [JSON_size]; lia. Qed.

Lemma read_digits_no_digit (rest : string) :
  no_digit_head rest = true -> read_digits rest = (Decimal.Nil, rest).
Proof.
  destruct rest as [|c rest]; [reflexivity|]. cbn [no_digit_head read_digits].
  destruct (digit_of c); [discriminate | reflexivity].
Qed.

Lemma read_digits_uint (d : Decimal.uint) (rest : string) :
  no_digit_head rest = true ->
  read_digits (NilEmpty.string_of_uint d ++ rest) = (d, rest).
Proof.
  intros Hrest.
  induction d as [|d IH|d IH|d IH|d IH|d IH|d IH|d IH|d IH|d IH|d IH];
    cbn [NilEmpty.string_of_uint append];
    [now apply read_digits_no_digit|..];
    cbn [read_digits digit_of]; rewrite IH; reflexivity.
Qed.

Lemma parse_number_uint (u : Decimal.uint) (rest : string) :
  u <> Decimal.Nil -> no_digit_head rest = true ->
  parse_number (NilEmpty.string_of_uint u ++ rest)
  = Some (JNumber (Z.of_int (Decimal.Pos u)), rest).
Proof.
  intros Hu Hrest. pose proof (read_digits_uint u rest Hrest) as Hread.
  destruct u; [congruence|..]; cbn [NilEmpty.string_of_uint append] in Hread |- *;
    unfold parse_number; cbn [Ascii.eqb Bool.eqb]; rewrite Hread; reflexivity.
Qed.

Lemma parse_number_toString (z : Z) (rest : string) :
  no_digit_head rest = true ->
  parse_number (Number_toString z ++ rest) = Some (JNumber z, rest).
Proof.
  intros Hrest. unfold Number_toString.
  rewrite <- (DecimalZ.of_to z) at 2.
  destruct z as [|p|p]; cbn [Z.to_int NilZero.string_of_int].
  - cbn. rewrite (read_digits_no_digit rest Hrest). reflexivity.
  - pose proof (DecimalPos.Unsigned.to_uint_nonnil p) as Hnil.
    replace (NilZero.string_of_uint (Pos.to_uint p))
      with (NilEmpty.string_of_uint (Pos.to_uint p))
      by (destruct (Pos.to_uint p); [congruence | reflexivity..]).
    now apply parse_number_uint.
  - pose proof (DecimalPos.Unsigned.to_uint_nonnil p) as Hnil.
    replace (NilZero.string_of_uint (Pos.to_uint p))
      with (NilEmpty.string_of_uint (Pos.to_uint p))
      by (destruct (Pos.to_uint p); [congruence | reflexivity..]).
    cbn [append]. unfold parse_number. cbn [Ascii.eqb Bool.eqb].
    rewrite (read_digits_uint _ rest Hrest).
    destruct (Pos.to_uint p); [congruence | reflexivity..].
Qed.

(** The first character of a number is a digit or the sign. *)
Lemma number_head (z : Z) :
  exists (c : ascii) (t : string),
    Number_toString z = String c t
    /\ Ascii.eqb c (ascii_of_N 34) = false /\ Ascii.eqb c "["%char = false
    /\ Ascii.eqb c "{"%char = false /\ Ascii.eqb c "]"%char = false
    /\ Ascii.eqb c "}"%char = false.
Proof.
  unfold Number_toString.
  destruct z as [|p|p]; cbn [Z.to_int NilZero.string_of_int].
  - do 2 eexists. split; [reflexivity|]. repeat split.
  - pose proof (DecimalPos.Unsigned.to_uint_nonnil p) as Hnil.
    destruct (Pos.to_uint p); [congruence|..];
      do 2 eexists; (split; [reflexivity|]); repeat split.
  - do 2 eexists. split; [reflexivity|]. repeat split.
Qed.

(** The first character of a value closes neither an array nor an object. *)
Lemma stringify_head (v : JSON) :
  exists (c : ascii) (t : string),
    JSON_stringify v = String c t
    /\ Ascii.eqb c "]"%char = false /\ Ascii.eqb c "}"%char = false.
Proof.
  destruct v as [s|z|items|members].
  - do 2 eexists. split; [reflexivity|]. split; reflexivity.
  - destruct (number_head z) as (c & t & Heq & _ & _ & _ & H1 & H2).
    exists c, t. auto.
  - do 2 eexists. split; [reflexivity|]. split; reflexivity.
  - do 2 eexists. split; [reflexivity|]. split; reflexivity.
Qed.

Lemma unquote_literal (s rest : string) :
  JSON_unquote (QuoteJSONString s ++ rest) = Some (s, rest).
Proof.
  unfold QuoteJSONString, JSON_unquote.
  rewrite !append_assoc. cbn [dquote append].
  rewrite Ascii.eqb_refl. apply (unquote_quote_chars s rest).
Qed.

Lemma parse_value_string (fuel : nat) (rest : string) :
  parse_value (S fuel) (String (ascii_of_N 34) rest)
  = option_map (fun r => (JString (fst r), snd r)) (unquote_chars rest).
Proof. reflexivity. Qed.

Lemma parse_value_number (fuel : nat) (s : string) (c : ascii) (t : string) :
  s = String c t ->
  Ascii.eqb c (ascii_of_N 34) = false -> Ascii.eqb c "["%char = false ->
  Ascii.eqb c "{"%char = false ->
  parse_value (S fuel) s = parse_number s.
Proof.
  intros -> H1 H2 H3. cbn [parse_value]. rewrite H1, H2, H3. reflexivity.
Qed.

Lemma parse_value_array (fuel : nat) (text : string) (c : ascii) (t : string) :
  text = String c t -> Ascii.eqb c "]"%char = false ->
  parse_value (S fuel) (String "["%char text)
  = option_map (fun r => (JArray (fst r), snd r)) (parse_items fuel text).
Proof.
  intros -> Hc. cbn [parse_value].
  change (Ascii.eqb "["%char (ascii_of_N 34)) with false.
  change (Ascii.eqb "["%char "["%char) with true. cbn iota.
  rewrite Hc. reflexivity.
Qed.

Lemma parse_value_object (fuel : nat) (text : string) (c : ascii) (t : string) :
  text = String c t -> Ascii.eqb c "}"%char = false ->
  parse_value (S fuel) (String "{"%char text)
  = option_map (fun r => (JObject (fst r), snd r)) (parse_members fuel text).
Proof.
  intros -> Hc. cbn [parse_value].
  change (Ascii.eqb "{"%char (ascii_of_N 34)) with false.
  change (Ascii.eqb "{"%char "["%char) with false.
  change (Ascii.eqb "{"%char "{"%char) with true. cbn iota.
  rewrite Hc. reflexivity.
Qed.

Lemma parse_items_step (fuel : nat) (s : string) (v : JSON) (c : ascii) (rest : string) :
  parse_value fuel s = Some (v, String c rest) ->
  parse_items (S fuel) s
  = if Ascii.eqb c ","%char
    then option_map (fun r => (v :: fst r, snd r)) (parse_items fuel rest)
    else if Ascii.eqb c "]"%char then Some ([v], rest) else None.
Proof. intros Hv. cbn [parse_items]. rewrite Hv. reflexivity. Qed.

Lemma parse_members_step (fuel : nat) (s : string) (k : string) (text : string)
  (v : JSON) (c : ascii) (rest : string) :
  JSON_unquote s = Some (k, String ":"%char text) ->
  parse_value fuel text = Some (v, String c rest) ->
  parse_members (S fuel) s
  = if Ascii.eqb c ","%char
    then option_map (fun r => ((k, v) :: fst r, snd r)) (parse_members fuel rest)
    else if Ascii.eqb c "}"%char then Some ([(k, v)], rest) else None.
Proof.
  intros Hk Hv. cbn [parse_members]. rewrite Hk.
  change (Ascii.eqb ":"%char ":"%char) with true. cbn iota. rewrite Hv. reflexivity.
Qed.

Lemma stringify_array (items : list JSON) :
  JSON_stringify (JArray items) = "[" ++ join_comma (map JSON_stringify items) ++ "]".
Proof. reflexivity. Qed.

Lemma stringify_object (members : list (string * JSON)) :
  JSON_stringify (JObject members) = "{" ++ join_comma (map member_text members) ++ "}".
Proof. reflexivity. Qed.

(** With fuel for its size, the reader gives back every value written, and
    the text that follows it. *)
Lemma parse_stringify_fuel (fuel : nat) :
  (forall v rest,
     (JSON_size v <= fuel)%nat -> no_digit_head rest = true ->
     parse_value fuel (JSON_stringify v ++ rest) = Some (v, rest))
  /\ (forall items rest,
        items <> [] -> (items_size items <= fuel)%nat ->
        parse_items fuel (join_comma (map JSON_stringify items) ++ "]" ++ rest)
        = Some (items, rest))
  /\ (forall members rest,
        members <> [] -> (members_size members <= fuel)%nat ->
        parse_members fuel (join_comma (map member_text members) ++ "}" ++ rest)
        = Some (members, rest)).
Proof.
  induction fuel as [|fuel (IHv & IHi & IHm)].
  - split; [|split].
    + intros v rest Hsize. pose proof (JSON_size_positive v). lia.
    + intros [|x items] rest Hne Hsize; [congruence | cbn [items_size] in Hsize; lia].
    + intros [|kv members] rest Hne Hsize;
        [congruence | cbn [members_size] in Hsize; lia].
  - split; [|split].
    + intros [s|z|items|members] rest Hsize Hrest.
      * cbn [JSON_stringify]. unfold QuoteJSONString.
        rewrite !append_assoc.
        change (dquote ++ quote_chars s ++ dquote ++ rest)
          with (String (ascii_of_N 34) (quote_chars s ++ dquote ++ rest)).
        rewrite parse_value_string, unquote_quote_chars. reflexivity.
      * cbn [JSON_stringify].
        destruct (number_head z) as (c & t & Heq & H1 & H2 & H3 & _).
        rewrite (parse_value_number fuel (Number_toString z ++ rest) c (t ++ rest));
          [now apply parse_number_toString | now rewrite Heq | assumption..].
      * rewrite JSON_size_array in Hsize. destruct items as [|x items].
        { reflexivity. }
        rewrite stringify_array, !append_assoc.
        change ("[" ++ join_comma (map JSON_stringify (x :: items)) ++ "]" ++ rest)
          with (String "["%char
                  (join_comma (map JSON_stringify (x :: items)) ++ "]" ++ rest)).
        destruct (stringify_head x) as (c & t & Heq & Hc & _).
        assert (Htext : exists t',
                   join_comma (map JSON_stringify (x :: items)) ++ "]" ++ rest
                   = String c t').
        { destruct items as [|y items]; cbn [map join_comma String.concat];
            unfold join_comma; cbn [String.concat]; rewrite Heq; cbn [append];
            eexists; reflexivity. }
        destruct Htext as (t' & Htext).
        rewrite (parse_value_array fuel _ c t' Htext Hc).
        rewrite IHi; [reflexivity | discriminate | lia].
      * rewrite JSON_size_object in Hsize. destruct members as [|kv members].
        { reflexivity. }
        rewrite stringify_object, !append_assoc.
        change ("{" ++ join_comma (map member_text (kv :: members)) ++ "}" ++ rest)
          with (String "{"%char
                  (join_comma (map member_text (kv :: members)) ++ "}" ++ rest)).
        assert (Htext : exists t',
                   join_comma (map member_text (kv :: members)) ++ "}" ++ rest
                   = String (ascii_of_N 34) t').
        { destruct members as [|kv' members]; cbn [map];
            unfold join_comma; cbn [String.concat]; unfold member_text at 1;
            unfold QuoteJSONString; cbn [dquote append]; eexists; reflexivity. }
        destruct Htext as (t' & Htext).
        rewrite (parse_value_object fuel _ _ t' Htext eq_refl).
        rewrite IHm; [reflexivity | discriminate | lia].
    + intros [|x items] rest Hne Hsize; [congruence|]. cbn [items_size] in Hsize.
      destruct items as [|y items].
      * cbn [map]. unfold join_comma. cbn [String.concat].
        rewrite (parse_items_step fuel _ x "]"%char rest).
        { reflexivity. }
        apply IHv; [lia | reflexivity].
      * cbn [map]. unfold join_comma. cbn [String.concat]. rewrite !append_assoc.
        rewrite (parse_items_step fuel _ x ","%char
                   (String.concat "," (JSON_stringify y :: map JSON_stringify items)
                      ++ "]" ++ rest)).
        { change (Ascii.eqb ","%char ","%char) with true. cbn iota.
          change (String.concat "," (JSON_stringify y :: map JSON_stringify items))
            with (join_comma (map JSON_stringify (y :: items))).
          rewrite IHi; [reflexivity | discriminate | lia]. }
        apply IHv; [lia | reflexivity].
    + intros [|kv members] rest Hne Hsize; [congruence|]. cbn [members_size] in Hsize.
      destruct members as [|kv' members].
      * cbn [map]. unfold join_comma. cbn [String.concat]. unfold member_text.
        rewrite !append_assoc.
        rewrite (parse_members_step fuel _ (fst kv)
                   (JSON_stringify (snd kv) ++ "}" ++ rest) (snd kv) "}"%char rest).
        { destruct kv. reflexivity. }
        { apply unquote_literal. }
        apply IHv; [lia | reflexivity].
      * cbn [map]. unfold join_comma. cbn [String.concat]. unfold member_text at 1.
        rewrite !append_assoc.
        rewrite (parse_members_step fuel _ (fst kv)
                   (JSON_stringify (snd kv) ++ "," ++
                      String.concat "," (member_text kv' :: map member_text members)
                      ++ "}" ++ rest)
                   (snd kv) ","%char
                   (String.concat "," (member_text kv' :: map member_text members)
                      ++ "}" ++ rest)).
        { change (Ascii.eqb ","%char ","%char) with true. cbn iota.
          change (String.concat "," (member_text kv' :: map member_text members))
            with (join_comma (map member_text (kv' :: members))).
          rewrite IHm; [destruct kv; reflexivity | discriminate | lia]. }
        { apply unquote_literal. }
        apply IHv; [lia | reflexivity].
Qed.

Lemma append_empty_r (s : string) : s ++ "" = s.
Proof. induction s as [|c s IH]; cbn [append]; [reflexivity | now rewrite IH]. Qed.

Lemma parse_stringify (v : JSON) (fuel : nat) :
  (JSON_size v <= fuel)%nat -> JSON_parse fuel (JSON_stringify v) = Some v.
Proof.
  intros Hsize. unfold JSON_parse.
  destruct (parse_stringify_fuel fuel) as (Hvalue & _).
  rewrite <- (append_empty_r (JSON_stringify v)).
  rewrite (Hvalue v "" Hsize eq_refl). reflexivity.
Qed.

Lemma mui_payload_size (data : AppMui.FormValues) :
  (JSON_size (AppMui.result data) <= 8)%nat.
Proof.
  destruct data as [[[] [] []] [[] [] []] v u c]; cbn; lia.
Qed.

Lemma venus_payload_size (data : AppVenus.FormValues) :
  (JSON_size (AppVenus.result data) <= 9)%nat.
Proof.
  destruct data as [[[] [] []] [[] [] []] v u c]; cbn; lia.
Qed.

Lemma sidebar_payload_size (data : AppSidebar.FormValues) (host : AppSidebar.HostState) :
  (JSON_size (AppSidebar.result data host) <= 10)%nat.
Proof.
  destruct data as [[[] [] []] [[] [] []] v]; cbn; lia.
Qed.

(** X16: the text written by [JSON.stringify] reads back as the value it
    was written from, whenever the reader has fuel for the size of the
    value; ten units are enough for the payload of every revision, so the
    serialized payload determines the selections: two forms with the same
    payload text have the same payload. *)
Theorem payload_text_reads_back :
  (forall (v : JSON) (fuel : nat),
     (JSON_size v <= fuel)%nat -> JSON_parse fuel (JSON_stringify v) = Some v)
  /\ (forall data : AppMui.FormValues,
        JSON_parse 10 (JSON_stringify (AppMui.result data)) = Some (AppMui.result data))
  /\ (forall data : AppVenus.FormValues,
        JSON_parse 10 (JSON_stringify (AppVenus.result data))
        = Some (AppVenus.result data))
  /\ (forall (data : AppSidebar.FormValues) (host : AppSidebar.HostState),
        JSON_parse 10 (JSON_stringify (AppSidebar.result data host))
        = Some (AppSidebar.result data host))
  /\ (forall v v' : JSON, JSON_stringify v = JSON_stringify v' -> v = v').
Proof.
  split; [exact parse_stringify|]. split; [|split; [|split]].
  - intros data. apply parse_stringify. pose proof (mui_payload_size data). lia.
  - intros data. apply parse_stringify. pose proof (venus_payload_size data). lia.
  - intros data host. apply parse_stringify.
    pose proof (sidebar_payload_size data host). lia.
  - intros v v' Heq.
    pose proof (parse_stringify v (JSON_size v + JSON_size v') ltac:(lia)) as Hv.
    pose proof (parse_stringify v' (JSON_size v + JSON_size v') ltac:(lia)) as Hv'.
    rewrite Heq in Hv. congruence.
Qed.

(** X16 on the payload of the filled-in second form. *)
Lemma payload_text_reads_back_witness :
  JSON_parse 9 (JSON_stringify (AppVenus.result venus_filled))
  = Some (AppVenus.result venus_filled)
  /\ JSON_parse 8 (JSON_stringify (AppVenus.result venus_filled)) = None.
Proof.
  split; [|reflexivity].
  destruct payload_text_reads_back as (Hread & _).
  apply Hread. cbn. lia.
Defined.

(** ** Completing the form *)

Lemma ticked_environment_selected (box : EnvironmentBox) (e : Environments) :
  ~ none_selected_env (tick_environment box true e).
Proof.
  unfold none_selected_env. destruct box; cbn; intros (H1 & H2 & H3); discriminate.
Qed.

Lemma ticked_locale_selected (box : LocaleBox) (l : Locales) :
  ~ none_selected_locale (tick_locale box true l).
Proof.
  unfold none_selected_locale. destruct box; cbn; intros (H1 & H2 & H3); discriminate.
Qed.

(** X17: whatever state the form is in (values entered before, stale or
    fresh inline errors), ticking one environment and one locale, choosing a
    variant and typing a non-empty entry uid and content type, then clicking
    Submit, opens exactly one tab and leaves no inline error.  In the
    sidebar revision the same holds once the three host values are
    present. *)
Theorem completed_form_always_submits {P : Platform} :
  (forall (w : World AppMui.FormValues unit) (box : EnvironmentBox) (locale : LocaleBox)
          (variant uid type : string),
     variant <> "" -> uid <> "" -> type <> "" ->
     let filled :=
       play MuiForm.handle
         [MuiForm.Change (MuiForm.environments_input box true);
          MuiForm.Change (MuiForm.locales_input locale true);
          MuiForm.Change (MuiForm.variant_input variant);
          MuiForm.Change (MuiForm.entryUid_input uid);
          MuiForm.Change (MuiForm.contentType_input type)] w in
     calls filled = calls w
     /\ (exists url,
           window_opens (click_trace AppMui.handleButtonClick filled) = [(url, "_blank")])
     /\ formErrors (run AppMui.handleButtonClick filled) = [])
  /\ (forall (w : World AppVenus.FormValues unit) (box : EnvironmentBox)
             (locale : LocaleBox) (variant : Variant) (uid type : string),
     label variant <> "" -> value variant <> "" -> uid <> "" -> type <> "" ->
     let filled :=
       play VenusForm.handle
         [VenusForm.Change (VenusForm.environments_input box true);
          VenusForm.Change (VenusForm.locales_input locale true);
          VenusForm.Change (VenusForm.variant_input variant);
          VenusForm.Change (VenusForm.entryUid_input uid);
          VenusForm.Change (VenusForm.contentType_input type)] w in
     calls filled = calls w
     /\ (exists url,
           window_opens (click_trace AppVenus.handleButtonClick filled)
           = [(url, "_blank")])
     /\ formErrors (run AppVenus.handleButtonClick filled) = [])
  /\ (forall (w : World AppSidebar.FormValues AppSidebar.HostState)
             (box : EnvironmentBox) (locale : LocaleBox) (variant : Variant),
     label variant <> "" -> value variant <> "" ->
     AppSidebar.entryUid (hooks w) <> "" -> AppSidebar.contentType (hooks w) <> "" ->
     AppSidebar.stackAPI (hooks w) <> "" ->
     let filled :=
       play SidebarForm.handle
         [SidebarForm.Change (SidebarForm.environments_input box true);
          SidebarForm.Change (SidebarForm.locales_input locale true);
          SidebarForm.Change (SidebarForm.variant_input variant)] w in
     calls filled = calls w
     /\ (exists url,
           window_opens (click_trace AppSidebar.handleButtonClick filled)
           = [(url, "_blank")])
     /\ formErrors (run AppSidebar.handleButtonClick filled) = []).
Proof.
  split; [|split].
  - intros w box locale variant uid type Hv Hu Ht. cbv zeta.
    rewrite !play_cons. unfold play. cbn [fold_left MuiForm.handle].
    rewrite !mui_change_run. cbn [formValues formErrors hooks rng calls].
    match goal with |- context [click_trace _ ?filled] => set (w' := filled) end.
    assert (Hp : passes AppMui.formSchema (formValues w') = true).
    { apply mui_passes_iff. subst w'. cbn [formValues MuiForm.field_value
        AppMui.environments AppMui.locales AppMui.variant AppMui.entryUid
        AppMui.contentType].
      split; [apply ticked_environment_selected|].
      split; [apply ticked_locale_selected|]. auto. }
    split; [reflexivity|]. rewrite (mui_trace_valid w' Hp). split.
    + eexists. reflexivity.
    + apply passes_iff_no_issue in Hp. now rewrite (mui_click_valid w' Hp).
  - intros w box locale variant uid type Hl Hv Hu Ht. cbv zeta.
    rewrite !play_cons. unfold play. cbn [fold_left VenusForm.handle].
    rewrite !venus_change_run. cbn [formValues formErrors hooks rng calls].
    match goal with |- context [click_trace _ ?filled] => set (w' := filled) end.
    assert (Hp : passes AppVenus.formSchema (formValues w') = true).
    { destruct (passes AppVenus.formSchema (formValues w')) eqn:Hp; [reflexivity|].
      exfalso. apply venus_fails_iff in Hp. subst w'.
      cbn [formValues VenusForm.field_value AppVenus.environments AppVenus.locales
           AppVenus.variant AppVenus.entryUid AppVenus.contentType] in Hp.
      destruct Hp as [Hp|[Hp|[Hp|[Hp|[Hp|Hp]]]]]; try contradiction.
      - exact (ticked_environment_selected _ _ Hp).
      - exact (ticked_locale_selected _ _ Hp). }
    split; [reflexivity|]. rewrite (venus_trace_valid w' Hp). split.
    + eexists. reflexivity.
    + apply passes_iff_no_issue in Hp. now rewrite (venus_click_valid w' Hp).
  - intros w box locale variant Hl Hv H1 H2 H3. cbv zeta.
    rewrite !play_cons. unfold play. cbn [fold_left SidebarForm.handle].
    rewrite !sidebar_change_run. cbn [formValues formErrors hooks rng calls].
    match goal with |- context [click_trace _ ?filled] => set (w' := filled) end.
    assert (Hg : AppSidebar.entryUid (hooks w') <> ""
                 /\ AppSidebar.contentType (hooks w') <> ""
                 /\ AppSidebar.stackAPI (hooks w') <> "") by (subst w'; cbn [hooks]; auto).
    assert (Hp : passes AppSidebar.formSchema (formValues w') = true).
    { destruct (passes AppSidebar.formSchema (formValues w')) eqn:Hp; [reflexivity|].
      exfalso. apply sidebar_fails_iff in Hp. subst w'.
      cbn [formValues SidebarForm.field_value AppSidebar.environments AppSidebar.locales
           AppSidebar.variant] in Hp.
      destruct Hp as [Hp|[Hp|[Hp|Hp]]]; try contradiction.
      - exact (ticked_environment_selected _ _ Hp).
      - exact (ticked_locale_selected _ _ Hp). }
    split; [reflexivity|]. rewrite (sidebar_trace_valid w' Hg Hp). split.
    + eexists. reflexivity.
    + apply passes_iff_no_issue in Hp. now rewrite (sidebar_click_valid w' Hg Hp).
Qed.

(** X17 from the first form after a failed click. *)
Lemma completed_form_always_submits_witness :
  formErrors (run AppMui.handleButtonClick mui_empty) <> []
  /\ formErrors
       (run AppMui.handleButtonClick
          (play MuiForm.handle
             [MuiForm.Change (MuiForm.environments_input staging_box true);
              MuiForm.Change (MuiForm.locales_input en_us_box true);
              MuiForm.Change (MuiForm.variant_input "tech");
              MuiForm.Change (MuiForm.entryUid_input "blt01");
              MuiForm.Change (MuiForm.contentType_input "page")]
             (run AppMui.handleButtonClick mui_empty))) = [].
Proof.
  split; [discriminate|].
  destruct (@completed_form_always_submits stub_platform) as (Hm & _).
  apply (Hm (run AppMui.handleButtonClick mui_empty) staging_box en_us_box
            "tech" "blt01" "page"); discriminate.
Defined.
